(** * Thesis checker: structural extractor and rule engine

    A shallow embedding of [docx_extractor.py], [registry.py] and the rule
    modules the registry instantiates, followed by the theorems that settle
    the properties stated about them.

    Conventions of the embedding
    - A Python [str] is a list of Unicode code points ([list N]).  String
      literals are written [u "..."], which decodes the UTF-8 bytes of the
      Rocq literal.
    - Python's Unicode tables ([str.isspace], [str.lower], [\w], [\d],
      [unicodedata.normalize], ...) are transcribed for the code points
      U+0000..U+00FF together with the Unicode white space above that range
      that [str.isspace] accepts.
      Other code points are carried through unchanged and belong to no
      class; texts are assumed to stay inside that range.
    - Python [int]s that are counts or positions are [nat]; parsed numbers
      are [Z].
    - A Python [dict] keyed by strings that is only read by key is a
      [gmap str _]. *)

From Stdlib Require Import ZArith NArith List String Ascii Bool Lia Sorted.
From stdpp Require Import gmap list.

Set Implicit Arguments.
Unset Strict Implicit.
Local Open Scope N_scope.

(** ** Code points and string literals *)

Definition char := N.
Definition str := list char.

Fixpoint bytes_of_string (s : string) : list N :=
  match s with
  | EmptyString => []
  | String a r => N_of_ascii a :: bytes_of_string r
  end.

(** UTF-8 decoding of a well-formed byte sequence (1 to 4 byte forms). *)
Fixpoint utf8_decode (bs : list N) : str :=
  match bs with
  | [] => []
  | b :: r =>
    if b <? 128 then b :: utf8_decode r
    else if b <? 224 then
      match r with
      | b1 :: r1 => ((b - 192) * 64 + (b1 - 128)) :: utf8_decode r1
      | _ => []
      end
    else if b <? 240 then
      match r with
      | b1 :: b2 :: r2 =>
        ((b - 224) * 4096 + (b1 - 128) * 64 + (b2 - 128)) :: utf8_decode r2
      | _ => []
      end
    else
      match r with
      | b1 :: b2 :: b3 :: r3 =>
        ((b - 240) * 262144 + (b1 - 128) * 4096 + (b2 - 128) * 64 + (b3 - 128))
          :: utf8_decode r3
      | _ => []
      end
  end.

Definition u (s : string) : str := utf8_decode (bytes_of_string s).
Arguments u s%_string.

(** The code point of a one-character literal. *)
Definition cp (s : string) : char := hd 0 (u s).
Arguments cp s%_string.

Definition in_range (lo hi c : char) : bool := (lo <=? c) && (c <=? hi).

(** ** Python's Unicode tables, as far as the program consults them *)

Module unicodedata.

(** [str.isspace] on one character; also the class [\s] of [re]. *)
Definition isspace (c : char) : bool :=
  in_range 9 13 c || in_range 28 32 c || (c =? 133) || (c =? 160)
  || (c =? 5760) || in_range 8192 8202 c || (c =? 8232) || (c =? 8233)
  || (c =? 8239) || (c =? 8287) || (c =? 12288).

(** The class [\d] of [re] (category Nd). *)
Definition isdecimal (c : char) : bool := in_range 48 57 c.

(** [str.isdigit] on one character: Nd and the superscripts 1, 2, 3. *)
Definition isdigit (c : char) : bool :=
  isdecimal c || (c =? 178) || (c =? 179) || (c =? 185).

(** The class [\w] of [re]: alphanumeric or underscore. *)
Definition isword (c : char) : bool :=
  in_range 48 57 c || in_range 65 90 c || (c =? 95) || in_range 97 122 c
  || (c =? 170) || (c =? 178) || (c =? 179) || (c =? 181) || (c =? 185)
  || (c =? 186) || in_range 188 190 c || in_range 192 214 c
  || in_range 216 246 c || in_range 248 255 c.

Definition isupper (c : char) : bool :=
  in_range 65 90 c || in_range 192 214 c || in_range 216 222 c.

Definition islower_letter (c : char) : bool :=
  in_range 97 122 c || in_range 224 246 c || in_range 248 254 c.

Definition lower (c : char) : char := if isupper c then c + 32 else c.

(** Line boundaries of [str.splitlines]. *)
Definition islinebreak (c : char) : bool :=
  in_range 10 13 c || in_range 28 30 c || (c =? 133) || (c =? 8232)
  || (c =? 8233).

(** [unicodedata.combining(c) != 0] (combining diacritical marks). *)
Definition combining (c : char) : bool := in_range 768 879 c.

(** Compatibility mappings shared by NFKC and NFKD. *)
Definition compat (c : char) : option str :=
  if c =? 160 then Some [32]
  else if c =? 168 then Some [32; 776]
  else if c =? 170 then Some [97]
  else if c =? 175 then Some [32; 772]
  else if c =? 178 then Some [50]
  else if c =? 179 then Some [51]
  else if c =? 180 then Some [32; 769]
  else if c =? 181 then Some [956]
  else if c =? 184 then Some [32; 807]
  else if c =? 185 then Some [49]
  else if c =? 186 then Some [111]
  else if c =? 188 then Some [49; 8260; 52]
  else if c =? 189 then Some [49; 8260; 50]
  else if c =? 190 then Some [51; 8260; 52]
  else None.

Definition normalize_NFKC (s : str) : str :=
  flat_map (fun c => match compat c with Some r => r | None => [c] end) s.

(** Canonical decompositions of the accented Latin-1 letters: the base
    letter and the combining mark. *)
Definition accent_of (k : N) : N :=
  (* grave, acute, circumflex, tilde, diaeresis, ring *)
  match k with
  | 0 => 768 | 1 => 769 | 2 => 770 | 3 => 771 | 4 => 776 | _ => 778
  end.

Definition decompose_upper (c : char) : option str :=
  if in_range 192 197 c then Some [65; accent_of (c - 192)]
  else if c =? 199 then Some [67; 807]
  else if in_range 200 202 c then Some [69; accent_of (c - 200)]
  else if c =? 203 then Some [69; 776]
  else if in_range 204 206 c then Some [73; accent_of (c - 204)]
  else if c =? 207 then Some [73; 776]
  else if c =? 209 then Some [78; 771]
  else if in_range 210 214 c then Some [79; accent_of (c - 210)]
  else if in_range 217 219 c then Some [85; accent_of (c - 217)]
  else if c =? 220 then Some [85; 776]
  else if c =? 221 then Some [89; 769]
  else None.

Definition decompose (c : char) : option str :=
  if c =? 255 then Some [121; 776]
  else if in_range 224 253 c then
    match decompose_upper (c - 32) with
    | Some (b :: m) => Some (b + 32 :: m)
    | _ => None
    end
  else decompose_upper c.

Definition normalize_NFKD (s : str) : str :=
  flat_map (fun c =>
    match compat c with
    | Some r => r
    | None => match decompose c with Some r => r | None => [c] end
    end) s.

End unicodedata.

(** ** Python built-ins on strings and lists *)

Module Py.

Definition eqb (a b : str) : bool := bool_decide (a = b).

Definition lower (s : str) : str := map unicodedata.lower s.

Fixpoint lstrip (s : str) : str :=
  match s with
  | c :: r => if unicodedata.isspace c then lstrip r else s
  | [] => []
  end.

Definition rstrip (s : str) : str := rev (lstrip (rev s)).

Definition strip (s : str) : str := rstrip (lstrip s).

(** [s.rstrip(".")] *)
Definition rstrip_chr (c : char) (s : str) : str :=
  rev ((fix go (t : str) : str :=
          match t with
          | d :: r => if d =? c then go r else t
          | [] => []
          end) (rev s)).

(** [s.replace(old, new)] for a one-character [old]. *)
Definition replace_chr (old : char) (new : str) (s : str) : str :=
  flat_map (fun c => if c =? old then new else [c]) s.

Fixpoint startswith (s p : str) : bool :=
  match p, s with
  | [], _ => true
  | a :: p', b :: s' => (a =? b) && startswith s' p'
  | _ :: _, [] => false
  end.

(** [p in s] for strings. *)
Fixpoint contains (s p : str) : bool :=
  startswith s p || match s with [] => false | _ :: r => contains r p end.

(** [sep.join(parts)] *)
Fixpoint join (sep : str) (parts : list str) : str :=
  match parts with
  | [] => []
  | [x] => x
  | x :: r => x ++ sep ++ join sep r
  end.

(** [s.split(sep)] for a one-character separator: the pieces between the
    separators, empty pieces included. *)
Fixpoint split_chr (sep : char) (s : str) : list str :=
  match s with
  | [] => [[]]
  | c :: r =>
    if c =? sep then [] :: split_chr sep r
    else match split_chr sep r with
         | p :: ps => (c :: p) :: ps
         | [] => [[c]]
         end
  end.

(** [s.split(sep, 1)] *)
Fixpoint split_chr_1 (sep : char) (s : str) : list str :=
  match s with
  | [] => [[]]
  | c :: r =>
    if c =? sep then [[]; r]
    else match split_chr_1 sep r with
         | p :: ps => (c :: p) :: ps
         | [] => [[c]]
         end
  end.

(** [s.splitlines()] *)
Fixpoint splitlines_from (cur : str) (s : str) : list str :=
  match s with
  | [] => match cur with [] => [] | _ => [rev cur] end
  | c :: r =>
    if c =? 13 then
      match r with
      | 10 :: r' => rev cur :: splitlines_from [] r'
      | _ => rev cur :: splitlines_from [] r
      end
    else if unicodedata.islinebreak c then rev cur :: splitlines_from [] r
    else splitlines_from (c :: cur) r
  end.

Definition splitlines (s : str) : list str := splitlines_from [] s.

(** [s.isdigit()] *)
Definition isdigit (s : str) : bool :=
  match s with [] => false | _ => forallb unicodedata.isdigit s end.

(** [s.count(c)] for a one-character [c]. *)
Definition count_chr (c : char) (s : str) : nat :=
  length (filter (fun d => d = c) s).

(** [s.title()]: a cased letter is upper-cased after an uncased
    character and lower-cased after a cased one. *)
Fixpoint title_from (prev_cased : bool) (s : str) : str :=
  match s with
  | [] => []
  | c :: r =>
    if unicodedata.isupper c then
      (if prev_cased then c + 32 else c) :: title_from true r
    else if unicodedata.islower_letter c then
      (if prev_cased then c else c - 32) :: title_from true r
    else c :: title_from false r
  end.

Definition title (s : str) : str := title_from false s.

(** [str(n)] for a non-negative integer. *)
Fixpoint digits_from (fuel : nat) (n : N) (acc : str) : str :=
  match fuel with
  | O => acc
  | S f =>
    let acc' := (48 + n mod 10) :: acc in
    if n / 10 =? 0 then acc' else digits_from f (n / 10) acc'
  end.

Definition str_of_N (n : N) : str := digits_from (S (N.size_nat n)) n [].
Definition str_of_nat (n : nat) : str := str_of_N (N.of_nat n).
Definition str_of_Z (z : Z) : str :=
  match z with
  | Zneg p => 45 :: str_of_N (Npos p)
  | _ => str_of_N (Z.to_N z)
  end.

(** [int(s)]: surrounding white space, an optional sign, decimal digits
    with single underscores between them; [None] stands for ValueError. *)
Fixpoint int_digits (acc : Z) (after_digit : bool) (s : str) : option Z :=
  match s with
  | [] => if after_digit then Some acc else None
  | c :: r =>
    if c =? 95 then (if after_digit then int_digits acc false r else None)
    else if unicodedata.isdecimal c
         then int_digits (acc * 10 + Z.of_N (c - 48))%Z true r
         else None
  end.

Definition int (s : str) : option Z :=
  match strip s with
  | [] => None
  | c :: r =>
    if c =? 45 then Z.opp <$> int_digits 0%Z false r
    else if c =? 43 then int_digits 0%Z false r
    else int_digits 0%Z false (c :: r)
  end.

(** [l[a:b]] for non-negative bounds. *)
Definition slice {A} (l : list A) (a b : nat) : list A :=
  take (b - a)%nat (drop a l).

(** Lexicographic order of strings by code point ([<=] of [str]). *)
Fixpoint le (a b : str) : bool :=
  match a, b with
  | [], _ => true
  | _ :: _, [] => false
  | x :: a', y :: b' => (x <? y) || ((x =? y) && le a' b')
  end.

(** Order of tuples of integers. *)
Fixpoint le_Zs (a b : list Z) : bool :=
  match a, b with
  | [], _ => true
  | _ :: _, [] => false
  | x :: a', y :: b' => (x <? y)%Z || ((x =? y)%Z && le_Zs a' b')
  end.

(** [sorted(l, key=...)]: stable; [leb x y] is [key x <= key y]. *)
Fixpoint insert_sorted {A} (leb : A -> A -> bool) (x : A) (l : list A)
  : list A :=
  match l with
  | [] => [x]
  | y :: r => if leb x y then x :: l else y :: insert_sorted leb x r
  end.

Definition sorted {A} (leb : A -> A -> bool) (l : list A) : list A :=
  foldr (fun x acc => insert_sorted leb x acc) [] l.

(** The distinct elements in order of first occurrence
    ([list(dict.fromkeys(l))]; also the elements of [set(l)]). *)
Fixpoint unique (l : list str) : list str :=
  match l with
  | [] => []
  | x :: r => x :: filter (fun y => y ≠ x) (unique r)
  end.

Definition mem (x : str) (l : list str) : bool := bool_decide (x ∈ l).

End Py.

(** ** Regular expressions

    Python's [re] is a backtracking matcher: alternatives are tried from
    left to right, a greedy repetition tries one more iteration before it
    tries to stop, a lazy one the other way round.  [run r st] lists the
    states in which a match of [r] started in state [st] can end, in the
    order in which the backtracking matcher reaches them; its head is the
    match Python reports.  The repeated expressions of this program never
    match the empty string, so an iteration is required to advance. *)

Module Re.

Inductive regex :=
| Eps
| Set_ (p : char -> bool)          (* a literal, a class or [.] *)
| Cat (a b : regex)
| Alt (a b : regex)
| Star (r : regex)                 (* r* *)
| LazyStar (r : regex)             (* r*? *)
| Bol                              (* ^ *)
| Eol                              (* $ *)
| WordB                            (* \b *)
| Group (i : nat) (r : regex).     (* the i-th capturing group *)

(** A position in the subject and the spans captured so far. *)
Record mstate := MState { pos : nat; caps : list (nat * (nat * nat)) }.

Fixpoint star_loop (greedy : bool) (step : mstate -> list mstate)
         (fuel : nat) (st : mstate) : list mstate :=
  match fuel with
  | O => [st]
  | S f =>
    let more :=
      flat_map (fun st' =>
                  if (pos st <? pos st')%nat
                  then star_loop greedy step f st' else [])
               (step st) in
    if greedy then more ++ [st] else st :: more
  end.

Section Engine.
Variable s : str.

Definition at_word (i : nat) : bool :=
  match s !! i with Some c => unicodedata.isword c | None => false end.

Definition word_boundary (i : nat) : bool :=
  xorb (match i with O => false | S j => at_word j end) (at_word i).

Definition at_end (i : nat) : bool :=
  (length s <=? i)%nat
  || ((S i =? length s)%nat && bool_decide (s !! i = Some 10)).

Fixpoint run (r : regex) (st : mstate) : list mstate :=
  match r with
  | Eps => [st]
  | Set_ p =>
    match s !! pos st with
    | Some c => if p c then [MState (S (pos st)) (caps st)] else []
    | None => []
    end
  | Cat a b => flat_map (run b) (run a st)
  | Alt a b => run a st ++ run b st
  | Star r' => star_loop true (run r') (S (length s - pos st)) st
  | LazyStar r' => star_loop false (run r') (S (length s - pos st)) st
  | Bol => if (pos st =? 0)%nat then [st] else []
  | Eol => if at_end (pos st) then [st] else []
  | WordB => if word_boundary (pos st) then [st] else []
  | Group i r' =>
    map (fun st' => MState (pos st') ((i, (pos st, pos st')) :: caps st'))
        (run r' st)
  end.

(** A match: where it starts, where it ends, what it captured. *)
Record Match := MkMatch { m_start : nat; m_end : nat;
                          m_caps : list (nat * (nat * nat)) }.

Definition match_at (r : regex) (i : nat) : option Match :=
  match run r (MState i []) with
  | st :: _ => Some (MkMatch i (pos st) (caps st))
  | [] => None
  end.

(** The leftmost match starting at one of the [fuel] positions from [i]. *)
Fixpoint search_from (r : regex) (fuel : nat) (i : nat) : option Match :=
  match match_at r i with
  | Some m => Some m
  | None => match fuel with
            | O => None
            | S f => search_from r f (S i)
            end
  end.

Fixpoint finditer_from (r : regex) (fuel : nat) (i : nat) : list Match :=
  match fuel with
  | O => []
  | S f =>
    match search_from r (length s - i) i with
    | None => []
    | Some m =>
      m :: (if (m_start m <? m_end m)%nat
            then finditer_from r f (m_end m)
            else if (m_end m <? length s)%nat
                 then finditer_from r f (S (m_end m)) else [])
    end
  end.

Definition span (a b : nat) : str := take (b - a) (drop a s).

(** [m.group(0)] *)
Definition group0 (m : Match) : str := span (m_start m) (m_end m).

(** [m.group(i)] of a group that took part in the match. *)
Definition group (i : nat) (m : Match) : str :=
  match find (fun c => (fst c =? i)%nat) (m_caps m) with
  | Some (_, (a, b)) => span a b
  | None => []
  end.

Fixpoint sub_from (repl : str) (i : nat) (ms : list Match) : str :=
  match ms with
  | [] => drop i s
  | m :: r => span i (m_start m) ++ repl ++ sub_from repl (m_end m) r
  end.

End Engine.

(** [re.match(r, s)] *)
Definition match_ (r : regex) (s : str) : option Match := match_at s r 0.
(** [re.search(r, s)] *)
Definition search (r : regex) (s : str) : option Match :=
  search_from s r (length s) 0.
(** [re.finditer(r, s)] *)
Definition finditer (r : regex) (s : str) : list Match :=
  finditer_from s r (S (length s)) 0.
(** [re.findall(r, s)] for a pattern without groups. *)
Definition findall (r : regex) (s : str) : list str :=
  map (group0 s) (finditer r s).
(** [re.findall(r, s)] for a pattern with one group. *)
Definition findall1 (r : regex) (s : str) : list str :=
  map (group s 1) (finditer r s).
(** [re.sub(r, repl, s)] *)
Definition sub (r : regex) (repl : str) (s : str) : str :=
  sub_from s repl 0 (finditer r s).
Definition matches (r : regex) (s : str) : bool :=
  bool_decide (is_Some (match_ r s)).
Definition found (r : regex) (s : str) : bool :=
  bool_decide (is_Some (search r s)).

(** *** Pattern syntax *)

Definition chr (c : char) : regex := Set_ (fun x => x =? c)%N.
(** a literal character under [re.IGNORECASE] *)
Definition chr_i (c : char) : regex :=
  Set_ (fun x => unicodedata.lower x =? unicodedata.lower c)%N.
Definition seq (rs : list regex) : regex := foldr Cat Eps rs.
Definition lit (s : str) : regex := seq (map chr s).
Definition lit_i (s : str) : regex := seq (map chr_i s).
Definition alts (rs : list regex) : regex :=
  match rs with [] => Eps | r :: rest => foldl Alt r rest end.
Definition plus (r : regex) : regex := Cat r (Star r).
Definition opt (r : regex) : regex := Alt r Eps.
Fixpoint times (n : nat) (r : regex) : regex :=
  match n with O => Eps | S k => Cat r (times k r) end.
(** [r{0,n}] *)
Fixpoint upto (n : nat) (r : regex) : regex :=
  match n with O => Eps | S k => opt (Cat r (upto k r)) end.
(** [r{lo,hi}] and [r{lo,}] *)
Definition between (lo hi : nat) (r : regex) : regex :=
  Cat (times lo r) (upto (hi - lo) r).
Definition at_least (lo : nat) (r : regex) : regex :=
  Cat (times lo r) (Star r).

Definition d : regex := Set_ unicodedata.isdecimal.          (* \d *)
Definition w : regex := Set_ unicodedata.isword.             (* \w *)
Definition ws : regex := Set_ unicodedata.isspace.           (* \s *)
Definition nws : regex :=
  Set_ (fun c => negb (unicodedata.isspace c)).               (* \S *)
Definition dot : regex := Set_ (fun c => negb (c =? 10)%N).  (* . *)
Definition one_of (cs : str) (c : char) : bool :=
  existsb (fun x => x =? c)%N cs.

End Re.

Local Open Scope nat_scope.

(** Python truthiness of a string and of an optional string. *)
Definition nonempty (s : str) : bool := match s with [] => false | _ => true end.
Definition truthy (o : option str) : bool :=
  match o with Some s => nonempty s | None => false end.

(** ** The document model ([models/document_model.py], [models/findings.py]) *)

(** Modelled from the spec: the class [Heading] is declared outside the
    sources at hand; its fields are those its constructor calls name. *)
Record Heading := mkHeading {
  h_text : str;                 (* text *)
  h_level : nat;                (* level *)
  h_number : option str;        (* number *)
  h_para_index : nat            (* para_index *)
}.

(** Modelled from the spec: the class [Section], likewise. *)
Record Section_ := mkSection {
  sec_key : str;                (* key *)
  sec_title : str;              (* title *)
  sec_start_para : nat;         (* start_para *)
  sec_end_para : nat;           (* end_para *)
  sec_text : str;               (* text *)
  sec_word_count : nat          (* word_count *)
}.

(** Modelled from the spec: the class [CitationSignals], likewise. *)
Record CitationSignals := mkCitationSignals {
  numeric_count : nat;
  author_year_count : nat;
  etal_count : nat
}.

(** Modelled from the spec: the class [DocumentModel], likewise. *)
Record DocumentModel := mkDocumentModel {
  filename : str;
  paragraphs : list str;
  headings : list Heading;
  sections : gmap str Section_;
  word_count_total : nat;
  tables_count : nat;
  figure_refs : list str;
  table_refs : list str;
  citations : CitationSignals
}.

(** Modelled from the spec: the class [AIAnnotations]; the rules read its
    optional [research_question] only. *)
Record AIAnnotations := mkAIAnnotations { research_question : option str }.

(** Modelled from the spec: the class [Finding], likewise. *)
Record Finding := mkFinding {
  rule_id : str;
  category : str;
  severity : str;
  message : str;
  evidence : option str
}.

(** ** The XML body ([xml.etree.ElementTree.Element]) *)

#[warnings="-register-all"]
Inductive Element :=
  mkElement (tag : str) (attrib : list (str * str)) (text : option str)
            (children : list Element).

Definition tag (e : Element) : str := let (t, _, _, _) := e in t.
Definition attrib (e : Element) : list (str * str) := let (_, a, _, _) := e in a.
Definition text (e : Element) : option str := let (_, _, t, _) := e in t.
Definition children (e : Element) : list Element := let (_, _, _, c) := e in c.

Module ET.

(** The elements below [e], in document order ([e.iter()] without [e]). *)
Fixpoint descendants (e : Element) : list Element :=
  match e with
  | mkElement _ _ _ cs =>
    (fix go (l : list Element) : list Element :=
       match l with
       | [] => []
       | c :: r => c :: descendants c ++ go r
       end) cs
  end.

(** [e.findall(".//name")] *)
Definition findall_desc (name : str) (e : Element) : list Element :=
  filter (fun x => tag x = name) (descendants e).

(** [e.find(".//name")] *)
Definition find_desc (name : str) (e : Element) : option Element :=
  head (findall_desc name e).

(** [e.find("./name")] *)
Definition find_child (name : str) (e : Element) : option Element :=
  head (filter (fun x => tag x = name) (children e)).

(** [e.attrib.get(name, "")] *)
Definition get (name : str) (e : Element) : str :=
  match find (fun kv => Py.eqb (fst kv) name) (attrib e) with
  | Some (_, v) => v
  | None => []
  end.

End ET.

(** ** [docx_extractor.py] *)

Definition SECTION_KEYWORDS : list (str * list str) :=
  [ (u "abstract", [u "abstract"; u "kurzfassung"; u "executive summary"]);
    (u "abkuerzungen",
     [u "abkürzungsverzeichnis"; u "abkuerzungsverzeichnis"; u "abkürzungen";
      u "abkuerzungen"; u "list of abbreviations"; u "abbreviations"]);
    (u "einleitung", [u "einleitung"; u "introduction"]);
    (u "theorie",
     [u "theorie"; u "grundlagen"; u "theoretische grundlagen";
      u "theoretischer hintergrund"; u "stand der forschung";
      u "forschungsstand"; u "background"; u "theoretical background"]);
    (u "methode", [u "methode"; u "methodik"; u "methods"; u "methodology"]);
    (u "ergebnisse", [u "ergebnisse"; u "results"]);
    (u "diskussion", [u "diskussion"; u "discussion"]);
    (u "fazit",
     [u "fazit"; u "schluss"; u "schlussfolgerung"; u "schlussfolgerungen";
      u "zusammenfassung"; u "conclusion"; u "conclusions"; u "summary";
      u "ausblick"]);
    (u "literatur",
     [u "literaturverzeichnis"; u "references"; u "bibliography";
      u "quellenverzeichnis"; u "quellen"]) ].

(** [SECTION_KEYWORDS.get(key, [])] *)
Definition keywords_of (key : str) : list str :=
  match find (fun kv => Py.eqb (fst kv) key) SECTION_KEYWORDS with
  | Some (_, kws) => kws
  | None => []
  end.

(** The pattern [^ \s* ( \d+ (?: \. \d+ )* ) (?: \. )? \s+ ( .+ ) $]. *)
Definition NUMBERING_RE : Re.regex :=
  Re.seq [Re.Bol; Re.Star Re.ws;
          Re.Group 1 (Re.Cat (Re.plus Re.d)
                             (Re.Star (Re.Cat (Re.chr (cp ".")) (Re.plus Re.d))));
          Re.opt (Re.chr (cp ".")); Re.plus Re.ws;
          Re.Group 2 (Re.plus Re.dot); Re.Eol].

(** The two sets are written as Python set displays; the elements are
    listed here in the order of the source text. *)
Definition STRICT_ONLY_KEYS : list str :=
  [u "literatur"; u "ergebnisse"; u "diskussion"; u "abstract"; u "abkuerzungen"].
Definition PREFIX_OK_KEYS : list str :=
  [u "einleitung"; u "theorie"; u "methode"; u "fazit"].

Definition W_NS : str := u "http://schemas.openxmlformats.org/wordprocessingml/2006/main".
(** The qualified name ElementTree gives to [w:name]. *)
Definition wtag (name : str) : str := cp "{" :: W_NS ++ cp "}" :: name.

Definition _word_count (text : str) : nat :=
  length (Re.findall (Re.plus Re.w) text).

Definition nbsp : char := 160%N.
(** The string of one line feed. *)
Definition NL : str := [10%N].

Definition _normalize_simple (s : str) : str :=
  let s := unicodedata.normalize_NFKC s in
  let s := Py.replace_chr nbsp (u " ") s in
  Py.lower (Py.strip (Re.sub (Re.plus Re.ws) (u " ") s)).

(** The pattern [^ \s* \d+ (?: \. \d+ )* \s* [\.\)]? \s*]. *)
Definition leading_number_re : Re.regex :=
  Re.seq [Re.Bol; Re.Star Re.ws; Re.plus Re.d;
          Re.Star (Re.Cat (Re.chr (cp ".")) (Re.plus Re.d));
          Re.Star Re.ws; Re.opt (Re.Set_ (Re.one_of (u ".)")));
          Re.Star Re.ws].

(** The pattern [[\s:;.\-–—]+ $]. *)
Definition trailing_punct_re : Re.regex :=
  Re.Cat (Re.plus (Re.Set_ (fun c => unicodedata.isspace c
                                     || Re.one_of (u ":;.-–—") c)))
         Re.Eol.

Definition _normalize_title (title : str) : str :=
  let t := unicodedata.normalize_NFKC title in
  let t := Py.replace_chr nbsp (u " ") t in
  let t := Py.lower (Py.strip t) in
  let t := Re.sub leading_number_re [] t in
  let t := Py.strip (Re.sub trailing_punct_re [] t) in
  Py.strip (Re.sub (Re.plus Re.ws) (u " ") t).

(** The class [[a-zäöüß]]. *)
Definition lower_de (c : char) : bool :=
  in_range (cp "a") (cp "z") c || Re.one_of (u "äöüß") c.

(** The pattern [\d+ ( \. \d+ )*]. *)
Definition dotted_number : Re.regex :=
  Re.Cat (Re.plus Re.d) (Re.Star (Re.Cat (Re.chr (cp ".")) (Re.plus Re.d))).

Definition _looks_like_toc_line (p : str) : bool :=
  let t := _normalize_simple p in
  if negb (nonempty t) then false
  else if Py.contains t (u "....")
          || Re.found (Re.at_least 3 (Re.chr (cp "."))) t then true
  else if Re.matches
            (Re.seq [Re.Bol; dotted_number; Re.Set_ lower_de; Re.Star Re.dot;
                     Re.between 1 4 Re.d; Re.Eol]) t then true
  else if Re.matches
            (Re.seq [Re.Bol; dotted_number; Re.plus Re.ws; Re.plus Re.dot;
                     Re.plus Re.ws; Re.between 1 4 Re.d; Re.Eol]) t then true
  else if Re.matches
            (Re.seq [Re.Bol; Re.Set_ lower_de; Re.plus Re.dot; Re.plus Re.ws;
                     Re.between 1 4 Re.d; Re.Eol]) t then true
  else false.

(** The first index whose paragraph satisfies [P]. *)
Fixpoint first_index {A} (P : A -> bool) (l : list A) : option nat :=
  match l with
  | [] => None
  | x :: r => if P x then Some 0 else S <$> first_index P r
  end.

(** The paragraphs of [paragraphs[j : min(max_scan, j + 8)]] that are not
    blank. *)
Definition toc_window (paragraphs : list str) (max_scan j : nat) : list str :=
  List.filter (fun x => nonempty (_normalize_simple x))
              (Py.slice paragraphs j (min max_scan (j + 8))).

Definition non_toc (window : list str) : nat :=
  length (List.filter (fun x => negb (_looks_like_toc_line x)) window).

Definition _find_toc_range (paragraphs : list str) : option (nat * nat) :=
  match first_index (fun p => Py.eqb (_normalize_simple p) (u "inhaltsverzeichnis"))
                    paragraphs with
  | None => None
  | Some toc_start =>
    let max_scan := min (length paragraphs) (toc_start + 500) in
    match List.find (fun j => let window := toc_window paragraphs max_scan j in
                              match window with
                              | [] => false
                              | _ => 5 <=? non_toc window
                              end)
                    (seq (toc_start + 1) (max_scan - (toc_start + 1))) with
    | Some j => Some (toc_start, j)
    | None => Some (toc_start, min (length paragraphs) (toc_start + 250))
    end
  end.

(** The pattern [\b literaturrecherche \b]. *)
Definition literaturrecherche_re : Re.regex :=
  Re.seq [Re.WordB; Re.lit (u "literaturrecherche"); Re.WordB].

(** The pattern
    [\b ( theorie | grundlagen | theoretisch | forschungsstand
         | stand der forschung | background ) \b]. *)
Definition theory_like_re : Re.regex :=
  Re.seq [Re.WordB;
          Re.Group 1 (Re.alts (map Re.lit
            [u "theorie"; u "grundlagen"; u "theoretisch"; u "forschungsstand";
             u "stand der forschung"; u "background"]));
          Re.WordB].

(** Step 1 and step 2: the first key, in the order of iteration, one of
    whose keywords normalizes to [t]. *)
Definition exact_key (keys : list str) (t : str) : option str :=
  List.find (fun key =>
               existsb (fun kw => Py.eqb t (_normalize_title kw)) (keywords_of key))
            keys.

(** Step 3: the first key one of whose keywords, followed by a blank,
    starts [t]. *)
Definition prefix_key (keys : list str) (t : str) : option str :=
  List.find (fun key =>
               existsb (fun kw =>
                          let kw_n := _normalize_title kw in
                          nonempty kw_n && Py.startswith t (kw_n ++ u " "))
                       (keywords_of key))
            keys.

Definition is_top_level (level : option nat) (number : option str) : bool :=
  match level with Some 1 => true | _ => false end
  || match number with
     | Some n => nonempty n && Py.isdigit n
     | None => false
     end.

(** [_find_section_key], with the order in which the two sets are
    iterated made explicit. *)
Definition _find_section_key_in (strict_iter prefix_iter : list str)
           (title : str) (level : option nat) (number : option str)
  : option str :=
  let t := _normalize_title title in
  if negb (nonempty t) then None
  else if Re.found literaturrecherche_re t then None
  else
    let top := is_top_level level number in
    match exact_key strict_iter t with
    | Some key => Some key
    | None =>
      match exact_key (List.filter (fun key => negb (Py.mem key STRICT_ONLY_KEYS))
                                   (map fst SECTION_KEYWORDS)) t with
      | Some key => Some key
      | None =>
        match (if top then prefix_key prefix_iter t else None) with
        | Some key => Some key
        | None =>
          if top && Re.found theory_like_re t then Some (u "theorie") else None
        end
      end
    end.

Definition _find_section_key (title : str) (level : option nat)
           (number : option str) : option str :=
  _find_section_key_in STRICT_ONLY_KEYS PREFIX_OK_KEYS title level number.

(** *** Reading a paragraph element *)

Definition _p_text (p : Element) : str :=
  let parts := omap (fun t => match text t with
                              | Some x => if nonempty x then Some x else None
                              | None => None
                              end)
                    (ET.findall_desc (wtag (u "t")) p) in
  let txt := concat parts in
  Py.strip (Py.replace_chr nbsp (u " ") (unicodedata.normalize_NFKC txt)).

Definition _p_style (p : Element) : str :=
  match ET.find_child (wtag (u "pPr")) p with
  | None => []
  | Some ppr =>
    match ET.find_child (wtag (u "pStyle")) ppr with
    | None => []
    | Some ps => Py.lower (Py.strip (ET.get (wtag (u "val")) ps))
    end
  end.

Definition _p_ilvl (p : Element) : option Z :=
  match ET.find_child (wtag (u "pPr")) p with
  | None => None
  | Some ppr =>
    match ET.find_child (wtag (u "numPr")) ppr with
    | None => None
    | Some numpr =>
      match ET.find_child (wtag (u "ilvl")) numpr with
      | None => None
      | Some ilvl => Py.int (ET.get (wtag (u "val")) ilvl)
      end
    end
  end.

Definition heading_words : Re.regex :=
  Re.Group 1 (Re.alts (map Re.lit [u "heading"; u "überschrift"; u "berschrift"])).

(** [[1-9]] *)
Definition digit_1_9 : Re.regex := Re.Set_ (in_range (cp "1") (cp "9")).

Definition int_level (s : str) : option nat := Z.to_nat <$> Py.int s.

Definition _heading_level_from_style (style_id : str) : option nat :=
  let s := Py.lower (Py.strip style_id) in
  if negb (nonempty s) then None
  else
    (* (heading|überschrift|berschrift) \s* ([1-9]) *)
    match Re.search (Re.seq [heading_words; Re.Star Re.ws; Re.Group 2 digit_1_9]) s with
    | Some m => int_level (Re.group s 2 m)
    | None =>
      (* (heading|überschrift|berschrift) ([1-9]) *)
      match Re.search (Re.seq [heading_words; Re.Group 2 digit_1_9]) s with
      | Some m2 => int_level (Re.group s 2 m2)
      | None =>
        if Py.contains s (u "heading") || Py.contains s (u "überschrift")
           || Py.contains s (u "berschrift")
        then Some 1 else None
      end
    end.

(** *** The body walk *)

(** [tag.split("}")[-1]] *)
Definition localname (t : str) : str := List.last (Py.split_chr (cp "}") t) [].

Fixpoint walk (node : Element) (in_table : bool) : list (Element * bool) :=
  match node with
  | mkElement _ _ _ cs =>
    (fix each (l : list Element) : list (Element * bool) :=
       match l with
       | [] => []
       | child :: r =>
         (if Py.eqb (localname (tag child)) (u "tbl") then walk child true
          else if Py.eqb (localname (tag child)) (u "p") then [(child, in_table)]
          else walk child in_table) ++ each r
       end) cs
  end.

Definition _walk_body_paragraphs (body : Element) : list (Element * bool) :=
  walk body false.

(** *** Paragraphs and headings *)

(** The local state of the loop of
    [_extract_paragraphs_and_headings_from_xml]. *)
Record ExtractState := mkExtractState {
  st_paragraphs : list str;
  st_headings : list Heading;
  auto_counts : list nat           (* ten counters, 1..9 used *)
}.

(** [lvl = max(1, min(9, ilvl + 1))] *)
Definition auto_level (ilvl : Z) : nat := Z.to_nat (Z.max 1 (Z.min 9 (ilvl + 1))).

(** The counters after a heading at depth [lvl] is counted. *)
Definition bump_counts (counts : list nat) (lvl : nat) : list nat :=
  let counts := <[lvl := S (counts !!! lvl)]> counts in
  let counts := foldl (fun cs k => <[k := 0]> cs) counts (seq (lvl + 1) (10 - (lvl + 1))) in
  if (1 <? lvl) && (counts !!! 1 =? 0) then <[1 := 1]> counts else counts.

(** [".".join(str(auto_counts[k]) for k in range(1, lvl + 1))] *)
Definition auto_number (counts : list nat) (lvl : nat) : str :=
  Py.join (u ".") (map (fun k => Py.str_of_nat (counts !!! k)) (seq 1 lvl)).

(** The level handed to [_find_section_key] and the level of the heading. *)
Definition number_level (number : str) : nat := Py.count_chr (cp ".") number + 1.

(** One iteration of the loop: the paragraph [p] at position [idx]. *)
Definition paragraph_step (idx : nat) (p : Element) (in_table : bool)
           (st : ExtractState) : ExtractState :=
  let text := _p_text p in
  if negb (nonempty text) then
    mkExtractState (st_paragraphs st ++ [[]]) (st_headings st) (auto_counts st)
  else
    let paragraphs := st_paragraphs st ++ [text] in
    if in_table then mkExtractState paragraphs (st_headings st) (auto_counts st)
    else
      let style := _p_style p in
      let level_from_style := _heading_level_from_style style in
      let is_heading_style := bool_decide (is_Some level_from_style) in
      let ilvl := _p_ilvl p in
      let '(number, title) :=
        match Re.match_ NUMBERING_RE text with
        | Some m => (Some (Re.group text 1 m), Py.strip (Re.group text 2 m))
        | None => (None, text)
        end in
      let '(number, counts) :=
        match number, ilvl with
        | None, Some i =>
          if is_heading_style then
            let lvl := auto_level i in
            let counts := bump_counts (auto_counts st) lvl in
            (Some (auto_number counts lvl), counts)
          else (number, auto_counts st)
        | _, _ => (number, auto_counts st)
        end in
      let looks_like_known_section :=
        bool_decide (is_Some
          (_find_section_key title
             (match level_from_style with
              | Some l => Some l
              | None => if truthy number
                        then number_level <$> number else None
              end)
             number)) in
      if is_heading_style
         || (truthy number && (length text <=? 120))
         || (looks_like_known_section && (length title <=? 60))
      then
        let level :=
          match number with
          | Some n => if nonempty n then number_level n
                      else default 1 level_from_style
          | None => default 1 level_from_style
          end in
        mkExtractState paragraphs
                       (st_headings st ++ [mkHeading title level number idx])
                       counts
      else mkExtractState paragraphs (st_headings st) counts.

(** The loop over [enumerate(_walk_body_paragraphs(body))]. *)
Fixpoint extract_loop (idx : nat) (ps : list (Element * bool))
         (st : ExtractState) : ExtractState :=
  match ps with
  | [] => st
  | (p, in_table) :: r => extract_loop (S idx) r (paragraph_step idx p in_table st)
  end.

Definition initial_state : ExtractState := mkExtractState [] [] (replicate 10 0).

(** Headings inside the table of contents that look like its lines are
    dropped. *)
Definition filter_toc (paragraphs : list str) (headings : list Heading)
  : list Heading :=
  match _find_toc_range paragraphs with
  | Some (toc_start, toc_end) =>
    List.filter
      (fun h => negb ((toc_start <=? h_para_index h) && (h_para_index h <? toc_end)
                      && _looks_like_toc_line (default [] (paragraphs !! h_para_index h))))
      headings
  | None => headings
  end.

(** [root] is what [_read_document_xml(path)] returns. *)
Definition _extract_paragraphs_and_headings_from_xml (root : Element)
  : list str * list Heading :=
  match ET.find_desc (wtag (u "body")) root with
  | None => ([], [])
  | Some body =>
    let st := extract_loop 0 (_walk_body_paragraphs body) initial_state in
    (st_paragraphs st, filter_toc (st_paragraphs st) (st_headings st))
  end.

(** *** Sections *)

Definition heading_key (h : Heading) : option str :=
  _find_section_key (h_text h) (Some (h_level h)) (h_number h).

(** The body of the loop of [_build_sections], over the sorted headings
    paired with their keys; [rest] holds the headings after the current
    one. *)
Fixpoint build_loop (paragraphs : list str) (hs : list (Heading * option str))
         (sections : gmap str Section_) : gmap str Section_ :=
  match hs with
  | [] => sections
  | (h, key) :: rest =>
    match key with
    | Some k =>
      if negb (nonempty k) then build_loop paragraphs rest sections
      else if bool_decide (is_Some (sections !! k))
      then build_loop paragraphs rest sections
      else
        let start := h_para_index h + 1 in
        let end_ :=
          match List.find (fun hk => truthy (snd hk)) rest with
          | Some (h', _) => h_para_index h'
          | None => length paragraphs
          end in
        let slice_paras :=
          List.filter (fun p => nonempty p && nonempty (Py.strip p))
                      (Py.slice paragraphs start end_) in
        let section_text := Py.strip (Py.join NL slice_paras) in
        build_loop paragraphs rest
          (<[k := mkSection k (h_text h) start (max start (end_ - 1))
                            section_text (_word_count section_text)]> sections)
    | None => build_loop paragraphs rest sections
    end
  end.

Definition _build_sections (paragraphs : list str) (headings : list Heading)
  : gmap str Section_ :=
  let hs := Py.sorted (fun a b => h_para_index a <=? h_para_index b) headings in
  let sec_keys := map heading_key hs in
  build_loop paragraphs (zip hs sec_keys) ∅.

(** *** Signals *)

(** ["\n".join([p for p in paragraphs if p])] *)
Definition joined_text (paragraphs : list str) : str :=
  Py.join NL (List.filter nonempty paragraphs).

(** The pattern [\b Abbildung \s+ \d+ \b] (and [Tabelle]), ignoring case. *)
Definition reference_re (word : str) : Re.regex :=
  Re.seq [Re.WordB; Re.lit_i word; Re.plus Re.ws; Re.plus Re.d; Re.WordB].

Definition _extract_references (paragraphs : list str) : list str * list str :=
  let text := joined_text paragraphs in
  let fig := map Py.title (Re.findall (reference_re (u "Abbildung")) text) in
  let tab := map Py.title (Re.findall (reference_re (u "Tabelle")) text) in
  (Py.sorted Py.le (Py.unique fig), Py.sorted Py.le (Py.unique tab)).

Definition not_rbracket : Re.regex := Re.Set_ (fun c => negb (c =? cp "]")%N).

(** The pattern [\[ ( [^\]]*? \d [^\]]*? ) \]]. *)
Definition BRACKET_BLOCK_RE : Re.regex :=
  Re.seq [Re.chr (cp "[");
          Re.Group 1 (Re.seq [Re.LazyStar not_rbracket; Re.d; Re.LazyStar not_rbracket]);
          Re.chr (cp "]")].

(** [[A-ZÄÖÜ]] and [[A-Za-zÄÖÜäöüß\-]] *)
Definition upper_de (c : char) : bool :=
  in_range (cp "A") (cp "Z") c || Re.one_of (u "ÄÖÜ") c.
Definition name_char (c : char) : bool :=
  in_range (cp "A") (cp "Z") c || in_range (cp "a") (cp "z") c
  || Re.one_of (u "ÄÖÜäöüß-") c.

(** The pattern [\( ( [A-ZÄÖÜ] [A-Za-zÄÖÜäöüß\-]+ ) , \s* ( \d{4} ) \)]. *)
Definition AUTHOR_YEAR_RE : Re.regex :=
  Re.seq [Re.chr (cp "(");
          Re.Group 1 (Re.Cat (Re.Set_ upper_de) (Re.plus (Re.Set_ name_char)));
          Re.chr (cp ","); Re.Star Re.ws;
          Re.Group 2 (Re.times 4 Re.d);
          Re.chr (cp ")")].

(** The pattern [\b et \s+ al \.], ignoring case. *)
Definition ETAL_RE : Re.regex :=
  Re.seq [Re.WordB; Re.lit_i (u "et"); Re.plus Re.ws; Re.lit_i (u "al");
          Re.chr (cp ".")].

(** [block.replace("–", "-").replace("—", "-")] *)
Definition ascii_dashes (b : str) : str :=
  Py.replace_chr (cp "—") (u "-") (Py.replace_chr (cp "–") (u "-") b).

Definition _extract_citation_signals (paragraphs : list str) : CitationSignals :=
  let text := joined_text paragraphs in
  let blocks := Re.findall1 BRACKET_BLOCK_RE text in
  let numeric_count :=
    length (List.filter
              (fun b => match Re.findall (Re.plus Re.d) (ascii_dashes b) with
                        | [] => false | _ => true end)
              blocks) in
  let author_year := length (Re.findall AUTHOR_YEAR_RE text) in
  let etal := length (Re.findall ETAL_RE text) in
  mkCitationSignals numeric_count author_year etal.

(** [extract_docx]: [root] is the XML of [word/document.xml] and
    [tables] the number of tables python-docx reports for the file. *)
Definition extract_docx (name : str) (root : Element) (tables : nat)
  : DocumentModel :=
  let '(paragraphs, headings) := _extract_paragraphs_and_headings_from_xml root in
  let sections := _build_sections paragraphs headings in
  let '(figures, tables_refs) := _extract_references paragraphs in
  let citations := _extract_citation_signals paragraphs in
  let full_text := joined_text paragraphs in
  mkDocumentModel name paragraphs headings sections (_word_count full_text)
                  tables figures tables_refs citations.

(** ** The rule contract ([base.py]) *)

(** The exceptions a rule body can raise. *)
Inductive exn := IndexError | ValueError.

Inductive result (A : Type) :=
| Ok (a : A)
| Raise (e : exn).
Arguments Ok {A} a.
Arguments Raise {A} e.

#[global] Instance result_ret : MRet result := fun A a => Ok a.
#[global] Instance result_bind : MBind result := fun A B k r =>
  match r with Ok a => k a | Raise e => Raise e end.

(** The rule classes [registry.py] imports. *)
Module Cls.
Inductive t :=
| RequiredChaptersRule
| ChapterOrderPlausibleRule | ChapterLengthBalancedRule
| HeadingHierarchyRule | HeadingDepthRule
| MethodChapterExistsRule | MethodDetailSufficientRule
| ResultsDiscussionSeparationRule
| FiguresTablesReferencedRule
| ResearchQuestionExistsRule | ResearchQuestionInIntroRule
| ResearchKeyTermsConsistencyRule
| ResearchQuestionReferencedInResultsRule
| ResearchQuestionReferencedInDiscussionRule
| LiteratureExistsRule | AllCitationsInReferenceListRule
| NoUncitedReferencesRule | CitationStyleConsistentRule
| CitationDensityRule | ReferenceYearsRule
| AbbreviationsListExistsRule | DefinitionsPresentRule
| ConclusionChapterExistsRule | AbstractExistsRule
| IntroHasStructureOverviewRule
| CaptionsPresentRule
| TableOfContentsExistsRule | ListOfFiguresExistsRule | ListOfTablesExistsRule
| HeadingsMustBeNumberedRule | HeadingNumberingNoGapsRule.

#[global] Instance eq_dec : EqDecision t.
Proof. solve_decision. Defined.
End Cls.

(** An instance of a subclass of [Rule]: its class, its class attributes
    and its [run] method. *)
Record Rule := mkRule {
  cls : Cls.t;
  id : str;
  r_category : str;
  r_severity : str;
  needs_ai : bool;
  run : DocumentModel -> option AIAnnotations -> result (list Finding)
}.

(** [k in doc.sections] *)
Definition has_section (doc : DocumentModel) (k : str) : bool :=
  bool_decide (is_Some (sections doc !! k)).

(** [sorted(doc.sections.keys())] *)
Definition sorted_keys (doc : DocumentModel) : list str :=
  Py.sorted Py.le (map fst (map_to_list (sections doc))).

(** [a or b] on strings *)
Definition or_ (a b : str) : str := if nonempty a then a else b.

Definition comma_join (l : list str) : str := Py.join (u ", ") l.

(** ** [structure_rules.py] *)

Module RequiredChaptersRule.
Definition id := u "STRUCT-007".
Definition category := u "Struktur".
Definition severity := u "error".

Definition REQUIRED : list str :=
  [u "einleitung"; u "theorie"; u "methode"; u "ergebnisse"; u "diskussion";
   u "fazit"; u "literatur"].

(** [[k for k in self.REQUIRED if k not in present]] *)
Definition missing (doc : DocumentModel) : list str :=
  List.filter (fun k => negb (has_section doc k)) REQUIRED.

Definition run (doc : DocumentModel) (ai : option AIAnnotations) : list Finding :=
  match missing doc with
  | _ :: _ =>
    [mkFinding id category severity
       (u "Fehlende Pflichtkapitel: " ++ comma_join (missing doc))
       (Some (u "Gefunden: " ++ or_ (comma_join (sorted_keys doc)) (u "keine")))]
  | [] =>
    [mkFinding id category (u "info")
       (u "Alle Pflichtkapitel wurden gefunden.")
       (Some (u "Kapitel: " ++ comma_join (sorted_keys doc)))]
  end.
End RequiredChaptersRule.

(** ** [structure_quality_rules.py] *)

Definition EXPECTED_ORDER : list str :=
  [u "einleitung"; u "theorie"; u "methode"; u "ergebnisse"; u "diskussion";
   u "fazit"; u "literatur"].

Module ChapterOrderPlausibleRule.
Definition id := u "STRUCT-008".
Definition category := u "Struktur".
Definition severity := u "warn".

Definition run (doc : DocumentModel) (ai : option AIAnnotations) : list Finding :=
  let present := List.filter (has_section doc) EXPECTED_ORDER in
  if length present <? 3 then
    [mkFinding id category (u "info")
       (u "Zu wenige Kapitel erkannt – Kapitelreihenfolge kann nicht sinnvoll geprüft werden.")
       (Some (u "Erkannt: " ++ or_ (comma_join (sorted_keys doc)) (u "keine")))]
  else
    let missing_in_between :=
      List.filter (fun key => negb (has_section doc key)
                              && Py.mem key [u "theorie"; u "methode";
                                             u "ergebnisse"; u "diskussion"])
                  EXPECTED_ORDER in
    match missing_in_between with
    | _ :: _ =>
      [mkFinding id category (u "warn")
         (u "Kapitelreihenfolge/Struktur evtl. unplausibel, da zentrale Kapitel fehlen (heuristisch).")
         (Some (u "Fehlend: " ++ comma_join missing_in_between
                ++ u " | Erkannt: " ++ comma_join (sorted_keys doc)))]
    | [] =>
      [mkFinding id category (u "info")
         (u "Kapitelstruktur wirkt plausibel (V1 heuristisch, Reihenfolge wird später exakter).")
         (Some (u "Erkannt (Pflicht-Reihenfolge): " ++ comma_join present))]
    end.
End ChapterOrderPlausibleRule.

(** [max(counts, key=counts.get)]: the first key with the largest count;
    [min] likewise. *)
Fixpoint arg_best (better : nat -> nat -> bool) (best : str * nat)
         (l : list (str * nat)) : str * nat :=
  match l with
  | [] => best
  | kv :: r => arg_best better (if better (snd kv) (snd best) then kv else best) r
  end.

Module ChapterLengthBalancedRule.
Definition id := u "STRUCT-011".
Definition category := u "Struktur".
Definition severity := u "warn".

Definition word_count_of (doc : DocumentModel) (k : str) : nat :=
  match sections doc !! k with Some sec => sec_word_count sec | None => 0 end.

(** [max_v / min_v >= 3.0] is a floating-point comparison in the source;
    for counts below 2^52 it agrees with the exact one used here. *)
Definition run (doc : DocumentModel) (ai : option AIAnnotations) : list Finding :=
  let keys := List.filter (has_section doc) EXPECTED_ORDER in
  if length keys <? 3 then
    [mkFinding id category (u "info")
       (u "Zu wenige Kapitel erkannt – Kapitelumfang kann nicht sinnvoll geprüft werden.")
       None]
  else
    let counts := map (fun k => (k, word_count_of doc k)) keys in
    let first := default ([], 0) (head counts) in
    let '(max_k, max_v) := arg_best (fun a b => b <? a) first (tail counts) in
    let '(min_k, min_v) := arg_best (fun a b => a <? b) first (tail counts) in
    if (0 <? min_v) && (3 * min_v <=? max_v) then
      [mkFinding id category (u "warn")
         (u "Kapitelumfang wirkt unausgewogen (heuristisch).")
         (Some (u "Größtes: " ++ max_k ++ u " (" ++ Py.str_of_nat max_v
                ++ u " Wörter) | Kleinstes: " ++ min_k ++ u " ("
                ++ Py.str_of_nat min_v ++ u " Wörter)"))]
    else
      [mkFinding id category (u "info")
         (u "Kapitelumfang wirkt grob ausgewogen (heuristisch).")
         (Some (take 350 (Py.join (u " | ")
                  (map (fun kv => fst kv ++ u ":" ++ Py.str_of_nat (snd kv)) counts))))].
End ChapterLengthBalancedRule.

(** ** [heading_rules.py] *)

(** [[int(x) for x in num.split(".") if x.strip().isdigit()]]; [int] raises
    ValueError on a digit that is not a decimal (a superscript). *)
Fixpoint parse_pieces (pieces : list str) : result (list Z) :=
  match pieces with
  | [] => Ok []
  | x :: r =>
    if Py.isdigit (Py.strip x) then
      match Py.int x with
      | Some z => rest ← parse_pieces r; Ok (z :: rest)
      | None => Raise ValueError
      end
    else parse_pieces r
  end.

Definition _parse_number (num : str) : result (list Z) :=
  parse_pieces (Py.split_chr (cp ".") num).

(** [[h for h in doc.headings if h.number]] *)
Definition numbered_headings (doc : DocumentModel) : list Heading :=
  List.filter (fun h => truthy (h_number h)) (headings doc).

Definition number_of (h : Heading) : str := default [] (h_number h).

(** ['.'.join(map(str, parts))] *)
Definition dotted (parts : list Z) : str := Py.join (u ".") (map Py.str_of_Z parts).

Module HeadingHierarchyRule.
Definition id := u "STRUCT-009".
Definition category := u "Struktur".
Definition severity := u "warn".

(** One iteration of the loop over the numbered headings. *)
Definition step (h : Heading) (findings : list Finding)
           (prev_parts : option (list Z))
  : result (list Finding * option (list Z)) :=
  parts ← _parse_number (number_of h);
  let expected_level := length parts in
  let findings :=
    if negb (h_level h =? expected_level) then
      findings ++
      [mkFinding id category (u "warn")
         (u "Überschriftenlevel passt evtl. nicht zur Nummerierung: '"
          ++ number_of h ++ u " " ++ h_text h ++ u "'")
         (Some (u "Erwarteter Level: " ++ Py.str_of_nat expected_level
                ++ u ", erkannt: " ++ Py.str_of_nat (h_level h)))]
    else findings in
  findings ←
    match prev_parts with
    | Some prev =>
      if (length parts =? length prev)
         && bool_decide (removelast parts = removelast prev)
      then
        (* parts[-1] > prev_parts[-1] + 1 *)
        match last parts, last prev with
        | Some a, Some b =>
          if (b + 1 <? a)%Z then
            Ok (findings ++
                [mkFinding id category (u "warn")
                   (u "Möglicher Nummerierungssprung: vorher " ++ dotted prev
                    ++ u ", jetzt " ++ number_of h)
                   (Some (u "Überschrift: " ++ number_of h ++ u " " ++ h_text h))])
          else Ok findings
        | _, _ => Raise IndexError
        end
      else Ok findings
    | None => Ok findings
    end;
  Ok (findings, Some parts).

Fixpoint loop (numbered : list Heading) (findings : list Finding)
         (prev_parts : option (list Z)) : result (list Finding) :=
  match numbered with
  | [] => Ok findings
  | h :: r =>
    '(findings, prev_parts) ← step h findings prev_parts;
    loop r findings prev_parts
  end.

Definition run (doc : DocumentModel) (ai : option AIAnnotations)
  : result (list Finding) :=
  let numbered := numbered_headings doc in
  match numbered with
  | [] =>
    Ok [mkFinding id category (u "info")
          (u "Keine nummerierten Überschriften gefunden (Check 9 übersprungen).")
          None]
  | _ =>
    findings ← loop numbered [] None;
    match findings with
    | [] =>
      Ok [mkFinding id category (u "info")
            (u "Überschriftenhierarchie wirkt konsistent (heuristisch).")
            (Some (u "Nummerierte Überschriften: "
                   ++ Py.str_of_nat (length numbered)))]
    | _ => Ok findings
    end
  end.
End HeadingHierarchyRule.

Module HeadingDepthRule.
Definition id := u "STRUCT-010".
Definition category := u "Struktur".
Definition severity := u "info".

(** The loop that looks for the deepest heading. *)
Fixpoint deepest_from (numbered : list Heading) (max_depth : nat)
         (deepest : option Heading) : result (nat * option Heading) :=
  match numbered with
  | [] => Ok (max_depth, deepest)
  | h :: r =>
    parts ← _parse_number (number_of h);
    let depth := length parts in
    if max_depth <? depth then deepest_from r depth (Some h)
    else deepest_from r max_depth deepest
  end.

Definition run (doc : DocumentModel) (ai : option AIAnnotations)
  : result (list Finding) :=
  let numbered := numbered_headings doc in
  match numbered with
  | [] =>
    Ok [mkFinding id category (u "info")
          (u "Keine nummerierten Überschriften gefunden (Check 10 übersprungen).")
          None]
  | _ =>
    '(max_depth, deepest) ← deepest_from numbered 0 None;
    match deepest with
    | Some dh =>
      if 4 <? max_depth then
        Ok [mkFinding id category (u "info")
              (u "Gliederungstiefe ist hoch: " ++ Py.str_of_nat max_depth
               ++ u " Ebenen (>4).")
              (Some (u "Tiefstes Beispiel: " ++ number_of dh ++ u " " ++ h_text dh))]
      else
        Ok [mkFinding id category (u "info")
              (u "Maximale Gliederungstiefe: " ++ Py.str_of_nat max_depth ++ u " Ebenen.")
              None]
    | None =>
      Ok [mkFinding id category (u "info")
            (u "Maximale Gliederungstiefe: " ++ Py.str_of_nat max_depth ++ u " Ebenen.")
            None]
    end
  end.
End HeadingDepthRule.

(** ** [numbering_rules.py] *)

Module numbering.

(** [(s or "").strip().lower()] *)
Definition _norm (s : str) : str := Py.lower (Py.strip s).

(** The pattern [^ \d+ (?: \. \d+ )* $]. *)
Definition number_re : Re.regex :=
  Re.seq [Re.Bol; Re.plus Re.d;
          Re.Star (Re.Cat (Re.chr (cp ".")) (Re.plus Re.d)); Re.Eol].

(** [tuple(int(x) for x in pieces)], [None] when an [int] fails *)
Fixpoint ints (pieces : list str) : option (list Z) :=
  match pieces with
  | [] => Some []
  | x :: r =>
    match Py.int x, ints r with
    | Some z, Some zs => Some (z :: zs)
    | _, _ => None
    end
  end.

Definition _parse_num (num_str : str) : option (list Z) :=
  let s := Py.strip num_str in
  if negb (nonempty s) then None
  else if negb (Re.matches number_re s) then None
  else ints (Py.split_chr (cp ".") s).

(** The pattern [^ \s* ( \d+ (?: \. \d+ )* ) (?: \. )? \s+]. *)
Definition leading_re : Re.regex :=
  Re.seq [Re.Bol; Re.Star Re.ws;
          Re.Group 1 (Re.Cat (Re.plus Re.d)
                             (Re.Star (Re.Cat (Re.chr (cp ".")) (Re.plus Re.d))));
          Re.opt (Re.chr (cp ".")); Re.plus Re.ws].

Definition _get_heading_number_str (h : Heading) : str :=
  let n := Py.strip (default [] (h_number h)) in
  if nonempty n then Py.rstrip_chr (cp ".") n
  else
    let txt := Py.strip (h_text h) in
    match Re.match_ leading_re txt with
    | Some m => Py.rstrip_chr (cp ".") (Re.group txt 1 m)
    | None => []
    end.

Definition _is_level1 (h : Heading) : bool := h_level h =? 1.
Definition _is_level2 (h : Heading) : bool := h_level h =? 2.

Definition FRONTMATTER_OK : list str :=
  [u "kurzfassung"; u "abstract"; u "danksagung"; u "vorwort";
   u "abkürzungsverzeichnis"; u "abkuerzungsverzeichnis"; u "abkürzungen";
   u "abkuerzungen"; u "inhaltsverzeichnis"; u "abbildungsverzeichnis";
   u "tabellenverzeichnis"; u "verzeichnis der abbildungen";
   u "verzeichnis der tabellen"].

Definition _is_frontmatter_heading (h : Heading) : bool :=
  Py.mem (_norm (h_text h)) FRONTMATTER_OK.

Definition heading_parts (h : Heading) : option (list Z) :=
  _parse_num (_get_heading_number_str h).

(** [parts and parts[0] == 1] *)
Definition starts_with_one (parts : option (list Z)) : bool :=
  match parts with
  | Some (z :: _) => (z =? 1)%Z
  | _ => false
  end.

Definition _find_first_chapter1_idx (headings : list Heading) : option nat :=
  first_index (fun h => _is_level1 h && starts_with_one (heading_parts h))
              headings.

Definition unnumbered (h : Heading) : bool :=
  bool_decide (heading_parts h = None).

(** [", ".join((h.text or "").strip() for h in hs[:8])] *)
Definition examples (hs : list Heading) : str :=
  comma_join (map (fun h => Py.strip (h_text h)) (take 8 hs)).

End numbering.

Module HeadingsMustBeNumberedRule.
Import numbering.
Definition id := u "FORM-041a".
Definition category := u "Formales".
Definition severity := u "error".

Definition run (doc : DocumentModel) (ai : option AIAnnotations) : list Finding :=
  let hs := headings doc in
  match hs with
  | [] =>
    [mkFinding id category (u "error")
       (u "Keine Überschriften erkannt – kann Nummerierung nicht prüfen.") None]
  | _ =>
    match _find_first_chapter1_idx hs with
    | None =>
      [mkFinding id category (u "error")
         (u "Kapitel 1 (erste nummerierte Hauptüberschrift) nicht erkannt – kann Pflicht-Nummerierung nicht sauber prüfen.")
         (Some (u "Tipp: Kapitel 1 muss als Überschrift (Heading/Überschrift 1) formatiert sein."))]
    | Some first_ch1 =>
      let front := take first_ch1 hs in
      let body := drop first_ch1 hs in
      let illegal_front :=
        List.filter (fun h => _is_level1 h && unnumbered h
                              && negb (_is_frontmatter_heading h)) front in
      match illegal_front with
      | _ :: _ =>
        [mkFinding id category (u "warn")
           (u "Unnummerierte Überschriften im Frontmatter gefunden (vor Kapitel 1).")
           (Some (u "Beispiele: " ++ examples illegal_front))]
      | [] =>
        let unnumbered_body :=
          List.filter (fun h => _is_level1 h && unnumbered h) body in
        match unnumbered_body with
        | _ :: _ =>
          [mkFinding id category (u "error")
             (u "Einige Hauptüberschriften sind nicht nummeriert (Pflicht).")
             (Some (u "Beispiele: " ++ examples unnumbered_body))]
        | [] =>
          [mkFinding id category (u "info")
             (u "Nummerierte Hauptüberschriften erkannt (Pflicht erfüllt).") None]
        end
      end
    end
  end.
End HeadingsMustBeNumberedRule.

Module HeadingNumberingNoGapsRule.
Import numbering.
Definition id := u "FORM-041b".
Definition category := u "Formales".
Definition severity := u "error".

Definition numbered := (list Z * Heading)%type.

(** [sorted(items, key=lambda x: x[0])] *)
Definition by_number (items : list numbered) : list numbered :=
  Py.sorted (fun a b => Py.le_Zs (fst a) (fst b)) items.

(** [getattr(h, 'text', '')[:40]] *)
Definition text40 (h : Heading) : str := take 40 (h_text h).

(** Level 1: 1, 2, 3, ... is expected. *)
Fixpoint check_level1 (items : list numbered) (expected : Z)
         (problems : list str) : list str :=
  match items with
  | [] => problems
  | (num, h) :: r =>
    match num with
    | [] => check_level1 r expected problems
    | n0 :: _ =>
      if negb (n0 =? expected)%Z then
        check_level1 r (n0 + 1)%Z
          (problems ++ [u "Level1 erwartet " ++ Py.str_of_Z expected
                        ++ u ", gefunden " ++ Py.str_of_Z n0 ++ u " ('"
                        ++ text40 h ++ u "')"])
      else check_level1 r (expected + 1)%Z problems
    end
  end.

(** [per_chapter.setdefault(ch, []).append(item)], the chapters in
    order of first insertion. *)
Fixpoint group_add (ch : Z) (item : numbered)
         (per_chapter : list (Z * list numbered)) : list (Z * list numbered) :=
  match per_chapter with
  | [] => [(ch, [item])]
  | (c, items) :: r =>
    if (c =? ch)%Z then (c, items ++ [item]) :: r
    else (c, items) :: group_add ch item r
  end.

Definition group_chapters (lvl2 : list numbered) : list (Z * list numbered) :=
  foldl (fun per_chapter item =>
           match fst item with
           | ch :: _ :: _ => group_add ch item per_chapter
           | _ => per_chapter
           end) [] lvl2.

(** Level 2 inside chapter [ch]: ch.1, ch.2, ... is expected. *)
Fixpoint check_level2 (ch : Z) (items : list numbered) (exp : Z)
         (problems : list str) : list str :=
  match items with
  | [] => problems
  | (num, h) :: r =>
    match num with
    | n0 :: n1 :: _ =>
      if negb (n0 =? ch)%Z then check_level2 ch r exp problems
      else if negb (n1 =? exp)%Z then
        check_level2 ch r (n1 + 1)%Z
          (problems ++ [u "Level2 in Kapitel " ++ Py.str_of_Z ch ++ u " erwartet "
                        ++ Py.str_of_Z ch ++ u "." ++ Py.str_of_Z exp
                        ++ u ", gefunden " ++ Py.str_of_Z ch ++ u "."
                        ++ Py.str_of_Z n1 ++ u " ('" ++ text40 h ++ u "')"])
      else check_level2 ch r (exp + 1)%Z problems
    | _ => check_level2 ch r exp problems
    end
  end.

Definition run (doc : DocumentModel) (ai : option AIAnnotations) : list Finding :=
  let hs := headings doc in
  match hs with
  | [] =>
    [mkFinding id category (u "error")
       (u "Keine Überschriften erkannt – kann Nummerierungs-Sprünge nicht prüfen.")
       None]
  | _ =>
    let parsed :=
      omap (fun h => match heading_parts h with
                     | Some (z :: zs) => Some (z :: zs, h)
                     | _ => None
                     end) hs in
    let lvl1 := List.filter (fun nh => _is_level1 (snd nh)) parsed in
    let lvl2 := List.filter (fun nh => negb (_is_level1 (snd nh))
                                       && _is_level2 (snd nh)) parsed in
    match lvl1, lvl2 with
    | [], [] =>
      [mkFinding id category (u "error")
         (u "Keine nummerierten Überschriften gefunden – kann Nummerierungs-Sprünge nicht prüfen.")
         None]
    | _, _ =>
      let problems := check_level1 (by_number lvl1) 1%Z [] in
      let problems :=
        foldl (fun problems chapter =>
                 check_level2 (fst chapter) (by_number (snd chapter)) 1%Z problems)
              problems (group_chapters lvl2) in
      match problems with
      | _ :: _ =>
        [mkFinding id category (u "error")
           (u "Nummerierung der Überschriften hat Sprünge/Lücken (Pflicht).")
           (Some (Py.join (u " | ") (take 6 problems)
                  ++ (if 6 <? length problems then u " ..." else [])))]
      | [] =>
        [mkFinding id category (u "info")
           (u "Nummerierung der Überschriften wirkt lückenlos (Level 1 & 2).")
           None]
      end
    end
  end.
End HeadingNumberingNoGapsRule.

(** ** [research_question_rules.py] *)

Module research.

Definition STOPWORDS_DE : list str :=
  map u
    ["der"; "die"; "das"; "ein"; "eine"; "einer"; "eines"; "einem"; "einen";
     "und"; "oder"; "aber"; "sowie"; "als"; "wie"; "wenn"; "dann"; "dass"; "daß";
     "ist"; "sind"; "war"; "waren"; "wird"; "werden"; "wurde";
     "in"; "im"; "auf"; "an"; "am"; "aus"; "bei"; "mit"; "ohne"; "für"; "von";
     "zu"; "zum"; "zur";
     "des"; "den"; "dem"; "durch"; "über"; "unter"; "zwischen"; "gegen"; "um";
     "diese"; "dieser"; "dieses"; "diesem"; "diesen";
     "arbeit"; "bachelorarbeit"; "studie"; "untersuchung"; "analyse";
     "frage"; "forschungsfrage"; "ziel"; "zielsetzung"]%string.

(** [\b words \b], ignoring case *)
Definition phrase (words : str) : Re.regex :=
  Re.seq [Re.WordB; Re.lit_i words; Re.WordB].

Definition RQ_PATTERNS : list Re.regex :=
  [ phrase (u "forschungsfrage");
    phrase (u "fragestellung");
    phrase (u "ziel dieser arbeit");
    phrase (u "zielsetzung");
    phrase (u "diese arbeit untersucht");
    phrase (u "diese arbeit analysiert");
    phrase (u "diese arbeit geht der frage nach");
    phrase (u "folgende frage");
    (* \b im rahmen dieser arbeit \b .* \b frage \b *)
    Re.seq [phrase (u "im rahmen dieser arbeit"); Re.Star Re.dot;
            phrase (u "frage")] ].

Definition _contains_research_question (text : str) : bool :=
  existsb (fun p => Re.found p text) RQ_PATTERNS.

(** The class [[a-z0-9äöüß\- ]] *)
Definition plain_char (c : char) : bool :=
  in_range (cp "a") (cp "z") c || in_range (cp "0") (cp "9") c
  || Re.one_of (u "äöüß- ") c.

(** The class [[a-zäöüß0-9\-]] *)
Definition token_char (c : char) : bool :=
  in_range (cp "a") (cp "z") c || in_range (cp "0") (cp "9") c
  || Re.one_of (u "äöüß-") c.

Definition _normalize (s : str) : str :=
  let s := Py.strip (Py.lower s) in
  let s := unicodedata.normalize_NFKD s in
  let s := List.filter (fun ch => negb (unicodedata.combining ch)) s in
  (* the hyphens and dashes U+2010 .. U+2014 *)
  let s := Re.sub (Re.Set_ (in_range 8208%N 8212%N)) (u "-") s in
  let s := Re.sub (Re.plus (Re.Set_ (fun c => negb (plain_char c)))) (u " ") s in
  Py.strip (Re.sub (Re.plus Re.ws) (u " ") s).

Definition _tokenize (text : str) : list str :=
  Re.findall (Re.at_least 2 (Re.Set_ token_char)) (_normalize text).

Definition count_of (tok : str) (tokens : list str) : nat :=
  length (List.filter (Py.eqb tok) tokens).

(** Four times [counts[tok] * 2 + min(len(tok), 12) / 4]; the quarters
    are exact in floating point. *)
Definition score4 (tokens : list str) (tok : str) : nat :=
  8 * count_of tok tokens + min (length tok) 12.

Definition _extract_candidate_terms (rq_text : str) (max_terms : nat) : list str :=
  let tokens :=
    List.filter (fun t => negb (Py.mem t STOPWORDS_DE) && (3 <=? length t))
                (_tokenize rq_text) in
  match tokens with
  | [] => []
  | _ =>
    (* sorted(counts.keys(), key=score, reverse=True) *)
    let ranked := Py.sorted (fun a b => score4 tokens b <=? score4 tokens a)
                            (Py.unique tokens) in
    take max_terms ranked
  end.

Definition absdiff (a b : nat) : nat := (a - b) + (b - a).

Definition _find_variants (text_tokens : list str) (term : str) : list str :=
  let base_term := Py.replace_chr (cp "-") [] term in
  let variants :=
    List.filter
      (fun t => negb (Py.eqb t term)
                && (Py.eqb (Py.replace_chr (cp "-") [] t) base_term
                    || ((Py.startswith t term || Py.startswith term t)
                        && (absdiff (length t) (length term) <=? 3))))
      text_tokens in
  take 8 (Py.sorted Py.le (Py.unique variants)).

(** ["\n".join(doc.paragraphs)] *)
Definition full_text (doc : DocumentModel) : str := Py.join NL (paragraphs doc).

(** The first paragraph in which a research question is found. *)
Definition first_rq_paragraph (doc : DocumentModel) : option str :=
  List.find _contains_research_question (paragraphs doc).

(** The source of the research question of RQ-003, RQ-004 and RQ-005:
    the annotation when it carries one, else the first such paragraph;
    [None] when what is found is empty. *)
Definition rq_source (doc : DocumentModel) (ai : option AIAnnotations)
  : option str :=
  let found :=
    match ai with
    | Some a => if truthy (research_question a) then research_question a
                else first_rq_paragraph doc
    | None => first_rq_paragraph doc
    end in
  if truthy found then found else None.

(** [max(2, int(len(terms) * 0.35))]; there are at most eight terms, for
    which the floating-point product truncates like the exact one. *)
Definition needed (terms : list str) : nat := max 2 (35 * length terms / 100).

End research.

Module ResearchQuestionExistsRule.
Import research.
Definition id := u "RQ-001".
Definition category := u "Fragestellung".
Definition severity := u "error".

Definition run (doc : DocumentModel) (ai : option AIAnnotations) : list Finding :=
  if _contains_research_question (full_text doc) then
    match first_rq_paragraph doc with
    | Some p =>
      [mkFinding id category (u "info")
         (u "Hinweis auf Forschungsfrage/Zielsetzung gefunden.")
         (Some (take 220 p))]
    | None =>
      [mkFinding id category (u "info")
         (u "Hinweis auf Forschungsfrage/Zielsetzung gefunden.") None]
    end
  else
    [mkFinding id category (u "error")
       (u "Keine explizite Forschungsfrage/Zielsetzung gefunden (heuristisch).")
       (Some (u "Gesucht wurden Muster wie: 'Forschungsfrage', 'Ziel dieser Arbeit', 'Diese Arbeit untersucht ...'"))].
End ResearchQuestionExistsRule.

Module ResearchQuestionInIntroRule.
Import research.
Definition id := u "RQ-002".
Definition category := u "Fragestellung".
Definition severity := u "warn".

Definition run (doc : DocumentModel) (ai : option AIAnnotations) : list Finding :=
  match sections doc !! u "einleitung" with
  | None =>
    [mkFinding id category (u "warn")
       (u "Einleitung nicht erkannt – Check 'RQ in Einleitung' kann nicht sauber geprüft werden.")
       (Some (u "Tipp: Überschrift 'Einleitung' als echte Überschrift formatieren oder nummerieren (z.B. '1 Einleitung')."))]
  | Some intro =>
    if _contains_research_question (sec_text intro) then
      [mkFinding id category (u "info")
         (u "Hinweis auf Forschungsfrage/Zielsetzung in der Einleitung gefunden (heuristisch).")
         (Some (u "Section: " ++ sec_title intro))]
    else
      [mkFinding id category (u "warn")
         (u "Kein Hinweis auf Forschungsfrage/Zielsetzung in der Einleitung gefunden (heuristisch).")
         (Some (u "Section: " ++ sec_title intro))]
  end.
End ResearchQuestionInIntroRule.

Module ResearchKeyTermsConsistencyRule.
Import research.
Definition id := u "RQ-003".
Definition category := u "Fragestellung".
Definition severity := u "warn".

Definition run (doc : DocumentModel) (ai : option AIAnnotations) : list Finding :=
  let tokens := _tokenize (full_text doc) in
  match rq_source doc ai with
  | None =>
    [mkFinding id category (u "warn")
       (u "Keine Forschungsfrage/Ziel-Passage gefunden – zentrale Begriffe können nicht extrahiert werden.")
       (Some (u "Tipp: Formuliere einen Satz wie „Die Forschungsfrage lautet: …“ oder „Ziel dieser Arbeit ist …“"))]
  | Some source =>
    let terms := _extract_candidate_terms source 8 in
    match terms with
    | [] =>
      [mkFinding id category (u "warn")
         (u "Konnte keine zentralen Begriffe aus der Forschungsfrage ableiten (heuristisch).")
         (Some (u "RQ-Text: " ++ take 200 source))]
    | _ =>
      let missing := List.filter (fun t => negb (Py.mem t tokens)) terms in
      match missing with
      | _ :: _ =>
        [mkFinding id category (u "warn")
           (u "Einige zentrale Begriffe aus der Forschungsfrage tauchen im Text nicht auf: "
            ++ comma_join missing)
           (Some (u "Extrahierte Begriffe: " ++ comma_join terms))]
      | [] =>
        let variants_map :=
          List.filter (fun kv => match snd kv with [] => false | _ => true end)
                      (map (fun t => (t, _find_variants tokens t)) terms) in
        match variants_map with
        | _ :: _ =>
          let parts := map (fun kv => fst kv ++ u " → " ++ comma_join (snd kv))
                           variants_map in
          [mkFinding id category (u "warn")
             (u "Mögliche inkonsistente Schreibweisen zentraler Begriffe gefunden (heuristisch).")
             (Some (take 350 (Py.join (u " | ") parts)))]
        | [] =>
          [mkFinding id category (u "info")
             (u "Zentrale Begriffe aus der Forschungsfrage erscheinen konsistent (heuristisch).")
             (Some (u "Begriffe: " ++ comma_join terms))]
        end
      end
    end
  end.
End ResearchKeyTermsConsistencyRule.

(** RQ-004 and RQ-005 differ in the section they read and in their texts. *)
Module rq_reference.
Import research.

Definition run (id category key : str)
           (msg_no_section tip msg_no_rq msg_no_terms msg_found msg_weak : str)
           (doc : DocumentModel) (ai : option AIAnnotations) : list Finding :=
  match sections doc !! key with
  | None => [mkFinding id category (u "warn") msg_no_section (Some tip)]
  | Some sec =>
    match rq_source doc ai with
    | None => [mkFinding id category (u "warn") msg_no_rq None]
    | Some source =>
      let terms := _extract_candidate_terms source 8 in
      match terms with
      | [] =>
        [mkFinding id category (u "warn") msg_no_terms
                   (Some (u "RQ-Text: " ++ take 200 source))]
      | _ =>
        let sec_tokens := _tokenize (sec_text sec) in
        let hits := List.filter (fun t => Py.mem t sec_tokens) terms in
        if needed terms <=? length hits then
          [mkFinding id category (u "info") msg_found
                     (Some (u "Treffer: " ++ comma_join hits))]
        else
          [mkFinding id category (u "warn") msg_weak
                     (Some (u "Treffer: " ++ or_ (comma_join hits) (u "keine")
                            ++ u " | Begriffe: " ++ comma_join terms))]
      end
    end
  end.
End rq_reference.

Module ResearchQuestionReferencedInResultsRule.
Definition id := u "RQ-004".
Definition category := u "Fragestellung".
Definition severity := u "warn".

Definition run : DocumentModel -> option AIAnnotations -> list Finding :=
  rq_reference.run id category (u "ergebnisse")
    (u "Ergebnisse-Kapitel nicht erkannt – Check RQ-004 kann nicht sauber geprüft werden.")
    (u "Tipp: Überschrift als 'Ergebnisse' oder '4 Ergebnisse' formatieren/nummerieren.")
    (u "Keine Forschungsfrage/Ziel-Passage gefunden – kann Rückbezug in Ergebnissen nicht prüfen.")
    (u "Keine zentralen Begriffe aus der Forschungsfrage ableitbar – Check RQ-004 übersprungen.")
    (u "Rückbezug auf zentrale Begriffe der Forschungsfrage im Ergebnisteil gefunden (heuristisch).")
    (u "Wenig/kein Rückbezug auf zentrale Begriffe der Forschungsfrage im Ergebnisteil (heuristisch).").
End ResearchQuestionReferencedInResultsRule.

Module ResearchQuestionReferencedInDiscussionRule.
Definition id := u "RQ-005".
Definition category := u "Fragestellung".
Definition severity := u "warn".

Definition run : DocumentModel -> option AIAnnotations -> list Finding :=
  rq_reference.run id category (u "diskussion")
    (u "Diskussion-Kapitel nicht erkannt – Check RQ-005 kann nicht sauber geprüft werden.")
    (u "Tipp: Überschrift als 'Diskussion' oder '5 Diskussion' formatieren/nummerieren.")
    (u "Keine Forschungsfrage/Ziel-Passage gefunden – kann Rückbezug in Diskussion nicht prüfen.")
    (u "Keine zentralen Begriffe aus der Forschungsfrage ableitbar – Check RQ-005 übersprungen.")
    (u "Rückbezug auf zentrale Begriffe der Forschungsfrage in der Diskussion gefunden (heuristisch).")
    (u "Wenig/kein Rückbezug auf zentrale Begriffe der Forschungsfrage in der Diskussion (heuristisch).").
End ResearchQuestionReferencedInDiscussionRule.

(** ** [method_results_rules.py] *)

Module MethodChapterExistsRule.
Definition id := u "METH-019".
Definition category := u "Methode".
Definition severity := u "error".

Definition run (doc : DocumentModel) (ai : option AIAnnotations) : list Finding :=
  match sections doc !! u "methode" with
  | Some sec =>
    [mkFinding id category (u "info") (u "Methodenkapitel gefunden.")
               (Some (u "Titel: " ++ sec_title sec))]
  | None =>
    [mkFinding id category (u "error") (u "Kein Methodenkapitel erkannt.")
       (Some (u "Tipp: Überschrift 'Methode' / 'Methodik' verwenden oder nummerieren (z.B. '3 Methode')."))]
  end.
End MethodChapterExistsRule.

Module MethodDetailSufficientRule.
Definition id := u "METH-020".
Definition category := u "Methode".
Definition severity := u "warn".

Definition KEYWORDS : list str :=
  map u
    ["stichprobe"; "sample"; "teilnehmer"; "participants";
     "daten"; "datenerhebung"; "fragebogen"; "interview"; "beobachtung";
     "analyse"; "auswertung"; "statistik"; "verfahren"; "methode";
     "operationalisierung"; "hypothese"; "messung"; "instrument";
     "validität"; "reliabilität"]%string.

Definition run (doc : DocumentModel) (ai : option AIAnnotations) : list Finding :=
  match sections doc !! u "methode" with
  | None =>
    [mkFinding id category (u "warn")
       (u "Methodenkapitel nicht erkannt – Detail-Check nicht möglich.") None]
  | Some sec =>
    let wc := sec_word_count sec in
    let text := Py.lower (sec_text sec) in
    let hits := List.filter (fun k => Py.contains text k) KEYWORDS in
    let min_words := 300 in
    let min_hits := 3 in
    let n_hits := Py.str_of_nat (length hits) in
    if (wc <? min_words) && (length hits <? min_hits) then
      [mkFinding id category (u "warn")
         (u "Methodenteil wirkt sehr kurz und wenig detailliert (heuristisch).")
         (Some (u "Wörter: " ++ Py.str_of_nat wc ++ u " | Keyword-Treffer: " ++ n_hits
                ++ u " (" ++ or_ (comma_join hits) (u "keine") ++ u ")"))]
    else if wc <? min_words then
      [mkFinding id category (u "warn")
         (u "Methodenteil wirkt eher kurz (heuristisch).")
         (Some (u "Wörter: " ++ Py.str_of_nat wc ++ u " | Keyword-Treffer: " ++ n_hits))]
    else if length hits <? min_hits then
      [mkFinding id category (u "warn")
         (u "Methodenteil enthält wenige typische Methodik-Signale (heuristisch).")
         (Some (u "Wörter: " ++ Py.str_of_nat wc ++ u " | Keyword-Treffer: " ++ n_hits
                ++ u " (" ++ or_ (comma_join hits) (u "keine") ++ u ")"))]
    else
      [mkFinding id category (u "info")
         (u "Methodenteil wirkt ausreichend detailliert (heuristisch).")
         (Some (u "Wörter: " ++ Py.str_of_nat wc ++ u " | Keyword-Treffer: " ++ n_hits))]
  end.
End MethodDetailSufficientRule.

Module ResultsDiscussionSeparationRule.
Definition id := u "RES-025".
Definition category := u "Ergebnisse".
Definition severity := u "warn".

Definition INTERPRETATION_CUES : list str :=
  map u
    ["bedeutet"; "impliziert"; "daraus folgt"; "somit"; "folglich";
     "interpretiert"; "interpretation"; "diskutieren"; "diskussion";
     "limitation"; "einschränkung"; "kritisch";
     "verglichen"; "vergleich"; "literatur"; "studien zeigen"]%string.

Definition run (doc : DocumentModel) (ai : option AIAnnotations) : list Finding :=
  match sections doc !! u "ergebnisse", sections doc !! u "diskussion" with
  | Some res, Some disc =>
    let res_text := Py.lower (sec_text res) in
    let disc_text := Py.lower (sec_text disc) in
    let res_hits := List.filter (fun k => Py.contains res_text k) INTERPRETATION_CUES in
    let disc_hits := List.filter (fun k => Py.contains disc_text k) INTERPRETATION_CUES in
    if (4 <=? length res_hits) && (2 <=? length disc_hits) then
      [mkFinding id category (u "warn")
         (u "Ergebnisteil enthält viele interpretierende Formulierungen – Trennung zu Diskussion evtl. unsauber (heuristisch).")
         (Some (u "Ergebnisse-Hits: " ++ Py.str_of_nat (length res_hits) ++ u " ("
                ++ comma_join res_hits ++ u ") | Diskussion-Hits: "
                ++ Py.str_of_nat (length disc_hits)))]
    else
      [mkFinding id category (u "info")
         (u "Trennung Ergebnis/Diskussion wirkt ok (heuristisch).")
         (Some (u "Ergebnisse-Hits: " ++ Py.str_of_nat (length res_hits)
                ++ u " | Diskussion-Hits: " ++ Py.str_of_nat (length disc_hits)))]
  | _, _ =>
    [mkFinding id category (u "warn")
       (u "Ergebnisse oder Diskussion nicht erkannt – Trennungs-Check nicht möglich.")
       (Some (u "Erkannt: " ++ comma_join (sorted_keys doc)))]
  end.
End ResultsDiscussionSeparationRule.

(** ** [figures_tables_rules.py] *)

Module FiguresTablesReferencedRule.
Definition id := u "RES-026".
Definition category := u "Ergebnisse".
Definition severity := u "error".

Definition run (doc : DocumentModel) (ai : option AIAnnotations) : list Finding :=
  let findings :=
    if (0 <? tables_count doc) && (length (table_refs doc) =? 0) then
      [mkFinding id category (u "error")
         (u "Dokument enthält Tabellen, aber keine 'Tabelle <n>'-Referenzen im Text gefunden.")
         (Some (u "Tabellen im DOCX: " ++ Py.str_of_nat (tables_count doc)))]
    else [] in
  let findings :=
    if length (figure_refs doc) =? 0 then
      findings ++
      [mkFinding id category (u "info")
         (u "Keine 'Abbildung <n>'-Referenzen im Text gefunden (heuristisch).") None]
    else findings in
  match findings with
  | [] =>
    [mkFinding id category (u "info")
       (u "Tabellen/Abbildungen scheinen im Text referenziert zu sein (heuristisch).")
       (Some (u "Tabellen-Refs: " ++ Py.str_of_nat (length (table_refs doc))
              ++ u " | Abbildungs-Refs: " ++ Py.str_of_nat (length (figure_refs doc))))]
  | _ => findings
  end.
End FiguresTablesReferencedRule.

(** ** [toc_lists_rules.py] *)

Module toc_lists.

(** The module repeats [_normalize_simple] and [_looks_like_toc_line] of
    the extractor word for word. *)
Definition _norm (s : str) : str := _normalize_simple s.
Definition _looks_like_toc_line (p : str) : bool := _looks_like_toc_line p.

Definition _find_heading_like_line (paragraphs : list str) (variants : list str)
  : option nat :=
  let wanted := map _norm variants in
  first_index (fun p => Py.mem (_norm p) wanted) paragraphs.

End toc_lists.

Module TableOfContentsExistsRule.
Import toc_lists.
Definition id := u "STRUCT-015".
Definition category := u "Struktur".
Definition severity := u "error".

Definition TOC_TITLES : list str :=
  [u "inhaltsverzeichnis"; u "table of contents"; u "contents"].

Definition run (doc : DocumentModel) (ai : option AIAnnotations) : list Finding :=
  match _find_heading_like_line (paragraphs doc) TOC_TITLES with
  | None =>
    [mkFinding id category (u "error") (u "Kein Inhaltsverzeichnis erkannt.")
               (Some (u "Tipp: Überschrift 'Inhaltsverzeichnis' verwenden."))]
  | Some idx =>
    let window := Py.slice (paragraphs doc) (idx + 1) (idx + 40) in
    let toc_like := length (List.filter _looks_like_toc_line window) in
    let where_ := u "Position: Absatz " ++ Py.str_of_nat idx
                  ++ u " | TOC-Zeilen (heuristisch): " ++ Py.str_of_nat toc_like in
    if 3 <=? toc_like then
      [mkFinding id category (u "info") (u "Inhaltsverzeichnis erkannt.") (Some where_)]
    else
      [mkFinding id category (u "warn")
         (u "Inhaltsverzeichnis-Überschrift gefunden, aber Inhalt wirkt unklar (heuristisch).")
         (Some where_)]
  end.
End TableOfContentsExistsRule.

Module ListOfFiguresExistsRule.
Import toc_lists.
Definition id := u "FORM-039".
Definition category := u "Formales".
Definition severity := u "error".

Definition FIG_TITLES : list str :=
  [u "abbildungsverzeichnis"; u "verzeichnis der abbildungen";
   u "list of figures"; u "figures"].

Definition run (doc : DocumentModel) (ai : option AIAnnotations) : list Finding :=
  match figure_refs doc with
  | [] =>
    [mkFinding id category (u "info")
       (u "Keine Abbildungs-Referenzen erkannt – Abbildungsverzeichnis nicht erforderlich (heuristisch).")
       None]
  | _ =>
    match _find_heading_like_line (paragraphs doc) FIG_TITLES with
    | None =>
      [mkFinding id category (u "error")
         (u "Abbildungsverzeichnis fehlt (Pflicht, da Abbildungen vorhanden sind).")
         (Some (u "Erkannte Abbildungs-Refs: " ++ Py.str_of_nat (length (figure_refs doc))))]
    | Some idx =>
      [mkFinding id category (u "info") (u "Abbildungsverzeichnis erkannt.")
         (Some (u "Position: Absatz " ++ Py.str_of_nat idx
                ++ u " | Abbildungs-Refs im Text: "
                ++ Py.str_of_nat (length (figure_refs doc))))]
    end
  end.
End ListOfFiguresExistsRule.

Module ListOfTablesExistsRule.
Import toc_lists.
Definition id := u "FORM-040".
Definition category := u "Formales".
Definition severity := u "error".

Definition TAB_TITLES : list str :=
  [u "tabellenverzeichnis"; u "verzeichnis der tabellen";
   u "list of tables"; u "tables"].

Definition run (doc : DocumentModel) (ai : option AIAnnotations) : list Finding :=
  if tables_count doc =? 0 then
    [mkFinding id category (u "info")
       (u "Keine Tabellen erkannt – Tabellenverzeichnis nicht erforderlich.") None]
  else
    match _find_heading_like_line (paragraphs doc) TAB_TITLES with
    | None =>
      [mkFinding id category (u "error")
         (u "Tabellenverzeichnis fehlt (Pflicht, da Tabellen vorhanden sind).")
         (Some (u "Tabellen im Dokument: " ++ Py.str_of_nat (tables_count doc)))]
    | Some idx =>
      [mkFinding id category (u "info") (u "Tabellenverzeichnis erkannt.")
         (Some (u "Position: Absatz " ++ Py.str_of_nat idx
                ++ u " | Tabellen im Dokument: " ++ Py.str_of_nat (tables_count doc)))]
    end.
End ListOfTablesExistsRule.

(** ** [literature_rules.py] *)

Module literature.

(** The class [[0-9,\-\s]] *)
Definition block_char (c : char) : bool :=
  in_range (cp "0") (cp "9") c || Re.one_of (u ",-") c || unicodedata.isspace c.

(** [[str(i) for i in range(start, end + 1)]] *)
Definition range_strs (start end_ : Z) : list str :=
  map (fun k => Py.str_of_Z (start + Z.of_nat k)%Z)
      (seq 0 (Z.to_nat (end_ + 1 - start))).

Definition digits_in (p : str) : list str := Re.findall (Re.plus Re.d) p.

(** One comma-separated part of a block. *)
Definition expand_part (p : str) : result (list str) :=
  if Py.contains p (u "-") then
    match map Py.strip (Py.split_chr_1 (cp "-") p) with
    | [a; b] =>
      if Py.isdigit a && Py.isdigit b then
        match Py.int a, Py.int b with
        | Some start, Some end_ =>
          if (start <=? end_)%Z && (end_ - start <=? 200)%Z
          then Ok (range_strs start end_)
          else Ok [a; b]
        | _, _ => Raise ValueError
        end
      else Ok (digits_in p)
    | _ => Raise ValueError
    end
  else Ok (digits_in p).

Fixpoint expand_parts (parts : list str) : result (list str) :=
  match parts with
  | [] => Ok []
  | p :: r => xs ← expand_part p; ys ← expand_parts r; Ok (xs ++ ys)
  end.

(** [re.sub(r"[^0-9,\-\s]", " ", block)] replaces every character outside
    the class by a blank. *)
Definition _expand_numeric_block (block : str) : result (list str) :=
  let block := ascii_dashes block in
  let block := map (fun c => if block_char c then c else cp " ") block in
  let block := Py.strip (Re.sub (Re.plus Re.ws) (u " ") block) in
  if negb (nonempty block) then Ok []
  else
    let parts := List.filter nonempty (map Py.strip (Py.split_chr (cp ",") block)) in
    out ← expand_parts parts;
    Ok (Py.unique out).

Fixpoint expand_blocks (blocks : list str) : result (list str) :=
  match blocks with
  | [] => Ok []
  | b :: r => xs ← _expand_numeric_block b; ys ← expand_blocks r; Ok (xs ++ ys)
  end.

Definition _extract_citations_from_text (text : str)
  : result (list str * list str) :=
  numeric ← expand_blocks (Re.findall1 BRACKET_BLOCK_RE text);
  let author_year :=
    map (fun m => Re.group text 1 m ++ u "-" ++ Re.group text 2 m)
        (Re.finditer AUTHOR_YEAR_RE text) in
  Ok (numeric, author_year).

(** The pattern [^ \s* ( \[ \s* \d+ \s* \] | \d+ \s* [\.\)] ) \s+]. *)
Definition REF_ITEM_LINE_RE : Re.regex :=
  Re.seq [Re.Bol; Re.Star Re.ws;
          Re.Group 1 (Re.Alt
            (Re.seq [Re.chr (cp "["); Re.Star Re.ws; Re.plus Re.d; Re.Star Re.ws;
                     Re.chr (cp "]")])
            (Re.seq [Re.plus Re.d; Re.Star Re.ws; Re.Set_ (Re.one_of (u ".)"))]));
          Re.plus Re.ws].

(** [[ln.strip() for ln in text.splitlines() if ln.strip()]] *)
Definition stripped_lines (text : str) : list str :=
  List.filter nonempty (map Py.strip (Py.splitlines text)).

Definition _detect_reference_block (text : str) (min_items : nat)
  : bool * str * nat :=
  let hits := List.filter (Re.found REF_ITEM_LINE_RE) (stripped_lines text) in
  if min_items <=? length hits then
    let examples := Py.join (u " | ") (take 3 hits) in
    (true,
     u "Einträge: " ++ Py.str_of_nat (length hits) ++ u " | Beispiele: "
       ++ take 260 examples,
     length hits)
  else (false, [], length hits).

Definition full_text (doc : DocumentModel) : str := Py.join NL (paragraphs doc).

(** The literature text and where it comes from; [None] when there is
    none. *)
Definition _get_literature_text (doc : DocumentModel) : option (str * str) :=
  let from_section :=
    match sections doc !! u "literatur" with
    | Some sec =>
      if nonempty (sec_text sec) && nonempty (Py.strip (sec_text sec))
      then Some (sec_text sec, u "section") else None
    | None => None
    end in
  match from_section with
  | Some r => Some r
  | None =>
    let '(found, _, _) := _detect_reference_block (full_text doc) 3 in
    if found && nonempty (full_text doc)
    then Some (full_text doc, u "fallback") else None
  end.

(** The pattern [\b (19|20) \d{2} \b]. *)
Definition year_re : Re.regex :=
  Re.seq [Re.WordB; Re.Group 1 (Re.Alt (Re.lit (u "19")) (Re.lit (u "20")));
          Re.times 2 Re.d; Re.WordB].

Definition _extract_reference_candidates_from_literature (text : str)
  : list str * list str :=
  let lines := stripped_lines text in
  let numeric_refs :=
    omap (fun ln =>
            (* ^ \[ \s* ( \d+ ) \s* \] *)
            match Re.match_ (Re.seq [Re.Bol; Re.chr (cp "["); Re.Star Re.ws;
                                     Re.Group 1 (Re.plus Re.d); Re.Star Re.ws;
                                     Re.chr (cp "]")]) ln with
            | Some m => Some (Re.group ln 1 m)
            | None =>
              (* ^ \s* ( \d+ ) \s* [\.\)] \s+ *)
              match Re.match_ (Re.seq [Re.Bol; Re.Star Re.ws;
                                       Re.Group 1 (Re.plus Re.d); Re.Star Re.ws;
                                       Re.Set_ (Re.one_of (u ".)"));
                                       Re.plus Re.ws]) ln with
              | Some m_alt => Some (Re.group ln 1 m_alt)
              | None => None
              end
            end) lines in
  let author_year_refs :=
    omap (fun ln =>
            match Re.search year_re ln with
            | Some my =>
              (* ^ ( [A-ZÄÖÜ] [A-Za-zÄÖÜäöüß\-]+ ) \b *)
              match Re.match_ (Re.seq [Re.Bol;
                                       Re.Group 1 (Re.Cat (Re.Set_ upper_de)
                                                          (Re.plus (Re.Set_ name_char)));
                                       Re.WordB]) ln with
              | Some m2 => Some (Re.group ln 1 m2 ++ u "-" ++ Re.group0 ln my)
              | None => None
              end
            | None => None
            end) lines in
  (Py.unique numeric_refs, Py.unique author_year_refs).

(** [sorted(a_set - b_set)] *)
Definition sorted_difference (a b : list str) : list str :=
  Py.sorted Py.le (List.filter (fun x => negb (Py.mem x b)) (Py.unique a)).

(** [', '.join(l[:n])] followed by ['...'] when [l] is longer *)
Definition abridged (n : nat) (l : list str) : str :=
  comma_join (take n l) ++ (if n <? length l then u "..." else []).

End literature.

Module LiteratureExistsRule.
Import literature.
Definition id := u "LIT-032".
Definition category := u "Literatur".
Definition severity := u "error".

Definition run (doc : DocumentModel) (ai : option AIAnnotations) : list Finding :=
  let recognised :=
    match sections doc !! u "literatur" with
    | Some sec => if nonempty (Py.strip (sec_text sec)) then Some sec else None
    | None => None
    end in
  match recognised with
  | Some sec =>
    [mkFinding id category (u "info") (u "Literaturverzeichnis erkannt.")
       (Some (u "Titel: " ++ sec_title sec ++ u " | Wörter: "
              ++ Py.str_of_nat (sec_word_count sec)))]
  | None =>
    let '(found, evidence, _) := _detect_reference_block (full_text doc) 3 in
    if found then
      [mkFinding id category (u "warn")
         (u "Literaturverzeichnis erkannt, aber nicht als Kapitelüberschrift (Heading) segmentiert.")
         (Some evidence)]
    else
      [mkFinding id category (u "error") (u "Kein Literaturverzeichnis erkannt.")
         (Some (u "Tipp: Überschrift 'Literatur' / 'Literaturverzeichnis' verwenden oder nummerieren."))]
  end.
End LiteratureExistsRule.

Module AllCitationsInReferenceListRule.
Import literature.
Definition id := u "LIT-033".
Definition category := u "Literatur".
Definition severity := u "error".

Definition run (doc : DocumentModel) (ai : option AIAnnotations)
  : result (list Finding) :=
  match _get_literature_text doc with
  | None =>
    Ok [mkFinding id category (u "error")
          (u "Literaturverzeichnis fehlt – kann nicht prüfen ob alle Zitate enthalten sind.")
          None]
  | Some (lit_text, source) =>
    '(cited_num, cited_ay) ← _extract_citations_from_text (full_text doc);
    let '(ref_num, ref_ay) := _extract_reference_candidates_from_literature lit_text in
    let missing_num := sorted_difference cited_num ref_num in
    let missing_ay := sorted_difference cited_ay ref_ay in
    match cited_num, cited_ay with
    | [], [] =>
      Ok [mkFinding id category (u "info")
            (u "Keine erkennbaren Zitate im Text gefunden (heuristisch).")
            (Some (u "(z.B. [1] oder (Müller, 2020))"))]
    | _, _ =>
      match missing_num, missing_ay with
      | [], [] =>
        Ok [mkFinding id category (u "info")
              (u "Erkannte Zitate scheinen im Literaturverzeichnis enthalten zu sein (heuristisch).")
              (Some (u "Quelle: " ++ source ++ u " | Zitate: [n]="
                     ++ Py.str_of_nat (length (Py.unique cited_num))
                     ++ u " | (Autor,Jahr)="
                     ++ Py.str_of_nat (length (Py.unique cited_ay))))]
      | _, _ =>
        let pieces :=
          (match missing_num with
           | [] => []
           | _ => [u "Fehlende [n]: " ++ abridged 25 missing_num]
           end) ++
          (match missing_ay with
           | [] => []
           | _ => [u "Fehlende (Autor-Jahr): " ++ abridged 25 missing_ay]
           end) in
        let sev := if Py.eqb source (u "section") then u "error" else u "warn" in
        let msg :=
          if Py.eqb source (u "fallback")
          then u "Zitate vs. Literatur: mögliche Lücken erkannt (Literatur nicht als Kapitel segmentiert; heuristisch)."
          else u "Einige Zitate wurden nicht im Literaturverzeichnis gefunden (heuristisch)." in
        Ok [mkFinding id category sev msg (Some (take 350 (Py.join (u " | ") pieces)))]
      end
    end
  end.
End AllCitationsInReferenceListRule.

Module NoUncitedReferencesRule.
Import literature.
Definition id := u "LIT-034".
Definition category := u "Literatur".
Definition severity := u "warn".

Definition run (doc : DocumentModel) (ai : option AIAnnotations)
  : result (list Finding) :=
  match _get_literature_text doc with
  | None =>
    Ok [mkFinding id category (u "warn")
          (u "Literaturverzeichnis fehlt – kann nicht prüfen ob unzitierte Quellen enthalten sind.")
          None]
  | Some (lit_text, source) =>
    '(cited_num, cited_ay) ← _extract_citations_from_text (full_text doc);
    let '(ref_num, ref_ay) := _extract_reference_candidates_from_literature lit_text in
    match ref_num, ref_ay with
    | [], [] =>
      Ok [mkFinding id category (u "info")
            (u "Konnte keine strukturierte Referenzliste erkennen (heuristisch).")
            (Some (u "Falls du APA/Harvard nutzt, ist das ok – V1 erkennt nicht alles."))]
    | _, _ =>
      let uncited_num := sorted_difference ref_num cited_num in
      let uncited_ay := sorted_difference ref_ay cited_ay in
      match uncited_num, uncited_ay with
      | [], [] =>
        Ok [mkFinding id category (u "info")
              (u "Keine offensichtlichen unzitierten Einträge erkannt (heuristisch).")
              (Some (u "Quelle: " ++ source ++ u " | Referenzen: [n]="
                     ++ Py.str_of_nat (length (Py.unique ref_num))
                     ++ u " | (Autor,Jahr)="
                     ++ Py.str_of_nat (length (Py.unique ref_ay))))]
      | _, _ =>
        let pieces :=
          (match uncited_num with
           | [] => []
           | _ => [u "Unzitiert [n]: " ++ abridged 10 uncited_num]
           end) ++
          (match uncited_ay with
           | [] => []
           | _ => [u "Unzitiert (Autor-Jahr): " ++ abridged 10 uncited_ay]
           end) in
        let sev := if Py.eqb source (u "section") then u "warn" else u "info" in
        let msg :=
          if Py.eqb source (u "fallback")
          then u "Möglicherweise unzitierte Einträge (Literatur nicht als Kapitel segmentiert; heuristisch)."
          else u "Möglicherweise unzitierte Einträge im Literaturverzeichnis (heuristisch)." in
        Ok [mkFinding id category sev msg (Some (take 350 (Py.join (u " | ") pieces)))]
      end
    end
  end.
End NoUncitedReferencesRule.

Module CitationStyleConsistentRule.
Import literature.
Definition id := u "LIT-035".
Definition category := u "Literatur".
Definition severity := u "warn".

Definition run (doc : DocumentModel) (ai : option AIAnnotations)
  : result (list Finding) :=
  '(cited_num, cited_ay) ← _extract_citations_from_text (full_text doc);
  let num_count := length (Py.unique cited_num) in
  let ay_count := length (Py.unique cited_ay) in
  if (num_count =? 0) && (ay_count =? 0) then
    Ok [mkFinding id category (u "info")
          (u "Keine erkennbaren Zitatmuster gefunden (heuristisch).") None]
  else if (0 <? num_count) && (0 <? ay_count) then
    Ok [mkFinding id category (u "warn")
          (u "Mischung aus numerischen und Autor-Jahr Zitaten erkannt – Zitierstil evtl. inkonsistent.")
          (Some (u "[n]-Zitate: " ++ Py.str_of_nat num_count
                 ++ u " | (Autor,Jahr): " ++ Py.str_of_nat ay_count))]
  else
    let style := if 0 <? num_count then u "numerisch ([n])"
                 else u "Autor-Jahr (Harvard/APA)" in
    Ok [mkFinding id category (u "info")
          (u "Zitierstil wirkt konsistent (heuristisch): " ++ style ++ u ".") None].
End CitationStyleConsistentRule.

(** ** [registry.py] *)

(** An instance of a rule class whose [run] raises nothing. *)
Definition instance (c : Cls.t) (id category severity : str)
           (run : DocumentModel -> option AIAnnotations -> list Finding) : Rule :=
  mkRule c id category severity false (fun doc ai => Ok (run doc ai)).

(** An instance of a rule class whose [run] may raise. *)
Definition instance_raising (c : Cls.t) (id category severity : str)
           (run : DocumentModel -> option AIAnnotations -> result (list Finding))
  : Rule :=
  mkRule c id category severity false run.

Definition get_all_rules : list Rule :=
  [ instance Cls.RequiredChaptersRule RequiredChaptersRule.id
      RequiredChaptersRule.category RequiredChaptersRule.severity
      RequiredChaptersRule.run;
    instance Cls.TableOfContentsExistsRule TableOfContentsExistsRule.id
      TableOfContentsExistsRule.category TableOfContentsExistsRule.severity
      TableOfContentsExistsRule.run;

    instance_raising Cls.HeadingHierarchyRule HeadingHierarchyRule.id
      HeadingHierarchyRule.category HeadingHierarchyRule.severity
      HeadingHierarchyRule.run;
    instance_raising Cls.HeadingDepthRule HeadingDepthRule.id
      HeadingDepthRule.category HeadingDepthRule.severity
      HeadingDepthRule.run;

    instance Cls.HeadingsMustBeNumberedRule HeadingsMustBeNumberedRule.id
      HeadingsMustBeNumberedRule.category HeadingsMustBeNumberedRule.severity
      HeadingsMustBeNumberedRule.run;
    instance Cls.HeadingNumberingNoGapsRule HeadingNumberingNoGapsRule.id
      HeadingNumberingNoGapsRule.category HeadingNumberingNoGapsRule.severity
      HeadingNumberingNoGapsRule.run;

    instance Cls.ResearchQuestionExistsRule ResearchQuestionExistsRule.id
      ResearchQuestionExistsRule.category ResearchQuestionExistsRule.severity
      ResearchQuestionExistsRule.run;
    instance Cls.ResearchQuestionInIntroRule ResearchQuestionInIntroRule.id
      ResearchQuestionInIntroRule.category ResearchQuestionInIntroRule.severity
      ResearchQuestionInIntroRule.run;
    instance Cls.ResearchKeyTermsConsistencyRule ResearchKeyTermsConsistencyRule.id
      ResearchKeyTermsConsistencyRule.category
      ResearchKeyTermsConsistencyRule.severity
      ResearchKeyTermsConsistencyRule.run;
    instance Cls.ResearchQuestionReferencedInResultsRule
      ResearchQuestionReferencedInResultsRule.id
      ResearchQuestionReferencedInResultsRule.category
      ResearchQuestionReferencedInResultsRule.severity
      ResearchQuestionReferencedInResultsRule.run;
    instance Cls.ResearchQuestionReferencedInDiscussionRule
      ResearchQuestionReferencedInDiscussionRule.id
      ResearchQuestionReferencedInDiscussionRule.category
      ResearchQuestionReferencedInDiscussionRule.severity
      ResearchQuestionReferencedInDiscussionRule.run;

    instance Cls.ChapterOrderPlausibleRule ChapterOrderPlausibleRule.id
      ChapterOrderPlausibleRule.category ChapterOrderPlausibleRule.severity
      ChapterOrderPlausibleRule.run;
    instance Cls.ChapterLengthBalancedRule ChapterLengthBalancedRule.id
      ChapterLengthBalancedRule.category ChapterLengthBalancedRule.severity
      ChapterLengthBalancedRule.run;

    instance Cls.MethodChapterExistsRule MethodChapterExistsRule.id
      MethodChapterExistsRule.category MethodChapterExistsRule.severity
      MethodChapterExistsRule.run;
    instance Cls.MethodDetailSufficientRule MethodDetailSufficientRule.id
      MethodDetailSufficientRule.category MethodDetailSufficientRule.severity
      MethodDetailSufficientRule.run;
    instance Cls.ResultsDiscussionSeparationRule ResultsDiscussionSeparationRule.id
      ResultsDiscussionSeparationRule.category
      ResultsDiscussionSeparationRule.severity
      ResultsDiscussionSeparationRule.run;

    instance Cls.LiteratureExistsRule LiteratureExistsRule.id
      LiteratureExistsRule.category LiteratureExistsRule.severity
      LiteratureExistsRule.run;
    instance_raising Cls.AllCitationsInReferenceListRule
      AllCitationsInReferenceListRule.id AllCitationsInReferenceListRule.category
      AllCitationsInReferenceListRule.severity AllCitationsInReferenceListRule.run;
    instance_raising Cls.NoUncitedReferencesRule NoUncitedReferencesRule.id
      NoUncitedReferencesRule.category NoUncitedReferencesRule.severity
      NoUncitedReferencesRule.run;
    instance_raising Cls.CitationStyleConsistentRule CitationStyleConsistentRule.id
      CitationStyleConsistentRule.category CitationStyleConsistentRule.severity
      CitationStyleConsistentRule.run;

    instance Cls.ListOfFiguresExistsRule ListOfFiguresExistsRule.id
      ListOfFiguresExistsRule.category ListOfFiguresExistsRule.severity
      ListOfFiguresExistsRule.run;
    instance Cls.ListOfTablesExistsRule ListOfTablesExistsRule.id
      ListOfTablesExistsRule.category ListOfTablesExistsRule.severity
      ListOfTablesExistsRule.run;

    instance Cls.FiguresTablesReferencedRule FiguresTablesReferencedRule.id
      FiguresTablesReferencedRule.category FiguresTablesReferencedRule.severity
      FiguresTablesReferencedRule.run ].

(** ** Documents used in the statements below *)

Definition w_el (name : string) (cs : list Element) : Element :=
  mkElement (wtag (u name)) [] None cs.

(** [<w:t>t</w:t>] *)
Definition w_t (t : str) : Element := mkElement (wtag (u "t")) [] (Some t) [].

(** A paragraph with one run of text and no paragraph properties. *)
Definition plain_p (t : str) : Element := w_el "p" [w_el "r" [w_t t]].

(** A paragraph of style [style] at list level [ilvl]. *)
Definition styled_p (style ilvl : string) (t : str) : Element :=
  w_el "p"
    [ w_el "pPr"
        [ mkElement (wtag (u "pStyle")) [(wtag (u "val"), u style)] None [];
          w_el "numPr"
            [ mkElement (wtag (u "ilvl")) [(wtag (u "val"), u ilvl)] None [] ] ];
      w_el "r" [w_t t] ].

Definition document (ps : list Element) : Element :=
  w_el "document" [w_el "body" ps].

(** The document of the table-of-contents scenario. *)
Definition toc_paragraphs : list str :=
  [u "Inhaltsverzeichnis"; u "1. Einleitung ....... 3"; u "2. Methode ....... 10";
   u "Einleitung"; u "Text..."; u "Methode"; u "Text..."].
Definition toc_document : Element := document (map plain_p toc_paragraphs).

(** The document of the end-to-end scenario: six numbered chapter
    headings, no theory chapter. *)
Definition six_chapters : list str :=
  [u "1 Einleitung"; u "2 Methode"; u "3 Ergebnisse"; u "4 Diskussion";
   u "5 Fazit"; u "6 Literaturverzeichnis"].
Definition six_chapter_document : Element := document (map plain_p six_chapters).

(** The same with a theory chapter. *)
Definition seven_chapters : list str :=
  [u "1 Einleitung"; u "2 Theorie"; u "3 Methode"; u "4 Ergebnisse";
   u "5 Diskussion"; u "6 Fazit"; u "7 Literaturverzeichnis"].
Definition seven_chapter_document : Element := document (map plain_p seven_chapters).

(** The classes [registry.py] imports and never instantiates. *)
Definition unregistered : list Cls.t :=
  [Cls.CitationDensityRule; Cls.ReferenceYearsRule;
   Cls.AbbreviationsListExistsRule; Cls.DefinitionsPresentRule;
   Cls.ConclusionChapterExistsRule; Cls.AbstractExistsRule;
   Cls.IntroHasStructureOverviewRule; Cls.CaptionsPresentRule].

(** [doc.sections] has every key of [ks]. *)
Definition has_keys (doc : DocumentModel) (ks : list str) : Prop :=
  Forall (fun k => is_Some (sections doc !! k)) ks.

(** A paragraph outside tables, with text that carries no explicit number,
    a heading style and the list level [ilvl]: the paragraphs whose number
    is synthesized from the counters. *)
Definition is_auto_numbered (p : Element) (in_table : bool) (ilvl : Z) : Prop :=
  in_table = false
  /\ nonempty (_p_text p) = true
  /\ Re.match_ NUMBERING_RE (_p_text p) = None
  /\ is_Some (_heading_level_from_style (_p_style p))
  /\ _p_ilvl p = Some ilvl.

(** Seven heading paragraphs at the list levels 0, 0, 1, 0, 1, 1, 0. *)
Definition outline_paragraphs : list (Element * bool) :=
  [ (styled_p "Heading1" "0" (u "Einleitung"), false);
    (styled_p "Heading1" "0" (u "Grundlagen"), false);
    (styled_p "Heading2" "1" (u "Begriffe"), false);
    (styled_p "Heading1" "0" (u "Methode"), false);
    (styled_p "Heading2" "1" (u "Datenerhebung"), false);
    (styled_p "Heading2" "1" (u "Auswertung"), false);
    (styled_p "Heading1" "0" (u "Ergebnisse"), false) ].




(** The heading is top-level: its level is 1 or its number has no dot. *)
Definition top_level (level : option nat) (number : option str) : Prop :=
  level = Some 1 \/ exists n, number = Some n /\ n <> [] /\ cp "." ∉ n.

(** The normalized title [t] is one of the keywords of [key]. *)
Definition matches_exactly (t key : str) : Prop :=
  exists kw, kw ∈ keywords_of key /\ t = _normalize_title kw.

(** The normalized title [t] starts with a keyword of [key] and a blank. *)
Definition matches_by_prefix (t key : str) : Prop :=
  exists kw, kw ∈ keywords_of key
             /\ Py.startswith t (_normalize_title kw ++ u " ") = true.

(** ** Positions in the body tree

    A node below the body is named by its position: the child indices on
    the way down from the body. *)

Definition is_table (e : Element) : bool := Py.eqb (localname (tag e)) (u "tbl").
Definition is_paragraph (e : Element) : bool := Py.eqb (localname (tag e)) (u "p").

Fixpoint node_at (e : Element) (path : list nat) : option Element :=
  match path with
  | [] => Some e
  | i :: r => match children e !! i with
              | Some c => node_at c r
              | None => None
              end
  end.

(** The nodes strictly between [e] and the node at [path], from the top. *)
Fixpoint ancestors (e : Element) (path : list nat) : list Element :=
  match path with
  | [] => []
  | i :: r => match children e !! i, r with
              | Some c, _ :: _ => c :: ancestors c r
              | _, _ => []
              end
  end.

(** The positions of all nodes below [e], in document order. *)
Fixpoint document_order (e : Element) : list (list nat) :=
  match e with
  | mkElement _ _ _ cs =>
    (fix each (i : nat) (l : list Element) : list (list nat) :=
       match l with
       | [] => []
       | c :: r => ([i] :: map (cons i) (document_order c)) ++ each (S i) r
       end) 0 cs
  end.

Definition paragraph_at (body : Element) (path : list nat) : bool :=
  match node_at body path with Some e => is_paragraph e | None => false end.

Definition has_table_ancestor (body : Element) (path : list nat) : bool :=
  existsb is_table (ancestors body path).

Definition has_paragraph_ancestor (body : Element) (path : list nat) : bool :=
  existsb is_paragraph (ancestors body path).

(** The pair the walk yields for the paragraph at [path]. *)
Definition yielded_at (body : Element) (path : list nat) : option (Element * bool) :=
  (fun e => (e, has_table_ancestor body path)) <$> node_at body path.

(** The positions of the paragraphs that are not inside another
    paragraph, in document order. *)
Definition outer_paragraphs (body : Element) : list (list nat) :=
  List.filter (fun path => paragraph_at body path
                           && negb (has_paragraph_ancestor body path))
              (document_order body).

(** The property as it is claimed: the walk yields the paragraph nodes of
    the tree, each once, in document order. *)
Definition yields_every_paragraph (body : Element) : Prop :=
  _walk_body_paragraphs body
  = omap (yielded_at body) (List.filter (paragraph_at body) (document_order body)).

(** A paragraph whose run holds a text box with a paragraph of its own. *)
Definition text_box_body : Element :=
  w_el "body"
    [ w_el "p"
        [ w_el "r" [w_t (u "Bild 1")];
          w_el "r" [w_el "txbxContent" [plain_p (u "im Kasten")]] ] ].

(** What the walk does with one child of a node. *)
Definition walk_child (in_table : bool) (child : Element) : list (Element * bool) :=
  if is_table child then walk child true
  else if is_paragraph child then [(child, in_table)]
  else walk child in_table.

(** The positions below the children [l], the first of which has the
    index [i]. *)
Fixpoint order_from (i : nat) (l : list Element) : list (list nat) :=
  match l with
  | [] => []
  | c :: r => ([i] :: map (cons i) (document_order c)) ++ order_from (S i) r
  end.

(** What the walk of [node] yields for the position [path], when it is
    entered with the flag [in_table]. *)
Definition yield_of (node : Element) (in_table : bool) (path : list nat)
  : option (Element * bool) :=
  if paragraph_at node path && negb (has_paragraph_ancestor node path)
  then (fun e => (e, in_table || has_table_ancestor node path)) <$> node_at node path
  else None.

(** ** Sections and the headings they are built from *)

(** The section built from the heading [h], which resolves to [key], when
    [later] are the headings after it in the order of [para_index]. *)
Definition section_from (paragraphs : list str) (h : Heading) (key : str)
           (later : list Heading) : Section_ :=
  let start := h_para_index h + 1 in
  let end_ :=
    match List.find (fun h' => truthy (heading_key h')) later with
    | Some h' => h_para_index h'
    | None => length paragraphs
    end in
  let section_text :=
    Py.strip (Py.join NL (List.filter (fun p => nonempty p && nonempty (Py.strip p))
                                      (Py.slice paragraphs start end_))) in
  mkSection key (h_text h) start (max start (end_ - 1)) section_text
            (_word_count section_text).

(** The first heading of [l] that resolves to [key], and the headings
    after it. *)
Fixpoint first_with_key (key : str) (l : list Heading)
  : option (Heading * list Heading) :=
  match l with
  | [] => None
  | h :: r => if bool_decide (heading_key h = Some key) then Some (h, r)
              else first_with_key key r
  end.

(** [sorted(headings, key=lambda x: x.para_index)] *)
Definition by_para_index (headings : list Heading) : list Heading :=
  Py.sorted (fun a b => h_para_index a <=? h_para_index b) headings.

(** Two headings that both resolve to literatur. *)
Definition two_bibliographies : list Heading :=
  [ mkHeading (u "Quellen") 1 (Some (u "7")) 40;
    mkHeading (u "Einleitung") 1 (Some (u "1")) 3;
    mkHeading (u "Literaturverzeichnis") 1 (Some (u "6")) 30 ].

Definition para_le (a b : Heading) : Prop := h_para_index a <= h_para_index b.

(** ** Rules and their findings *)



(** An outline number: groups of decimal digits separated by dots. *)
Definition is_digit_group (x : str) : bool :=
  nonempty x && forallb unicodedata.isdecimal x.
Definition is_outline_number (n : str) : bool :=
  forallb is_digit_group (Py.split_chr (cp ".") n).





(** ** The language of a pattern

    The strings a pattern can consume, anchors and [\b] consuming
    nothing: what every match of the backtracking matcher lies in. *)

Inductive lang : Re.regex -> str -> Prop :=
| lang_Eps : lang Re.Eps []
| lang_Set p c : p c = true -> lang (Re.Set_ p) [c]
| lang_Cat a b x y : lang a x -> lang b y -> lang (Re.Cat a b) (x ++ y)
| lang_Alt_l a b x : lang a x -> lang (Re.Alt a b) x
| lang_Alt_r a b x : lang b x -> lang (Re.Alt a b) x
| lang_Star_nil r : lang (Re.Star r) []
| lang_Star_more r x y : lang r x -> lang (Re.Star r) y -> lang (Re.Star r) (x ++ y)
| lang_LazyStar_nil r : lang (Re.LazyStar r) []
| lang_LazyStar_more r x y :
    lang r x -> lang (Re.LazyStar r) y -> lang (Re.LazyStar r) (x ++ y)
| lang_Bol : lang Re.Bol []
| lang_Eol : lang Re.Eol []
| lang_WordB : lang Re.WordB []
| lang_Group i r x : lang r x -> lang (Re.Group i r) x.

(** The pattern has no capturing group. *)
Fixpoint group_free (r : Re.regex) : bool :=
  match r with
  | Re.Cat a b | Re.Alt a b => group_free a && group_free b
  | Re.Star r' | Re.LazyStar r' => group_free r'
  | Re.Group _ _ => false
  | _ => true
  end.


(** ** The order of iteration over the key sets

    A Python set is iterated in an order that depends on the hashes of
    its elements.  [_find_section_key] does not depend on it, because the
    keywords of different keys exclude one another. *)

(** The test of step 1 and step 2, and the test of step 3, for one key. *)
Definition key_is_exact (t key : str) : bool :=
  existsb (fun kw => Py.eqb t (_normalize_title kw)) (keywords_of key).
Definition key_is_prefix (t key : str) : bool :=
  existsb (fun kw => let kw_n := _normalize_title kw in
                     nonempty kw_n && Py.startswith t (kw_n ++ u " "))
          (keywords_of key).

(** No two keys of [keys] share a keyword after normalization. *)
Definition keywords_exclusive (keys : list str) : bool :=
  forallb (fun k1 => forallb (fun k2 =>
    Py.eqb k1 k2
    || forallb (fun kw1 => forallb (fun kw2 =>
         negb (Py.eqb (_normalize_title kw1) (_normalize_title kw2)))
         (keywords_of k2)) (keywords_of k1)) keys) keys.

(** No keyword of a key of [keys], followed by a blank, starts with a
    keyword of another key followed by a blank. *)
Definition prefixes_exclusive (keys : list str) : bool :=
  forallb (fun k1 => forallb (fun k2 =>
    Py.eqb k1 k2
    || forallb (fun kw1 => forallb (fun kw2 =>
         negb (Py.startswith (_normalize_title kw1 ++ u " ")
                             (_normalize_title kw2 ++ u " ")))
         (keywords_of k2)) (keywords_of k1)) keys) keys.

(** * Definitions for the further properties *)

(** ** Patterns *)

(** A pattern that ends with a second group of one character. *)
Definition ends_with_group2 (s : str) (p : char -> bool) (r : Re.regex) : Prop :=
  forall st st', In st' (Re.run s r st) ->
                 exists i c, s !! i = Some c /\ p c = true
                             /\ Re.caps st' = (2, (i, S i)) :: Re.caps st.


(** ** The headings of the extractor *)

(** The number and the level of a heading agree: a numbered heading has
    an outline number and one level more than the number has dots; a
    heading without number has a level between 1 and 9. *)
Definition number_shape (h : Heading) : Prop :=
  match h_number h with
  | Some n => is_outline_number n = true /\ h_level h = number_level n
  | None => 1 <= h_level h <= 9
  end.

(** The heading sits at a paragraph of [paragraphs] that is not empty. *)
Definition at_paragraph (paragraphs : list str) (h : Heading) : Prop :=
  exists p, paragraphs !! h_para_index h = Some p /\ p <> [].

Definition before (a b : Heading) : Prop := h_para_index a < h_para_index b.

(** ** Findings of the heading rules *)




(** ** Sections *)

(** The keys of SECTION_KEYWORDS. *)
Definition section_keys : list str := map fst SECTION_KEYWORDS.

(** The paragraphs [start_para .. end_para] of the two sections have no
    index in common. *)
Definition apart (a b : Section_) : Prop :=
  sec_end_para a < sec_start_para b \/ sec_end_para b < sec_start_para a.

(** ** Findings and the rule they come from *)

(** The three severities of [base.py]. *)
Definition SEVERITIES : list str := [u "info"; u "warn"; u "error"].

(** The finding names the rule [r_id] of category [r_cat] and carries
    one of the three severities. *)
Definition attributed (r_id r_cat : str) (f : Finding) : Prop :=
  rule_id f = r_id /\ category f = r_cat /\ Py.mem (severity f) SEVERITIES = true.

(** Every finding [r] returns is attributed to [r]. *)
Definition findings_attributed (doc : DocumentModel) (ai : option AIAnnotations)
           (r : Rule) : Prop :=
  forall fs, run r doc ai = Ok fs -> Forall (attributed (id r) (r_category r)) fs.

(** ** References to figures and tables *)

(** Strictly ascending in the order of [str]. *)
Definition ascending (a b : str) : Prop := Py.le a b = true /\ a <> b.

(** ** Findings of the literature rules *)


(** ** The numbers FORM-041b checks *)




(** The list is [e, e + 1, e + 2, ...]. *)
Definition consecutive_from (e : Z) (l : list Z) : Prop :=
  l = map (fun k => (e + Z.of_nat k)%Z) (seq 0 (length l)).


(** ** Numbers and their digits *)


(** ** Matches the matcher finds

    [accepts s r i j]: the pattern [r] can consume the subject [s] from
    position [i] to position [j], every iteration of a repetition
    consuming something. *)

Inductive accepts (s : str) : Re.regex -> nat -> nat -> Prop :=
| accepts_Eps i : accepts s Re.Eps i i
| accepts_Set p i c : s !! i = Some c -> p c = true -> accepts s (Re.Set_ p) i (S i)
| accepts_Cat a b i j k :
    accepts s a i j -> accepts s b j k -> accepts s (Re.Cat a b) i k
| accepts_Alt_l a b i j : accepts s a i j -> accepts s (Re.Alt a b) i j
| accepts_Alt_r a b i j : accepts s b i j -> accepts s (Re.Alt a b) i j
| accepts_Star_nil r i : accepts s (Re.Star r) i i
| accepts_Star_more r i j k :
    accepts s r i j -> i < j -> accepts s (Re.Star r) j k -> accepts s (Re.Star r) i k
| accepts_LazyStar_nil r i : accepts s (Re.LazyStar r) i i
| accepts_LazyStar_more r i j k :
    accepts s r i j -> i < j -> accepts s (Re.LazyStar r) j k ->
    accepts s (Re.LazyStar r) i k
| accepts_Bol : accepts s Re.Bol 0 0
| accepts_Eol i : Re.at_end s i = true -> accepts s Re.Eol i i
| accepts_WordB i : Re.word_boundary s i = true -> accepts s Re.WordB i i
| accepts_Group n r i j : accepts s r i j -> accepts s (Re.Group n r) i j.

(** The body of a repetition. *)
Definition repeated (r : Re.regex) : option (bool * Re.regex) :=
  match r with
  | Re.Star r' => Some (true, r')
  | Re.LazyStar r' => Some (false, r')
  | _ => None
  end.


(** ** Tokens of the research question rules *)

(** The character is none of ä, ö, ü. *)
Definition no_umlaut (c : char) : Prop := c <> cp "ä" /\ c <> cp "ö" /\ c <> cp "ü".

(** The candidate terms of the research question that occur among the
    tokens of the section. *)
Definition term_hits (source : str) (sec : Section_) : list str :=
  List.filter (fun t => Py.mem t (research._tokenize (sec_text sec)))
              (research._extract_candidate_terms source 8).

(** [tokens] of [_extract_candidate_terms]: the tokens of the question
    that are no stop words and have three characters or more. *)
Definition kept_tokens (rq_text : str) : list str :=
  List.filter (fun t => negb (Py.mem t research.STOPWORDS_DE) && (3 <=? length t))
              (research._tokenize rq_text).

(** ** Chapters *)

(** The chapters whose absence ChapterOrderPlausibleRule reports. *)
Definition central_chapters : list str :=
  [u "theorie"; u "methode"; u "ergebnisse"; u "diskussion"].

(** The word counts of the expected chapters the document has. *)
Definition chapter_counts (doc : DocumentModel) : list nat :=
  map (ChapterLengthBalancedRule.word_count_of doc)
      (List.filter (has_section doc) EXPECTED_ORDER).

(** ** Patterns that match within a line *)

(** The pattern has no anchor and none of its classes holds the newline. *)
Fixpoint line_local (r : Re.regex) : bool :=
  match r with
  | Re.Eps | Re.WordB => true
  | Re.Set_ p => negb (p 10%N)
  | Re.Cat a b | Re.Alt a b => line_local a && line_local b
  | Re.Star r' | Re.LazyStar r' | Re.Group _ r' => line_local r'
  | Re.Bol | Re.Eol => false
  end.

(** * Properties *)

(** ** The registry *)

(** C3: [get_all_rules] is a constant: the same 23 instances in the same
    order at every call, and none of them is an instance of
    CitationDensityRule, ReferenceYearsRule, AbbreviationsListExistsRule,
    DefinitionsPresentRule, ConclusionChapterExistsRule, AbstractExistsRule,
    IntroHasStructureOverviewRule or CaptionsPresentRule. *)
Theorem registry_is_fixed :
  length get_all_rules = 23
  /\ map cls get_all_rules =
     [ Cls.RequiredChaptersRule; Cls.TableOfContentsExistsRule;
       Cls.HeadingHierarchyRule; Cls.HeadingDepthRule;
       Cls.HeadingsMustBeNumberedRule; Cls.HeadingNumberingNoGapsRule;
       Cls.ResearchQuestionExistsRule; Cls.ResearchQuestionInIntroRule;
       Cls.ResearchKeyTermsConsistencyRule;
       Cls.ResearchQuestionReferencedInResultsRule;
       Cls.ResearchQuestionReferencedInDiscussionRule;
       Cls.ChapterOrderPlausibleRule; Cls.ChapterLengthBalancedRule;
       Cls.MethodChapterExistsRule; Cls.MethodDetailSufficientRule;
       Cls.ResultsDiscussionSeparationRule;
       Cls.LiteratureExistsRule; Cls.AllCitationsInReferenceListRule;
       Cls.NoUncitedReferencesRule; Cls.CitationStyleConsistentRule;
       Cls.ListOfFiguresExistsRule; Cls.ListOfTablesExistsRule;
       Cls.FiguresTablesReferencedRule ]
  /\ Forall (fun c => c ∉ map cls get_all_rules) unregistered
  /\ NoDup (map cls get_all_rules).
Proof.
  split; [reflexivity|]. split; [reflexivity|]. split.
  - unfold unregistered. repeat constructor; vm_compute; intros H;
      repeat (apply elem_of_cons in H as [H|H]; [discriminate H|]);
      by apply elem_of_nil in H.
  - apply (bool_decide_unpack _). vm_compute. exact I.
Qed.

(** ** Citation signals *)

(** C10: the text "Studies [1,3-5] and (Müller, 2020) show... et al.
    confirm." has one numeric citation block, one author-year citation and
    one "et al."; a bracketed block counts once whatever list or range it
    holds. *)
Theorem citation_signals_example :
  _extract_citation_signals
    [u "Studies [1,3-5] and (Müller, 2020) show... et al. confirm."]
  = mkCitationSignals 1 1 1
  /\ map (fun block => numeric_count (_extract_citation_signals [block]))
         [u "[1]"; u "[1-4]"; u "[1, 3–5]"; u "[1,4,9]"; u "[see 12]"]
     = [1; 1; 1; 1; 1]
  /\ numeric_count (_extract_citation_signals [u "[a] and [b,c]"]) = 0.
Proof. vm_compute. repeat split. Qed.

(** ** The table of contents *)

(** C6: for the paragraphs "Inhaltsverzeichnis", "1. Einleitung ....... 3",
    "2. Methode ....... 10", "Einleitung", "Text...", "Methode", "Text..."
    the extraction returns the seven paragraphs and exactly two headings,
    "Einleitung" at paragraph 3 and "Methode" at paragraph 5; the two
    dot-leader lines at paragraphs 1 and 2 are classified as headings by
    the loop and removed by the filter. *)
Theorem toc_lines_are_excluded :
  _extract_paragraphs_and_headings_from_xml toc_document
  = (toc_paragraphs,
     [mkHeading (u "Einleitung") 1 None 3; mkHeading (u "Methode") 1 None 5])
  /\ map h_para_index
         (st_headings (extract_loop 0 (_walk_body_paragraphs
                                         (w_el "body" (map plain_p toc_paragraphs)))
                                    initial_state))
     = [1; 2; 3; 5]
  /\ _find_toc_range toc_paragraphs = Some (0, 7).
Proof. vm_compute. repeat split. Qed.

(** ** Required chapters *)

Lemma has_section_true doc k : is_Some (sections doc !! k) -> has_section doc k = true.
Proof. intros H. unfold has_section. by apply bool_decide_eq_true. Qed.

Lemma has_section_false doc k : sections doc !! k = None -> has_section doc k = false.
Proof.
  intros H. unfold has_section. apply bool_decide_eq_false. rewrite H.
  by intros [x Hx].
Qed.

(** C1: when the section map has einleitung, methode, ergebnisse,
    diskussion, fazit and literatur but no theorie, the rule returns exactly
    one finding, of severity error, and the chapters it reports missing are
    exactly [theorie]; when all seven required keys are present it returns
    exactly one finding, of severity info.  The document with the headings
    "1 Einleitung", "2 Methode", "3 Ergebnisse", "4 Diskussion", "5 Fazit",
    "6 Literaturverzeichnis" is extracted to a section map of the first
    kind. *)
Theorem required_chapters_report (doc : DocumentModel) (ai : option AIAnnotations) :
  (has_keys doc [u "einleitung"; u "methode"; u "ergebnisse"; u "diskussion";
                 u "fazit"; u "literatur"] ->
   sections doc !! u "theorie" = None ->
   RequiredChaptersRule.missing doc = [u "theorie"]
   /\ exists f, RequiredChaptersRule.run doc ai = [f]
                /\ severity f = u "error"
                /\ message f = u "Fehlende Pflichtkapitel: theorie")
  /\ (has_keys doc RequiredChaptersRule.REQUIRED ->
      RequiredChaptersRule.missing doc = []
      /\ exists f, RequiredChaptersRule.run doc ai = [f] /\ severity f = u "info")
  /\ (let scenario := extract_docx (u "thesis.docx") six_chapter_document 0 in
      map h_text (headings scenario)
      = [u "Einleitung"; u "Methode"; u "Ergebnisse"; u "Diskussion"; u "Fazit";
         u "Literaturverzeichnis"]
      /\ Py.sorted Py.le (map fst (map_to_list (sections scenario)))
         = [u "diskussion"; u "einleitung"; u "ergebnisse"; u "fazit";
            u "literatur"; u "methode"]
      /\ sections scenario !! u "theorie" = None).
Proof.
  split; [|split].
  - intros Hkeys Hth.
    assert (Hm : RequiredChaptersRule.missing doc = [u "theorie"]).
    { unfold has_keys in Hkeys.
      repeat (apply Forall_cons in Hkeys as [?%has_section_true Hkeys]).
      unfold RequiredChaptersRule.missing, RequiredChaptersRule.REQUIRED.
      apply has_section_false in Hth.
      cbn [List.filter]. by repeat match goal with H : has_section _ _ = _ |- _ =>
                                     rewrite H; clear H end. }
    split; [exact Hm|]. unfold RequiredChaptersRule.run. rewrite Hm.
    eexists. split; [reflexivity|]. split; reflexivity.
  - intros Hkeys.
    assert (Hm : RequiredChaptersRule.missing doc = []).
    { unfold has_keys, RequiredChaptersRule.REQUIRED in Hkeys.
      repeat (apply Forall_cons in Hkeys as [?%has_section_true Hkeys]).
      unfold RequiredChaptersRule.missing, RequiredChaptersRule.REQUIRED.
      cbn [List.filter]. by repeat match goal with H : has_section _ _ = _ |- _ =>
                                     rewrite H; clear H end. }
    split; [exact Hm|]. unfold RequiredChaptersRule.run. rewrite Hm.
    eexists. split; reflexivity.
  - vm_compute. repeat split.
Qed.

Lemma required_chapters_report_witness :
  let doc := extract_docx (u "thesis.docx") six_chapter_document 0 in
  let doc7 := extract_docx (u "thesis.docx") seven_chapter_document 0 in
  (exists f, RequiredChaptersRule.run doc None = [f] /\ severity f = u "error"
             /\ message f = u "Fehlende Pflichtkapitel: theorie")
  /\ (exists f, RequiredChaptersRule.run doc7 None = [f] /\ severity f = u "info").
Proof.
  intros doc doc7. split.
  - apply (required_chapters_report doc None).
    + unfold has_keys. repeat constructor; vm_compute; eexists; reflexivity.
    + vm_compute. reflexivity.
  - apply (required_chapters_report doc7 None).
    unfold has_keys, RequiredChaptersRule.REQUIRED.
    repeat constructor; vm_compute; eexists; reflexivity.
Defined.

(** ** Automatic outline numbers *)

Lemma foldl_zero_length (ks : list nat) (cs : list nat) :
  length (foldl (fun cs k => <[k := 0]> cs) cs ks) = length cs.
Proof.
  revert cs. induction ks as [|k ks IH]; intros cs; [done|].
  cbn [foldl]. by rewrite IH, length_insert.
Qed.

Lemma foldl_zero_lookup (ks : list nat) (cs : list nat) (j : nat) :
  foldl (fun cs k => <[k := 0]> cs) cs ks !! j
  = if bool_decide (j ∈ ks /\ j < length cs) then Some 0 else cs !! j.
Proof.
  revert cs. induction ks as [|k ks IH]; intros cs.
  - cbn [foldl]. rewrite bool_decide_eq_false_2; [done|].
    intros [H _]. by apply elem_of_nil in H.
  - cbn [foldl]. rewrite IH, length_insert.
    destruct (decide (j ∈ ks /\ j < length cs)) as [[Hin Hlt]|Hn].
    + rewrite !bool_decide_eq_true_2; [done| |done].
      split; [by apply elem_of_cons; right|done].
    + rewrite (bool_decide_eq_false_2 _ Hn).
      destruct (decide (j = k)) as [->|Hjk].
      * destruct (decide (k < length cs)) as [Hlt|Hge].
        -- rewrite list_lookup_insert_eq by done.
           rewrite bool_decide_eq_true_2; [done|].
           split; [by apply elem_of_cons; left|done].
        -- rewrite list_insert_ge by lia.
           rewrite bool_decide_eq_false_2; [done|]. intros [_ ?]. lia.
      * rewrite list_lookup_insert_ne by done.
        rewrite bool_decide_eq_false_2; [done|].
        intros [[?|?]%elem_of_cons ?]; [done|]. apply Hn. done.
Qed.

Lemma bump_counts_length counts lvl :
  length (bump_counts counts lvl) = length counts.
Proof.
  unfold bump_counts.
  destruct (_ && _); rewrite ?length_insert, foldl_zero_length, length_insert; done.
Qed.

(** What one count does to the counters. *)
Lemma bump_counts_lookup counts lvl k :
  length counts = 10 -> 1 <= lvl <= 9 -> 0 < k < 10 ->
  bump_counts counts lvl !! k
  = Some (if lvl <? k then 0
          else if k =? lvl then S (counts !!! lvl)
          else if (k =? 1) && (counts !!! 1 =? 0) then 1
          else counts !!! k).
Proof.
  intros Hlen Hlvl Hk. unfold bump_counts.
  set (c1 := <[lvl := S (counts !!! lvl)]> counts).
  set (c2 := foldl _ c1 _).
  assert (Hl1 : length c1 = 10) by (unfold c1; by rewrite length_insert).
  assert (Hl2 : length c2 = 10) by (unfold c2; by rewrite foldl_zero_length).
  assert (Hc2 : forall j, j < 10 ->
            c2 !! j = if lvl <? j then Some 0 else c1 !! j).
  { intros j Hj. unfold c2. rewrite foldl_zero_lookup.
    destruct (Nat.ltb_spec lvl j).
    - rewrite bool_decide_eq_true_2; [done|]. split; [|lia].
      apply elem_of_seq. lia.
    - rewrite bool_decide_eq_false_2; [done|].
      intros [?%elem_of_seq _]. lia. }
  assert (Hc1 : forall j, j < 10 ->
            c1 !! j = Some (if j =? lvl then S (counts !!! lvl) else counts !!! j)).
  { intros j Hj. unfold c1. destruct (Nat.eqb_spec j lvl) as [->|Hne].
    - by rewrite list_lookup_insert_eq by lia.
    - rewrite list_lookup_insert_ne by done.
      apply list_lookup_lookup_total_lt. lia. }
  assert (Hone : c2 !!! 1 = if lvl =? 1 then S (counts !!! lvl) else counts !!! 1).
  { apply list_lookup_total_correct. rewrite Hc2, Hc1 by lia.
    destruct (Nat.ltb_spec lvl 1); [lia|].
    destruct (Nat.eqb_spec 1 lvl), (Nat.eqb_spec lvl 1); try lia; done. }
  destruct (Nat.ltb_spec 1 lvl) as [Hgt|Hle]; cbn [andb].
  - rewrite Hone. destruct (Nat.eqb_spec lvl 1); [lia|].
    destruct (Nat.eqb_spec (counts !!! 1) 0) as [Hz|Hnz].
    + destruct (Nat.eqb_spec k 1) as [->|Hk1].
      * rewrite list_lookup_insert_eq by lia.
        destruct (Nat.ltb_spec lvl 1); [lia|].
        destruct (Nat.eqb_spec 1 lvl); [lia|]. done.
      * rewrite list_lookup_insert_ne by done. rewrite Hc2, Hc1 by lia.
        destruct (Nat.ltb_spec lvl k); [done|]. cbn [andb]. done.
    + rewrite Hc2, Hc1 by lia. destruct (Nat.ltb_spec lvl k); [done|].
      destruct (Nat.eqb_spec k lvl); [done|].
      destruct (Nat.eqb_spec k 1); cbn [andb]; done.
  - assert (lvl = 1) as -> by lia. rewrite Hc2, Hc1 by lia.
    destruct (Nat.ltb_spec 1 k); [done|].
    destruct (Nat.eqb_spec k 1) as [->|]; [|lia]. done.
Qed.

(** The iteration of the loop on a paragraph whose number is synthesized. *)
Lemma paragraph_step_auto idx p in_table st ilvl :
  is_auto_numbered p in_table ilvl ->
  let counts := bump_counts (auto_counts st) (auto_level ilvl) in
  let number := auto_number counts (auto_level ilvl) in
  exists level,
    paragraph_step idx p in_table st
    = mkExtractState (st_paragraphs st ++ [_p_text p])
                     (st_headings st ++ [mkHeading (_p_text p) level (Some number) idx])
                     counts.
Proof.
  intros (-> & Htext & Hre & [l Hstyle] & Hilvl) counts number.
  unfold paragraph_step. rewrite Htext, Hre, Hstyle, Hilvl.
  cbn [negb]. rewrite bool_decide_eq_true_2 by (by eexists).
  cbn [orb]. fold counts. fold number. eexists. reflexivity.
Qed.

Lemma auto_level_in_range ilvl : (0 <= ilvl <= 8)%Z -> auto_level ilvl = Z.to_nat (ilvl + 1).
Proof. intros H. unfold auto_level. f_equal. lia. Qed.

(** C5: a heading-styled paragraph without an explicit number, at list
    level [ilvl], increments the counter at depth [ilvl + 1], zeroes the
    deeper counters, sets the counter of depth 1 to 1 when it is still zero
    and a deeper counter was incremented, leaves the other counters above
    alone, and is numbered with the counters of depths 1 to [ilvl + 1]
    joined by dots.  Seven such paragraphs at the levels 0, 0, 1, 0, 1, 1, 0
    are numbered 1, 2, 2.1, 3, 3.1, 3.2, 4. *)
Theorem auto_numbers_are_synthesized
        (idx : nat) (p : Element) (st : ExtractState) (ilvl : Z) :
  is_auto_numbered p false ilvl ->
  length (auto_counts st) = 10 ->
  (0 <= ilvl <= 8)%Z ->
  let lvl := Z.to_nat (ilvl + 1) in
  let before := auto_counts st in
  let after := auto_counts (paragraph_step idx p false st) in
  length after = 10
  /\ after !! lvl = Some (S (before !!! lvl))
  /\ Forall (fun k => after !! k = Some 0) (seq (lvl + 1) (10 - (lvl + 1)))
  /\ Forall (fun k => after !! k
                      = Some (if (k =? 1) && (before !!! 1 =? 0) then 1
                              else before !!! k))
            (seq 1 (lvl - 1))
  /\ (exists h, st_headings (paragraph_step idx p false st) = st_headings st ++ [h]
                /\ h_para_index h = idx
                /\ h_number h
                   = Some (Py.join (u ".")
                             (map (fun k => Py.str_of_nat (after !!! k)) (seq 1 lvl))))
  /\ (forall ps start,
        Forall2 (fun pb i => is_auto_numbered (fst pb) (snd pb) i) ps
                [0; 0; 1; 0; 1; 1; 0]%Z ->
        map h_number (st_headings (extract_loop start ps initial_state))
        = [Some (u "1"); Some (u "2"); Some (u "2.1"); Some (u "3");
           Some (u "3.1"); Some (u "3.2"); Some (u "4")]).
Proof.
  intros Hp Hlen Hrange lvl before after.
  destruct (paragraph_step_auto idx st Hp) as [level Hstep].
  rewrite (auto_level_in_range Hrange) in Hstep. fold lvl in Hstep.
  assert (Hafter : after = bump_counts before lvl) by (unfold after; by rewrite Hstep).
  assert (Hlvl : 1 <= lvl <= 9) by (unfold lvl; lia).
  split; [by rewrite Hafter, bump_counts_length|].
  split.
  { rewrite Hafter, bump_counts_lookup by (done || lia).
    destruct (Nat.ltb_spec lvl lvl); [lia|]. by rewrite Nat.eqb_refl. }
  split.
  { apply Forall_forall. intros k Hk%elem_of_seq.
    rewrite Hafter, bump_counts_lookup by (done || lia).
    destruct (Nat.ltb_spec lvl k); [done|lia]. }
  split.
  { apply Forall_forall. intros k Hk%elem_of_seq.
    rewrite Hafter, bump_counts_lookup by (done || lia).
    destruct (Nat.ltb_spec lvl k); [lia|].
    destruct (Nat.eqb_spec k lvl); [lia|]. done. }
  split.
  { rewrite Hstep. eexists. split; [reflexivity|]. split; [reflexivity|].
    cbn [h_number]. rewrite Hafter. reflexivity. }
  clear. intros ps start H.
  repeat match goal with
         | H : Forall2 _ _ (_ :: _) |- _ =>
           apply Forall2_cons_inv_r in H as ([? ?] & ? & ? & H & ->); cbn [fst snd] in *
         | H : Forall2 _ _ [] |- _ => apply Forall2_nil_inv_r in H as ->
         end.
  cbn [extract_loop].
  repeat match goal with
         | H : is_auto_numbered ?p ?b ?i |- context [paragraph_step ?n ?p ?b ?s] =>
           let lv := fresh "lv" in
           destruct (paragraph_step_auto n s H) as [lv ->]; clear H;
           cbn [auto_counts st_headings st_paragraphs]
         end.
  rewrite !map_app. cbn [map h_number initial_state st_headings app].
  vm_compute. reflexivity.
Qed.

Lemma auto_numbers_are_synthesized_witness :
  let st := paragraph_step 0 (styled_p "Heading1" "0" (u "Einleitung")) false initial_state in
  auto_counts (paragraph_step 1 (styled_p "Heading2" "1" (u "Begriffe")) false st)
  = [0; 1; 1; 0; 0; 0; 0; 0; 0; 0]
  /\ map h_number (st_headings (extract_loop 0 outline_paragraphs initial_state))
     = [Some (u "1"); Some (u "2"); Some (u "2.1"); Some (u "3");
        Some (u "3.1"); Some (u "3.2"); Some (u "4")].
Proof.
  intros st.
  assert (Hp : is_auto_numbered (styled_p "Heading2" "1" (u "Begriffe")) false 1).
  { repeat split; try (vm_compute; reflexivity). vm_compute. eexists. reflexivity. }
  assert (Hlen : length (auto_counts st) = 10) by (vm_compute; reflexivity).
  assert (Hr : (0 <= 1 <= 8)%Z) by lia.
  destruct (auto_numbers_are_synthesized 1 (st := st) Hp Hlen Hr)
    as (_ & _ & _ & _ & _ & Hseq).
  split; [vm_compute; reflexivity|].
  apply Hseq. unfold outline_paragraphs.
  repeat constructor; cbn [fst snd]; try (vm_compute; reflexivity);
    vm_compute; eexists; reflexivity.
Defined.

(** ** The range of the table of contents *)







(** ** Section keys *)

Lemma exact_key_Some keys t key :
  exact_key keys t = Some key -> key ∈ keys /\ matches_exactly t key.
Proof.
  unfold exact_key. intros [Hin Hex]%find_some. split; [by apply list_elem_of_In|].
  apply existsb_exists in Hex as (kw & Hkw & Heq).
  exists kw. split; [by apply list_elem_of_In|].
  unfold Py.eqb in Heq. by apply bool_decide_eq_true in Heq.
Qed.

Lemma prefix_key_Some keys t key :
  prefix_key keys t = Some key -> key ∈ keys /\ matches_by_prefix t key.
Proof.
  unfold prefix_key. intros [Hin Hex]%find_some. split; [by apply list_elem_of_In|].
  apply existsb_exists in Hex as (kw & Hkw & Heq).
  exists kw. split; [by apply list_elem_of_In|].
  by apply andb_true_iff in Heq as [_ ?].
Qed.

Lemma isdigit_no_dot n : Py.isdigit n = true -> cp "." ∉ n.
Proof.
  unfold Py.isdigit. destruct n as [|c n]; [discriminate|].
  intros Hall Hin. rewrite forallb_forall in Hall.
  apply list_elem_of_In in Hin. apply Hall in Hin. discriminate Hin.
Qed.

Lemma is_top_level_sound level number :
  is_top_level level number = true -> top_level level number.
Proof.
  unfold is_top_level, top_level. intros [H|H]%orb_true_iff.
  - left. destruct level as [[|[|?]]|]; done.
  - right. destruct number as [n|]; [|discriminate].
    apply andb_true_iff in H as [Hne Hd]. exists n. split; [done|].
    split; [by destruct n|by apply isdigit_no_dot].
Qed.

Lemma prefix_keys_not_strict key :
  key ∈ PREFIX_OK_KEYS -> key ∉ STRICT_ONLY_KEYS.
Proof.
  unfold PREFIX_OK_KEYS.
  intros H; repeat (apply elem_of_cons in H as [->|H]);
    [| | | |by apply elem_of_nil in H];
    apply (bool_decide_unpack _); vm_compute; exact I.
Qed.

Lemma non_strict_keys_not_strict key :
  key ∈ List.filter (fun key => negb (Py.mem key STRICT_ONLY_KEYS))
                    (map fst SECTION_KEYWORDS) ->
  key ∉ STRICT_ONLY_KEYS.
Proof.
  intros [_ H]%list_elem_of_In%filter_In. unfold Py.mem in H.
  apply negb_true_iff in H. by apply bool_decide_eq_false in H.
Qed.

(** The stage of [_find_section_key] a key comes from. *)
Lemma section_key_cases (strict_iter prefix_iter : list str) (title : str)
      (level : option nat) (number : option str) (key : str) :
  prefix_iter ≡ₚ PREFIX_OK_KEYS ->
  _find_section_key_in strict_iter prefix_iter title level number = Some key ->
  matches_exactly (_normalize_title title) key
  \/ (key ∈ PREFIX_OK_KEYS /\ (key ∉ STRICT_ONLY_KEYS)
      /\ top_level level number
      /\ (matches_by_prefix (_normalize_title title) key
          \/ (key = u "theorie"
              /\ Re.found theory_like_re (_normalize_title title) = true))).
Proof.
  intros Hprefix Hfind. set (t := _normalize_title title).
  unfold _find_section_key_in in Hfind. cbv zeta in Hfind. fold t in Hfind.
  destruct (negb (nonempty t)); [discriminate|].
  destruct (Re.found literaturrecherche_re t); [discriminate|].
  destruct (exact_key strict_iter t) as [k1|] eqn:H1.
  { simplify_eq. left. by apply exact_key_Some in H1 as [_ ?]. }
  match type of Hfind with
  | context [exact_key ?l t] => destruct (exact_key l t) as [k2|] eqn:H2
  end.
  { simplify_eq. left. by apply exact_key_Some in H2 as [_ ?]. }
  destruct (is_top_level level number) eqn:Htop.
  - apply is_top_level_sound in Htop.
    destruct (prefix_key prefix_iter t) as [k3|] eqn:H3.
    + simplify_eq. apply prefix_key_Some in H3 as [Hin Hpre].
      rewrite Hprefix in Hin. right.
      split; [done|]. split; [by apply prefix_keys_not_strict|]. split; [done|].
      by left.
    + cbn [andb] in Hfind.
      destruct (Re.found theory_like_re t) eqn:Hth; [|discriminate].
      simplify_eq. right.
      assert (Hin : u "theorie" ∈ PREFIX_OK_KEYS)
        by (apply (bool_decide_unpack _); vm_compute; exact I).
      split; [done|]. split; [by apply prefix_keys_not_strict|]. split; [done|].
      by right.
  - cbn [andb] in Hfind. discriminate.
Qed.

(** C9: whatever the order in which the two key sets are iterated, a
    strict-only key (abstract, abkuerzungen, ergebnisse, diskussion,
    literatur) is returned only when the normalized title equals one of its
    keywords.  A key that is not an exact match is one of einleitung,
    theorie, methode, fazit, the heading is top-level (level 1, or a number
    without a dot), and the title starts with a keyword of the key followed
    by a blank or is caught by the theory pattern. *)
Theorem section_key_resolution
        (strict_iter prefix_iter : list str) (title : str)
        (level : option nat) (number : option str) (key : str) :
  strict_iter ≡ₚ STRICT_ONLY_KEYS ->
  prefix_iter ≡ₚ PREFIX_OK_KEYS ->
  _find_section_key_in strict_iter prefix_iter title level number = Some key ->
  let t := _normalize_title title in
  (key ∈ STRICT_ONLY_KEYS -> matches_exactly t key)
  /\ (matches_exactly t key
      \/ (key ∈ PREFIX_OK_KEYS /\ (key ∉ STRICT_ONLY_KEYS)
          /\ top_level level number
          /\ (matches_by_prefix t key
              \/ (key = u "theorie" /\ Re.found theory_like_re t = true))))
  /\ (_find_section_key (u "Ergebnisse und Diskussion") (Some 1) (Some (u "3")) = None
      /\ _find_section_key (u "Einleitung und Motivation") (Some 1) (Some (u "1"))
         = Some (u "einleitung")
      /\ _find_section_key (u "Einleitung und Motivation") (Some 2) (Some (u "1.1"))
         = None).
Proof.
  intros Hstrict Hprefix Hfind t.
  pose proof (section_key_cases Hprefix Hfind) as Hcases. fold t in Hcases.
  split; [|split; [exact Hcases|vm_compute; repeat split]].
  intros Hin. destruct Hcases as [?|(_ & Hnot & _)]; [done|]. by destruct Hnot.
Qed.

Lemma section_key_resolution_witness :
  let t := _normalize_title (u "Einleitung und Motivation") in
  matches_exactly t (u "einleitung")
  \/ (u "einleitung" ∈ PREFIX_OK_KEYS /\ (u "einleitung" ∉ STRICT_ONLY_KEYS)
      /\ top_level (Some 1) (Some (u "1"))
      /\ (matches_by_prefix t (u "einleitung")
          \/ (u "einleitung" = u "theorie" /\ Re.found theory_like_re t = true))).
Proof.
  apply (section_key_resolution (strict_iter := STRICT_ONLY_KEYS)
           (prefix_iter := PREFIX_OK_KEYS) (title := u "Einleitung und Motivation")
           (level := Some 1) (number := Some (u "1")) (key := u "einleitung")).
  - reflexivity.
  - reflexivity.
  - vm_compute. reflexivity.
Defined.

(** ** The body walk *)

Lemma Element_ind_children (P : Element -> Prop) :
  (forall t a x cs, Forall P cs -> P (mkElement t a x cs)) ->
  forall e, P e.
Proof.
  intros H. fix IH 1. intros [t a x cs]. apply H.
  revert cs. fix IHcs 1. intros [|c cs]; constructor; [apply IH|apply IHcs].
Qed.

Lemma walk_children t a x cs in_table :
  walk (mkElement t a x cs) in_table = flat_map (walk_child in_table) cs.
Proof.
  cbn [walk]. induction cs as [|c cs IH]; [done|].
  cbn [flat_map]. rewrite <- IH. reflexivity.
Qed.

Lemma document_order_children t a x cs :
  document_order (mkElement t a x cs) = order_from 0 cs.
Proof.
  cbn [document_order]. generalize 0. induction cs as [|c cs IH]; intros i; [done|].
  cbn [order_from]. f_equal; try apply IH.
Qed.

Lemma order_from_head i l path :
  In path (order_from i l) -> exists k r, path = k :: r /\ i <= k.
Proof.
  revert i. induction l as [|c l IH]; intros i; cbn [order_from]; [done|].
  intros [[<-|Hin]|Hin]%in_app_or.
  - exists i, []. split; [done|lia].
  - apply in_map_iff in Hin as (r & <- & _). exists i, r. split; [done|lia].
  - destruct (IH _ Hin) as (k & r & -> & Hk). exists k, r. split; [done|lia].
Qed.

Lemma document_order_nonempty e path : In path (document_order e) -> path <> [].
Proof.
  destruct e as [t a x cs]. rewrite document_order_children.
  intros (k & r & -> & _)%order_from_head. done.
Qed.

Lemma omap_filter {A B} (f : A -> option B) (q : A -> bool) l :
  omap f (List.filter q l) = omap (fun x => if q x then f x else None) l.
Proof.
  induction l as [|x l IH]; [done|]. cbn [List.filter].
  destruct (q x) eqn:Hq; cbn [omap list_omap]; rewrite Hq, IH; done.
Qed.

Lemma omap_ext_in {A B} (f g : A -> option B) l :
  (forall x, In x l -> f x = g x) -> omap f l = omap g l.
Proof.
  induction l as [|x l IH]; intros H; [done|].
  assert (Hx : f x = g x) by (apply H; by left).
  assert (Hl : omap f l = omap g l) by (apply IH; intros y Hy; apply H; by right).
  cbn [omap list_omap]. fold (omap f l). fold (omap g l). by rewrite Hx, Hl.
Qed.

Lemma omap_map {A B C} (f : B -> option C) (g : A -> B) l :
  omap f (map g l) = omap (fun x => f (g x)) l.
Proof.
  induction l as [|x l IH]; [done|]. cbn [map omap list_omap]. by rewrite IH.
Qed.

Lemma omap_none {A B} (l : list A) : omap (fun _ => @None B) l = [].
Proof. induction l; [done|]. cbn [omap list_omap]. done. Qed.

Lemma table_not_paragraph c : is_table c = true -> is_paragraph c = false.
Proof.
  unfold is_table, is_paragraph, Py.eqb.
  intros H%bool_decide_eq_true. rewrite H. reflexivity.
Qed.

Lemma yield_of_child t a x cs i c in_table path :
  cs !! i = Some c -> path <> [] ->
  yield_of (mkElement t a x cs) in_table (i :: path)
  = if is_table c then yield_of c true path
    else if is_paragraph c then None
    else yield_of c in_table path.
Proof.
  intros Hc Hpath. unfold yield_of, paragraph_at, has_paragraph_ancestor, has_table_ancestor.
  cbn [node_at ancestors children]. rewrite Hc.
  destruct path as [|j path]; [done|]. cbn [existsb].
  destruct (is_table c) eqn:Ht.
  - rewrite (table_not_paragraph Ht). cbn [orb].
    destruct (_ && _); [|done]. by rewrite orb_true_r.
  - destruct (is_paragraph c); cbn [orb negb]; [by rewrite andb_false_r|].
    done.
Qed.

Lemma yield_of_top t a x cs i c in_table :
  cs !! i = Some c ->
  yield_of (mkElement t a x cs) in_table [i]
  = if is_paragraph c then Some (c, in_table) else None.
Proof.
  intros Hc. unfold yield_of, paragraph_at, has_paragraph_ancestor, has_table_ancestor.
  cbn [node_at ancestors children existsb]. rewrite Hc. cbn [negb].
  rewrite andb_true_r, orb_false_r. by destruct (is_paragraph c).
Qed.

(** The walk of a node yields the outer paragraphs below it, in document
    order, flagged when the walk was entered inside a table or a table
    lies between the node and the paragraph. *)
Lemma walk_yields node :
  forall in_table,
    walk node in_table = omap (yield_of node in_table) (document_order node).
Proof.
  induction node as [t a x cs IH] using Element_ind_children. intros in_table.
  rewrite walk_children, document_order_children.
  enough (Hgen : forall l pre, cs = pre ++ l -> Forall (fun c => forall b,
                     walk c b = omap (yield_of c b) (document_order c)) l ->
            omap (yield_of (mkElement t a x cs) in_table) (order_from (length pre) l)
            = flat_map (walk_child in_table) l)
    by (symmetry; apply (Hgen cs []); done).
  clear IH. induction l as [|c l IHl]; intros pre Hcs Hall; [done|].
  apply Forall_cons in Hall as [Hc Hall].
  assert (Hlook : cs !! length pre = Some c).
  { rewrite Hcs. by rewrite list_lookup_middle. }
  cbn [order_from flat_map]. rewrite omap_app. f_equal.
  - cbn [app omap list_omap]. rewrite (yield_of_top _ _ _ _ Hlook).
    fold (omap (yield_of (mkElement t a x cs) in_table)
               (map (cons (length pre)) (document_order c))).
    rewrite omap_map.
    rewrite (omap_ext_in (g := fun path =>
               if is_table c then yield_of c true path
               else if is_paragraph c then None
               else yield_of c in_table path)).
    2: { intros path Hin. apply yield_of_child; [done|].
         by apply document_order_nonempty in Hin. }
    unfold walk_child. destruct (is_table c) eqn:Ht.
    + rewrite (table_not_paragraph Ht). by rewrite Hc.
    + destruct (is_paragraph c); [by rewrite omap_none|]. by rewrite Hc.
  - replace (S (length pre)) with (length (pre ++ [c])) by (rewrite length_app; cbn; lia).
    apply IHl; [|done]. by rewrite <- app_assoc.
Qed.

Lemma order_from_NoDup i l :
  Forall (fun c => NoDup (document_order c)) l -> NoDup (order_from i l).
Proof.
  revert i. induction l as [|c l IH]; intros i Hall; cbn [order_from]; [constructor|].
  apply Forall_cons in Hall as [Hc Hall].
  apply NoDup_app. split; [|split].
  - apply NoDup_cons. split.
    + intros (r & Heq & Hin)%list_elem_of_In%in_map_iff.
      apply document_order_nonempty in Hin. congruence.
    + apply NoDup_ListNoDup, Finite.Injective_map_NoDup; [|by apply NoDup_ListNoDup].
      intros p q Hpq. congruence.
  - intros path Hin Hin'.
    apply list_elem_of_In, order_from_head in Hin' as (k & r & -> & Hk).
    apply elem_of_cons in Hin as [Heq|Hin].
    + injection Heq as -> _. lia.
    + apply list_elem_of_In, in_map_iff in Hin as (r' & Heq & _).
      injection Heq as -> _. lia.
  - by apply IH.
Qed.

Lemma document_order_NoDup e : NoDup (document_order e).
Proof.
  induction e as [t a x cs IH] using Element_ind_children.
  rewrite document_order_children. by apply order_from_NoDup.
Qed.

Lemma walk_body_outer_paragraphs body :
  _walk_body_paragraphs body = omap (yielded_at body) (outer_paragraphs body).
Proof.
  unfold _walk_body_paragraphs, outer_paragraphs. rewrite walk_yields, omap_filter.
  apply omap_ext_in. intros path _. unfold yield_of, yielded_at. reflexivity.
Qed.

(** *** Paragraphs inside tables *)

Lemma paragraph_step_paragraphs idx p in_table st :
  st_paragraphs (paragraph_step idx p in_table st) = st_paragraphs st ++ [_p_text p].
Proof.
  unfold paragraph_step.
  destruct (_p_text p) as [|c r] eqn:Htext; [done|]. cbn [nonempty negb].
  destruct in_table; [done|].
  repeat match goal with
         | |- context [let '(_, _) := ?x in _] => destruct x
         | |- context [if ?b then _ else _] => destruct b
         end; reflexivity.
Qed.

Lemma paragraph_step_headings idx p in_table st :
  st_headings (paragraph_step idx p in_table st) = st_headings st
  \/ (in_table = false
      /\ exists h, st_headings (paragraph_step idx p in_table st) = st_headings st ++ [h]
                   /\ h_para_index h = idx).
Proof.
  unfold paragraph_step.
  destruct (negb (nonempty (_p_text p))); [by left|].
  destruct in_table; [by left|].
  repeat match goal with
         | |- context [let '(_, _) := ?x in _] => destruct x
         | |- context [if ?b then _ else _] => destruct b
         end; cbn [st_headings]; (by left) || (right; split; [done|eexists; split; reflexivity]).
Qed.

Lemma extract_loop_paragraphs ps idx st :
  st_paragraphs (extract_loop idx ps st)
  = st_paragraphs st ++ map (fun pb => _p_text (fst pb)) ps.
Proof.
  revert idx st. induction ps as [|[p b] ps IH]; intros idx st; cbn [extract_loop map].
  - by rewrite app_nil_r.
  - rewrite IH, paragraph_step_paragraphs, <- app_assoc. reflexivity.
Qed.

Lemma extract_loop_headings ps idx st h :
  h ∈ st_headings (extract_loop idx ps st) ->
  h ∈ st_headings st
  \/ (idx <= h_para_index h
      /\ exists p, ps !! (h_para_index h - idx) = Some (p, false)).
Proof.
  revert idx st. induction ps as [|[p b] ps IH]; intros idx st; cbn [extract_loop].
  - by left.
  - intros [Hin|(Hle & q & Hq)]%IH.
    + destruct (paragraph_step_headings idx p b st) as [->|(-> & h' & -> & Hidx)] in Hin;
        [by left|].
      apply elem_of_app in Hin as [Hin|Hin%list_elem_of_singleton]; [by left|].
      subst h'. right. rewrite Hidx, Nat.sub_diag. split; [lia|]. by exists p.
    + right. split; [lia|]. exists q.
      replace (h_para_index h - idx) with (S (h_para_index h - S idx)) by lia.
      exact Hq.
Qed.

Lemma filter_toc_subset paragraphs headings h :
  h ∈ filter_toc paragraphs headings -> h ∈ headings.
Proof.
  unfold filter_toc. destruct (_find_toc_range paragraphs) as [[a b]|]; [|done].
  intros [? _]%list_elem_of_In%filter_In. by apply list_elem_of_In.
Qed.

(** C8, as amended: the walk yields the paragraph nodes that are not
    nested inside another paragraph, each exactly once and in document
    order, flagged [in_table] exactly when a table lies between the body
    and the paragraph; a paragraph nested inside a paragraph is not yielded.
    The text of every yielded paragraph is appended to the paragraph
    sequence, and every heading sits at the index of a paragraph that was
    yielded with the flag off. *)
Theorem walk_yields_outer_paragraphs (body root : Element) :
  _walk_body_paragraphs body = omap (yielded_at body) (outer_paragraphs body)
  /\ NoDup (outer_paragraphs body)
  /\ Forall (fun path =>
               exists e, node_at body path = Some e /\ is_paragraph e = true
                         /\ has_paragraph_ancestor body path = false
                         /\ yielded_at body path
                            = Some (e, has_table_ancestor body path))
            (outer_paragraphs body)
  /\ match ET.find_desc (wtag (u "body")) root with
     | None => _extract_paragraphs_and_headings_from_xml root = ([], [])
     | Some b =>
       fst (_extract_paragraphs_and_headings_from_xml root)
       = map (fun pb => _p_text (fst pb)) (_walk_body_paragraphs b)
       /\ Forall (fun h => exists p,
                     _walk_body_paragraphs b !! h_para_index h = Some (p, false))
                 (snd (_extract_paragraphs_and_headings_from_xml root))
     end.
Proof.
  split; [apply walk_body_outer_paragraphs|]. split.
  { unfold outer_paragraphs. apply NoDup_ListNoDup, List.NoDup_filter.
    apply NoDup_ListNoDup, document_order_NoDup. }
  split.
  { apply Forall_forall. intros path [_ Hq]%list_elem_of_In%filter_In.
    apply andb_true_iff in Hq as [Hp Hanc]. apply negb_true_iff in Hanc.
    unfold paragraph_at in Hp. unfold yielded_at.
    destruct (node_at body path) as [e|]; [|discriminate].
    exists e. repeat split; done. }
  unfold _extract_paragraphs_and_headings_from_xml.
  destruct (ET.find_desc _ root) as [b|]; [|done]. cbn [fst snd]. split.
  - by rewrite extract_loop_paragraphs.
  - apply Forall_forall. intros h Hin%filter_toc_subset.
    apply extract_loop_headings in Hin as [Hin|(_ & p & Hp)].
    + by apply elem_of_nil in Hin.
    + rewrite Nat.sub_0_r in Hp. by exists p.
Qed.

(** C8, as it is stated, fails on a paragraph that holds a text box: the
    tree has two paragraph nodes and the walk yields one of them. *)
Lemma text_box_paragraph_is_not_yielded :
  ~ yields_every_paragraph text_box_body
  /\ length (_walk_body_paragraphs text_box_body) = 1
  /\ length (List.filter (paragraph_at text_box_body) (document_order text_box_body)) = 2.
Proof.
  split; [|split; vm_compute; reflexivity].
  unfold yields_every_paragraph. intros H.
  apply (f_equal length) in H. vm_compute in H. discriminate H.
Qed.

(** ** Sections *)

Lemma insert_sorted_Permutation {A} (leb : A -> A -> bool) x l :
  Py.insert_sorted leb x l ≡ₚ x :: l.
Proof.
  induction l as [|y l IH]; cbn [Py.insert_sorted]; [done|].
  destruct (leb x y); [done|]. rewrite IH. apply Permutation_swap.
Qed.

Lemma sorted_Permutation {A} (leb : A -> A -> bool) l : Py.sorted leb l ≡ₚ l.
Proof.
  unfold Py.sorted. induction l as [|x l IH]; cbn [foldr]; [done|].
  by rewrite insert_sorted_Permutation, IH.
Qed.

Lemma insert_by_para_index_sorted x l :
  StronglySorted para_le l ->
  StronglySorted para_le
    (Py.insert_sorted (fun a b => h_para_index a <=? h_para_index b) x l).
Proof.
  induction 1 as [|y l Hs IH Hall]; cbn [Py.insert_sorted].
  - repeat constructor.
  - destruct (Nat.leb_spec (h_para_index x) (h_para_index y)) as [Hle|Hgt].
    + constructor; [by constructor|]. constructor; [done|].
      eapply Forall_impl; [exact Hall|]. unfold para_le. intros; cbn in *; lia.
    + constructor; [done|].
      rewrite insert_sorted_Permutation. constructor; [unfold para_le; lia|done].
Qed.

Lemma by_para_index_sorted headings : StronglySorted para_le (by_para_index headings).
Proof.
  unfold by_para_index, Py.sorted. induction headings as [|x l IH]; cbn [foldr].
  - constructor.
  - by apply insert_by_para_index_sorted.
Qed.

Lemma find_keyed_later (r : list Heading) :
  List.find (fun hk : Heading * option str => truthy (snd hk))
            (map (fun h => (h, heading_key h)) r)
  = (fun h => (h, heading_key h)) <$> List.find (fun h => truthy (heading_key h)) r.
Proof.
  induction r as [|h r IH]; [done|]. cbn [map List.find snd].
  destruct (truthy (heading_key h)); [done|]. exact IH.
Qed.

Lemma zip_with_keys (hs : list Heading) :
  zip hs (map heading_key hs) = map (fun h => (h, heading_key h)) hs.
Proof. induction hs as [|h hs IH]; [done|]. cbn. by rewrite IH. Qed.

(** What the loop of [_build_sections] leaves under [key]. *)
Lemma build_loop_lookup (paragraphs : list str) (l : list Heading)
      (m : gmap str Section_) (key : str) :
  build_loop paragraphs (map (fun h => (h, heading_key h)) l) m !! key
  = match m !! key with
    | Some s => Some s
    | None =>
      if nonempty key
      then (fun hr => section_from paragraphs (fst hr) key (snd hr))
             <$> first_with_key key l
      else None
    end.
Proof.
  revert m. induction l as [|h l IH]; intros m.
  - cbn [map build_loop first_with_key]. destruct (m !! key); [done|].
    by destruct (nonempty key).
  - cbn [map build_loop first_with_key].
    destruct (heading_key h) as [k|] eqn:Hk.
    2: { rewrite IH. rewrite bool_decide_eq_false_2 by done. done. }
    destruct (nonempty k) eqn:Hne; cbn [negb].
    2: { rewrite IH. destruct (m !! key); [done|].
         destruct (nonempty key) eqn:Hkey; [|done].
         rewrite bool_decide_eq_false_2; [done|]. intros [= ->]. congruence. }
    destruct (bool_decide (is_Some (m !! k))) eqn:Hin.
    + apply bool_decide_eq_true in Hin. rewrite IH.
      destruct (m !! key) eqn:Hmk; [done|].
      rewrite bool_decide_eq_false_2; [done|]. intros [= ->].
      rewrite Hmk in Hin. by destruct Hin.
    + apply bool_decide_eq_false in Hin. rewrite IH.
      destruct (decide (k = key)) as [->|Hne'].
      * rewrite lookup_insert_eq.
        assert (m !! key = None) as -> by (destruct (m !! key); [by destruct Hin; eexists|done]).
        rewrite Hne. rewrite bool_decide_eq_true_2 by done.
        cbn [fmap option_fmap option_map fst snd]. unfold section_from.
        rewrite find_keyed_later.
        by destruct (List.find (fun h0 => truthy (heading_key h0)) l).
      * rewrite lookup_insert_ne by done.
        rewrite (bool_decide_eq_false_2 (Some k = Some key)) by congruence. done.
Qed.

Lemma first_with_key_Some key l h r :
  first_with_key key l = Some (h, r) ->
  exists i, l !! i = Some h /\ r = drop (S i) l /\ heading_key h = Some key
            /\ Forall (fun h' => heading_key h' <> Some key) (take i l).
Proof.
  induction l as [|x l IH]; cbn [first_with_key]; [discriminate|].
  destruct (bool_decide (heading_key x = Some key)) eqn:Hx.
  - intros [= -> ->]. apply bool_decide_eq_true in Hx.
    exists 0. repeat split; [done|constructor].
  - intros H. apply bool_decide_eq_false in Hx.
    destruct (IH H) as (i & Hi & Hr & Hk & Hpre).
    exists (S i). repeat split; try done. cbn [take]. by constructor.
Qed.

Lemma first_with_key_None key l :
  first_with_key key l = None ->
  Forall (fun h' => heading_key h' <> Some key) l.
Proof.
  induction l as [|x l IH]; cbn [first_with_key]; [constructor|].
  destruct (bool_decide (heading_key x = Some key)) eqn:Hx; [discriminate|].
  apply bool_decide_eq_false in Hx. intros H. constructor; auto.
Qed.

Lemma StronglySorted_lookup {A} (R : A -> A -> Prop) l i j x y :
  StronglySorted R l -> i < j -> l !! i = Some x -> l !! j = Some y -> R x y.
Proof.
  intros Hs. revert i j. induction Hs as [|a l Hs IH Hall]; intros i j Hij Hi Hj.
  - done.
  - destruct j as [|j]; [lia|]. destruct i as [|i].
    + injection Hi as ->. cbn in Hj. rewrite Forall_forall in Hall.
      apply Hall. by apply list_elem_of_lookup_2 in Hj.
    + apply (IH i j); [lia|done|done].
Qed.

Lemma section_keys_nonempty key :
  key ∈ map fst SECTION_KEYWORDS -> nonempty key = true.
Proof.
  unfold SECTION_KEYWORDS. cbn [map fst]. intros H.
  repeat (apply elem_of_cons in H as [->|H]; [reflexivity|]).
  by apply elem_of_nil in H.
Qed.

Lemma find_section_key_nonempty title level number key :
  _find_section_key title level number = Some key -> nonempty key = true.
Proof.
  intros Hfind. apply section_keys_nonempty.
  destruct (section_key_cases (prefix_iter := PREFIX_OK_KEYS) (reflexivity _) Hfind)
    as [(kw & Hkw & _)|(Hin & _)].
  - unfold keywords_of in Hkw.
    destruct (find _ SECTION_KEYWORDS) as [[k kws]|] eqn:Hf;
      [|by apply elem_of_nil in Hkw].
    apply find_some in Hf as [Hin Heq]. cbn [fst] in Heq.
    unfold Py.eqb in Heq. apply bool_decide_eq_true in Heq as ->.
    apply list_elem_of_In, in_map_iff. by exists (key, kws).
  - unfold PREFIX_OK_KEYS in Hin.
    repeat (apply elem_of_cons in Hin as [->|Hin];
            [apply (bool_decide_unpack _); vm_compute; exact I|]).
    by apply elem_of_nil in Hin.
Qed.

(** C4: the section map has one entry per key, and the entry of a key is
    built from the first heading, in the order of [para_index], that
    resolves to the key: no heading resolving to the key has a smaller
    [para_index], and the headings that resolve to it later leave no entry.
    A key has an entry exactly when a heading resolves to it.  The heading
    list of the document model is the list the sections were built from,
    later same-key headings included. *)
Theorem first_heading_builds_the_section
        (paragraphs : list str) (hdgs : list Heading) (key : str)
        (name : str) (root : Element) (tables : nat) :
  let hs := by_para_index hdgs in
  hs ≡ₚ hdgs
  /\ StronglySorted para_le hs
  /\ match _build_sections paragraphs hdgs !! key with
     | Some sec =>
       exists i h,
         hs !! i = Some h
         /\ heading_key h = Some key
         /\ Forall (fun h' => heading_key h' <> Some key) (take i hs)
         /\ Forall (fun h' => heading_key h' = Some key ->
                              h_para_index h <= h_para_index h') hdgs
         /\ sec = section_from paragraphs h key (drop (S i) hs)
     | None => Forall (fun h' => heading_key h' <> Some key) hdgs
     end
  /\ (let doc := extract_docx name root tables in
      headings doc = snd (_extract_paragraphs_and_headings_from_xml root)
      /\ sections doc
         = _build_sections (fst (_extract_paragraphs_and_headings_from_xml root))
                           (headings doc))
  /\ (sec_title <$> (_build_sections [] two_bibliographies !! u "literatur")
      = Some (u "Literaturverzeichnis")
      /\ sec_start_para <$> (_build_sections [] two_bibliographies !! u "literatur")
         = Some 31
      /\ map heading_key two_bibliographies
         = [Some (u "literatur"); Some (u "einleitung"); Some (u "literatur")]).
Proof.
  intros hs.
  assert (Hperm : hs ≡ₚ hdgs) by apply sorted_Permutation.
  assert (Hsorted : StronglySorted para_le hs) by apply by_para_index_sorted.
  split; [exact Hperm|]. split; [exact Hsorted|]. split; [|split].
  - unfold _build_sections. fold (by_para_index hdgs). fold hs.
    rewrite zip_with_keys, build_loop_lookup, lookup_empty.
    destruct (nonempty key) eqn:Hne.
    + destruct (first_with_key key hs) as [[h r]|] eqn:Hfirst;
        cbn [fmap option_fmap option_map fst snd].
      * apply first_with_key_Some in Hfirst as (i & Hi & -> & Hk & Hpre).
        exists i, h. split; [done|]. split; [done|]. split; [done|]. split; [|done].
        rewrite <- Hperm. apply Forall_forall. intros h' Hin Hk'.
        apply list_elem_of_lookup in Hin as [j Hj].
        destruct (Nat.lt_trichotomy j i) as [Hlt|[->|Hgt]].
        -- rewrite Forall_forall in Hpre. exfalso. apply (Hpre h'); [|done].
           apply list_elem_of_lookup. exists j. by rewrite lookup_take_lt.
        -- rewrite Hi in Hj. injection Hj as ->. done.
        -- apply (StronglySorted_lookup Hsorted Hgt Hi Hj).
      * apply first_with_key_None in Hfirst. by rewrite <- Hperm.
    + apply Forall_forall. intros h' _ Hk.
      unfold heading_key in Hk. apply find_section_key_nonempty in Hk. congruence.
  - unfold extract_docx.
    destruct (_extract_paragraphs_and_headings_from_xml root) as [ps extracted].
    destruct (_extract_references ps). cbn [headings sections fst snd]. done.
  - vm_compute. repeat split.
Qed.

(** ** Every rule reports *)



















(** *** Outline numbers parse *)



Lemma lstrip_id c s : unicodedata.isspace c = false -> Py.lstrip (c :: s) = c :: s.
Proof. intros H. cbn [Py.lstrip]. by rewrite H. Qed.








(** *** The heading rules on outline numbers *)







(** *** Citations are extracted without an exception *)

Lemma Forall_sub_from {P : char -> Prop} s repl i ms :
  Forall P s -> Forall P repl -> Forall P (Re.sub_from s repl i ms).
Proof.
  intros Hs Hr. revert i. induction ms as [|m ms IH]; intros i; cbn [Re.sub_from].
  - by apply Forall_drop.
  - apply Forall_app. split.
    + unfold Re.span. by apply Forall_take, Forall_drop.
    + apply Forall_app. split; [done|apply IH].
Qed.

Lemma Forall_sub {P : char -> Prop} r repl s :
  Forall P s -> Forall P repl -> Forall P (Re.sub r repl s).
Proof. intros. unfold Re.sub. by apply Forall_sub_from. Qed.

Lemma Forall_lstrip {P : char -> Prop} s : Forall P s -> Forall P (Py.lstrip s).
Proof.
  induction 1 as [|c s Hc Hs IH]; cbn [Py.lstrip]; [constructor|].
  destruct (unicodedata.isspace c); [done|by constructor].
Qed.

Lemma Forall_strip {P : char -> Prop} s : Forall P s -> Forall P (Py.strip s).
Proof.
  intros H. unfold Py.strip, Py.rstrip.
  apply Forall_rev, Forall_lstrip, Forall_rev. by apply Forall_lstrip.
Qed.


















(** ** Matches lie in the language of the pattern *)

Lemma span_app s a b c :
  a <= b -> b <= c -> Re.span s a b ++ Re.span s b c = Re.span s a c.
Proof.
  intros Hab Hbc. unfold Re.span.
  replace (drop b s) with (drop (b - a) (drop a s)) by (rewrite drop_drop; f_equal; lia).
  replace (c - a) with ((b - a) + (c - b)) by lia.
  generalize (drop a s), (b - a), (c - b). clear. intros l n m.
  revert l. induction n as [|n IH]; intros l; [done|].
  destruct l as [|x l]; cbn; [by rewrite ?take_nil|by rewrite IH].
Qed.

Lemma span_refl s a : Re.span s a a = [].
Proof. unfold Re.span. by rewrite Nat.sub_diag. Qed.

Lemma span_char s a c : s !! a = Some c -> Re.span s a (S a) = [c].
Proof.
  intros H. unfold Re.span. replace (S a - a) with 1 by lia.
  apply take_drop_middle in H. rewrite <- H at 1.
  rewrite drop_app_length'; [done|]. rewrite length_take.
  apply (f_equal (@length _)) in H. rewrite length_app, length_take in H. cbn in H. lia.
Qed.

Lemma in_star_loop (R : Re.mstate -> Re.mstate -> Prop) greedy step :
  (forall st, R st st) ->
  (forall st st1 st', In st1 (step st) -> Re.pos st < Re.pos st1 -> R st1 st' -> R st st') ->
  forall fuel st st', In st' (Re.star_loop greedy step fuel st) -> R st st'.
Proof.
  intros Hrefl Hstep. induction fuel as [|f IH]; intros st st'; cbn [Re.star_loop].
  - intros [<-|[]]. apply Hrefl.
  - cbv zeta. intros Hin.
    assert (Hcases : st' = st \/
              In st' (flat_map (fun st1 => if Re.pos st <? Re.pos st1
                                           then Re.star_loop greedy step f st1 else [])
                               (step st))).
    { destruct greedy.
      - apply in_app_or in Hin as [Hin|[<-|[]]]; [by right|by left].
      - destruct Hin as [<-|Hin]; [by left|by right]. }
    destruct Hcases as [->|Hmore]; [apply Hrefl|].
    apply in_flat_map in Hmore as (st1 & Hst1 & Hin').
    destruct (Nat.ltb_spec (Re.pos st) (Re.pos st1)); [|done].
    eapply Hstep; [exact Hst1|done|]. by apply IH.
Qed.

(** Soundness of the matcher. *)
Lemma run_sound s r :
  forall st st', In st' (Re.run s r st) ->
                 Re.pos st <= Re.pos st' /\ lang r (Re.span s (Re.pos st) (Re.pos st')).
Proof.
  induction r as [|p|a IHa b IHb|a IHa b IHb|r IH|r IH| | | |i r IH];
    intros st st'; cbn [Re.run].
  - intros [<-|[]]. rewrite span_refl. split; [done|constructor].
  - destruct (s !! Re.pos st) as [c|] eqn:Hc; [|done].
    destruct (p c) eqn:Hp; [|done]. intros [<-|[]]. cbn [Re.pos].
    rewrite (span_char Hc). split; [lia|by constructor].
  - intros (st1 & [H1 L1]%IHa & [H2 L2]%IHb)%in_flat_map.
    split; [lia|]. rewrite <- (span_app s H1 H2). by constructor.
  - intros [[H L]%IHa|[H L]%IHb]%in_app_or; (split; [done|]).
    + by apply lang_Alt_l.
    + by apply lang_Alt_r.
  - apply (in_star_loop (R := fun st st' =>
             Re.pos st <= Re.pos st' /\ lang (Re.Star r) (Re.span s (Re.pos st) (Re.pos st')))).
    + intros st0. rewrite span_refl. split; [done|constructor].
    + intros st0 st1 st2 [H1 L1]%IH Hlt [H2 L2]. split; [lia|].
      rewrite <- (span_app s H1 H2). by constructor.
  - apply (in_star_loop (R := fun st st' =>
             Re.pos st <= Re.pos st'
             /\ lang (Re.LazyStar r) (Re.span s (Re.pos st) (Re.pos st')))).
    + intros st0. rewrite span_refl. split; [done|constructor].
    + intros st0 st1 st2 [H1 L1]%IH Hlt [H2 L2]. split; [lia|].
      rewrite <- (span_app s H1 H2). by constructor.
  - destruct (Re.pos st =? 0); [|done]. intros [<-|[]].
    rewrite span_refl. split; [done|constructor].
  - destruct (Re.at_end s (Re.pos st)); [|done]. intros [<-|[]].
    rewrite span_refl. split; [done|constructor].
  - destruct (Re.word_boundary s (Re.pos st)); [|done]. intros [<-|[]].
    rewrite span_refl. split; [done|constructor].
  - intros (st1 & <- & [H L]%IH)%in_map_iff. cbn [Re.pos].
    split; [done|by constructor].
Qed.

(** A pattern without groups leaves the captures alone. *)
Lemma run_group_free s r :
  group_free r = true ->
  forall st st', In st' (Re.run s r st) -> Re.caps st' = Re.caps st.
Proof.
  induction r as [|p|a IHa b IHb|a IHa b IHb|r IH|r IH| | | |i r IH];
    cbn [group_free]; intros Hfree st st'; cbn [Re.run].
  - by intros [<-|[]].
  - destruct (s !! Re.pos st) as [c|]; [|done]. destruct (p c); [|done].
    by intros [<-|[]].
  - apply andb_true_iff in Hfree as [Ha Hb].
    intros (st1 & H1 & H2)%in_flat_map.
    rewrite (IHb Hb _ _ H2). by apply IHa.
  - apply andb_true_iff in Hfree as [Ha Hb].
    intros [H|H]%in_app_or; [by apply IHa|by apply IHb].
  - apply (in_star_loop (R := fun st st' => Re.caps st' = Re.caps st)); [done|].
    intros st0 st1 st2 H1 _ H2. rewrite H2. by apply IH.
  - apply (in_star_loop (R := fun st st' => Re.caps st' = Re.caps st)); [done|].
    intros st0 st1 st2 H1 _ H2. rewrite H2. by apply IH.
  - destruct (Re.pos st =? 0); [|done]. by intros [<-|[]].
  - destruct (Re.at_end s (Re.pos st)); [|done]. by intros [<-|[]].
  - destruct (Re.word_boundary s (Re.pos st)); [|done]. by intros [<-|[]].
  - discriminate.
Qed.

(** ** The numbers the extractor writes are outline numbers *)

Lemma lang_class_star p x :
  lang (Re.Star (Re.Set_ p)) x -> Forall (fun c => p c = true) x.
Proof.
  remember (Re.Star (Re.Set_ p)) as r eqn:Hr. intros H.
  induction H as [| | | | | |r' x y Hx _ Hy IHy| | | | | |]; try discriminate.
  - constructor.
  - injection Hr as ->. inversion Hx; subst. constructor; [done|by apply IHy].
Qed.

Lemma lang_digits x : lang (Re.plus Re.d) x -> is_digit_group x = true.
Proof.
  unfold Re.plus, Re.d. intros H. inversion H as [| |a b y z Hy Hz| | | | | | | | | |]; subst.
  inversion Hy; subst. apply lang_class_star in Hz.
  unfold is_digit_group. cbn [nonempty app andb forallb].
  apply andb_true_iff. split; [done|].
  apply forallb_forall. intros c' Hc'. rewrite Forall_forall in Hz.
  by apply Hz, list_elem_of_In.
Qed.

Lemma digit_group_no_dot x : is_digit_group x = true -> Forall (fun c => c <> cp ".") x.
Proof.
  unfold is_digit_group. intros [_ H]%andb_true_iff. apply Forall_forall.
  intros c Hc%list_elem_of_In ->. rewrite forallb_forall in H. by apply H in Hc.
Qed.

Lemma split_chr_app sep x r :
  Forall (fun c => c <> sep) x ->
  Py.split_chr sep (x ++ sep :: r) = x :: Py.split_chr sep r.
Proof.
  induction 1 as [|c x Hc Hx IH]; cbn [app Py.split_chr].
  - by rewrite N.eqb_refl.
  - destruct (N.eqb_spec c sep); [done|]. by rewrite IH.
Qed.

Lemma split_chr_single sep x :
  Forall (fun c => c <> sep) x -> Py.split_chr sep x = [x].
Proof.
  induction 1 as [|c x Hc Hx IH]; cbn [Py.split_chr]; [done|].
  destruct (N.eqb_spec c sep); [done|]. by rewrite IH.
Qed.

(** Groups of digits, each after a dot. *)
Lemma lang_dotted_groups y :
  lang (Re.Star (Re.Cat (Re.chr (cp ".")) (Re.plus Re.d))) y ->
  y = [] \/ exists rest, y = cp "." :: rest /\ is_outline_number rest = true.
Proof.
  remember (Re.Star (Re.Cat (Re.chr (cp ".")) (Re.plus Re.d))) as r eqn:Hr. intros H.
  induction H as [| | | | | |r' x y Hx _ Hy IHy| | | | | |]; try discriminate.
  - by left.
  - injection Hr as ->. right.
    inversion Hx as [| |a b dot g Hdot Hg| | | | | | | | | |]; subst.
    unfold Re.chr in Hdot. inversion Hdot as [|p c Hc| | | | | | | | | | |]; subst.
    apply N.eqb_eq in Hc as ->. apply lang_digits in Hg.
    exists (g ++ y). split; [done|]. unfold is_outline_number.
    destruct (IHy eq_refl) as [->|(rest & -> & Hrest)].
    + rewrite app_nil_r, (split_chr_single (digit_group_no_dot Hg)).
      cbn [forallb]. by rewrite Hg.
    + rewrite (split_chr_app _ (digit_group_no_dot Hg)). cbn [forallb].
      by rewrite Hg.
Qed.

Lemma lang_dotted_number w : lang dotted_number w -> is_outline_number w = true.
Proof.
  unfold dotted_number. intros H.
  inversion H as [| |a b x y Hx Hy| | | | | | | | | |]; subst.
  apply lang_digits in Hx. unfold is_outline_number.
  destruct (lang_dotted_groups Hy) as [->|(rest & -> & Hrest)].
  - rewrite app_nil_r, (split_chr_single (digit_group_no_dot Hx)).
    cbn [forallb]. by rewrite Hx.
  - rewrite (split_chr_app _ (digit_group_no_dot Hx)). cbn [forallb]. by rewrite Hx.
Qed.

Lemma in_run_Cat s a b st st' :
  In st' (Re.run s (Re.Cat a b) st) ->
  exists st1, In st1 (Re.run s a st) /\ In st' (Re.run s b st1).
Proof. cbn [Re.run]. by intros ?%in_flat_map. Qed.

Lemma in_run_Group s i r st st' :
  In st' (Re.run s (Re.Group i r) st) ->
  exists st1, In st1 (Re.run s r st)
              /\ st' = Re.MState (Re.pos st1) ((i, (Re.pos st, Re.pos st1)) :: Re.caps st1).
Proof. cbn [Re.run]. intros (st1 & <- & H)%in_map_iff. by exists st1. Qed.

(** The first group of a match of NUMBERING_RE is an outline number. *)
Lemma numbering_group_outline text m :
  Re.match_ NUMBERING_RE text = Some m ->
  is_outline_number (Re.group text 1 m) = true.
Proof.
  unfold Re.match_, Re.match_at.
  destruct (Re.run text NUMBERING_RE (Re.MState 0 [])) as [|st l] eqn:Hrun; [done|].
  intros [= <-].
  assert (Hin : In st (Re.run text NUMBERING_RE (Re.MState 0 []))) by (rewrite Hrun; by left).
  clear Hrun. unfold NUMBERING_RE, Re.seq in Hin. cbn [foldr] in Hin.
  apply in_run_Cat in Hin as (st1 & H1 & Hin).
  apply in_run_Cat in Hin as (st2 & H2 & Hin).
  apply in_run_Cat in Hin as (st3 & H3 & Hin).
  apply in_run_Cat in Hin as (st4 & H4 & Hin).
  apply in_run_Cat in Hin as (st5 & H5 & Hin).
  apply in_run_Cat in Hin as (st6 & H6 & Hin).
  apply in_run_Cat in Hin as (st7 & H7 & Hin).
  apply (run_group_free (r := Re.Eps) eq_refl) in Hin.
  apply (run_group_free (r := Re.Eol) eq_refl) in H7.
  apply in_run_Group in H6 as (st6' & H6 & ->).
  apply (run_group_free (r := Re.plus Re.dot) eq_refl) in H6.
  apply (run_group_free (r := Re.plus Re.ws) eq_refl) in H5.
  apply (run_group_free (r := Re.opt (Re.chr (cp "."))) eq_refl) in H4.
  apply in_run_Group in H3 as (st3' & H3 & ->).
  apply (run_group_free (r := Re.Star Re.ws) eq_refl) in H2.
  apply (run_group_free (r := Re.Bol) eq_refl) in H1.
  apply run_sound in H3 as [_ Hlang]. apply lang_dotted_number in Hlang.
  unfold Re.group. cbn [Re.m_caps]. rewrite Hin, H7. cbn [Re.caps] in *.
  rewrite H6, H5, H4. cbn [find fst Nat.eqb]. exact Hlang.
Qed.

Lemma digits_from_decimal fuel n acc :
  Forall (fun c => unicodedata.isdecimal c = true) acc ->
  Forall (fun c => unicodedata.isdecimal c = true) (Py.digits_from fuel n acc).
Proof.
  revert n acc. induction fuel as [|f IH]; intros n acc Hacc; cbn [Py.digits_from]; [done|].
  cbv zeta.
  assert (Hd : unicodedata.isdecimal (48 + n mod 10)%N = true).
  { unfold unicodedata.isdecimal, in_range.
    assert (Hlt : (n mod 10 < 10)%N) by (by apply N.mod_lt).
    revert Hlt. generalize (n mod 10)%N. intros k Hk.
    apply andb_true_iff. split; apply N.leb_le; lia. }
  destruct (n / 10 =? 0)%N; [by constructor|]. apply IH. by constructor.
Qed.

Lemma digits_from_nonempty fuel n acc :
  acc <> [] \/ fuel <> 0 -> Py.digits_from fuel n acc <> [].
Proof.
  revert n acc. induction fuel as [|f IH]; intros n acc H; cbn [Py.digits_from].
  - by destruct H.
  - cbv zeta. destruct (n / 10 =? 0)%N; [done|]. apply IH. by left.
Qed.

Lemma str_of_nat_digit_group n : is_digit_group (Py.str_of_nat n) = true.
Proof.
  unfold is_digit_group, Py.str_of_nat, Py.str_of_N. apply andb_true_iff. split.
  - pose proof (@digits_from_nonempty (S (N.size_nat (N.of_nat n))) (N.of_nat n) []) as H.
    destruct (Py.digits_from _ _ _); [|done]. exfalso. apply H; [by right|done].
  - apply forallb_forall. intros c Hc%list_elem_of_In.
    pose proof (@digits_from_decimal (S (N.size_nat (N.of_nat n))) (N.of_nat n) []
                  (Forall_nil_2 _)) as H.
    rewrite Forall_forall in H. by apply H.
Qed.

Lemma join_outline pieces :
  pieces <> [] -> Forall (fun x => is_digit_group x = true) pieces ->
  is_outline_number (Py.join (u ".") pieces) = true.
Proof.
  intros Hne Hall. unfold is_outline_number.
  induction Hall as [|x l Hx Hl IH]; [done|].
  destruct l as [|y l].
  - cbn [Py.join]. rewrite (split_chr_single (digit_group_no_dot Hx)).
    cbn [forallb]. by rewrite Hx.
  - change (Py.join (u ".") (x :: y :: l))
      with (x ++ cp "." :: Py.join (u ".") (y :: l)).
    rewrite (split_chr_app _ (digit_group_no_dot Hx)). cbn [forallb].
    rewrite Hx. by apply IH.
Qed.

Lemma auto_number_outline counts ilvl :
  is_outline_number (auto_number counts (auto_level ilvl)) = true.
Proof.
  unfold auto_number. apply join_outline.
  - assert (1 <= auto_level ilvl) by (unfold auto_level; lia).
    destruct (auto_level ilvl); [lia|]. done.
  - apply Forall_forall. intros x (k & <- & _)%list_elem_of_In%in_map_iff.
    apply str_of_nat_digit_group.
Qed.




(** ** Every rule reports: the statement *)





(** ** The order of iteration does not matter *)

Lemma find_Permutation {A} (f : A -> bool) (l1 l2 : list A) :
  l1 ≡ₚ l2 ->
  (forall x y, x ∈ l1 -> y ∈ l1 -> f x = true -> f y = true -> x = y) ->
  List.find f l1 = List.find f l2.
Proof.
  intros Hperm Huniq.
  destruct (List.find f l1) as [x|] eqn:H1.
  - apply find_some in H1 as [Hx Hfx]. apply list_elem_of_In in Hx.
    destruct (List.find f l2) as [y|] eqn:H2.
    + apply find_some in H2 as [Hy Hfy]. apply list_elem_of_In in Hy.
      rewrite <- Hperm in Hy. f_equal. by apply Huniq.
    + rewrite Hperm in Hx. apply list_elem_of_In in Hx.
      pose proof (find_none _ _ H2 _ Hx). congruence.
  - destruct (List.find f l2) as [y|] eqn:H2; [|done].
    apply find_some in H2 as [Hy Hfy]. apply list_elem_of_In in Hy.
    rewrite <- Hperm in Hy. apply list_elem_of_In in Hy.
    pose proof (find_none _ _ H1 _ Hy). congruence.
Qed.

Lemma startswith_app s p : Py.startswith s p = true -> exists r, s = p ++ r.
Proof.
  revert s. induction p as [|a p IH]; intros s.
  - intros _. by exists s.
  - destruct s as [|b s]; cbn [Py.startswith]; [discriminate|].
    intros [->%N.eqb_eq (r & ->)%IH]%andb_true_iff. by exists r.
Qed.

Lemma startswith_prefix p r : Py.startswith (p ++ r) p = true.
Proof.
  induction p as [|a p IH]; [by destruct r|].
  cbn [app Py.startswith]. by rewrite N.eqb_refl, IH.
Qed.

(** Two prefixes of one string: one is a prefix of the other. *)
Lemma startswith_both s p q :
  Py.startswith s p = true -> Py.startswith s q = true ->
  Py.startswith p q = true \/ Py.startswith q p = true.
Proof.
  revert s q. induction p as [|a p IH]; intros s q Hp Hq.
  - right. by destruct q.
  - destruct q as [|b q]; [by left|].
    destruct s as [|c s]; cbn [Py.startswith] in *; [discriminate|].
    apply andb_true_iff in Hp as [->%N.eqb_eq Hp].
    apply andb_true_iff in Hq as [->%N.eqb_eq Hq].
    rewrite N.eqb_refl. cbn [andb]. by apply (IH s).
Qed.

Lemma exact_key_unique t k1 k2 :
  k1 ∈ STRICT_ONLY_KEYS -> k2 ∈ STRICT_ONLY_KEYS ->
  key_is_exact t k1 = true -> key_is_exact t k2 = true -> k1 = k2.
Proof.
  intros H1%list_elem_of_In H2%list_elem_of_In
         (kw1 & Hkw1 & E1)%existsb_exists (kw2 & Hkw2 & E2)%existsb_exists.
  assert (Hex : keywords_exclusive STRICT_ONLY_KEYS = true) by (vm_compute; reflexivity).
  unfold keywords_exclusive in Hex. rewrite forallb_forall in Hex.
  specialize (Hex _ H1). rewrite forallb_forall in Hex. specialize (Hex _ H2).
  apply orb_true_iff in Hex as [Heq|Hex].
  { unfold Py.eqb in Heq. by apply bool_decide_eq_true in Heq. }
  rewrite forallb_forall in Hex. specialize (Hex _ Hkw1).
  rewrite forallb_forall in Hex. specialize (Hex _ Hkw2).
  unfold Py.eqb in *. apply bool_decide_eq_true in E1, E2.
  apply negb_true_iff, bool_decide_eq_false in Hex. congruence.
Qed.

Lemma prefix_key_unique t k1 k2 :
  k1 ∈ PREFIX_OK_KEYS -> k2 ∈ PREFIX_OK_KEYS ->
  key_is_prefix t k1 = true -> key_is_prefix t k2 = true -> k1 = k2.
Proof.
  intros H1%list_elem_of_In H2%list_elem_of_In
         (kw1 & Hkw1 & E1)%existsb_exists (kw2 & Hkw2 & E2)%existsb_exists.
  cbv zeta in E1, E2.
  apply andb_true_iff in E1 as [_ E1]. apply andb_true_iff in E2 as [_ E2].
  assert (Hex : prefixes_exclusive PREFIX_OK_KEYS = true) by (vm_compute; reflexivity).
  unfold prefixes_exclusive in Hex. rewrite forallb_forall in Hex.
  pose proof (Hex _ H1) as Hex12. rewrite forallb_forall in Hex12. specialize (Hex12 _ H2).
  pose proof (Hex _ H2) as Hex21. rewrite forallb_forall in Hex21. specialize (Hex21 _ H1).
  apply orb_true_iff in Hex12 as [Heq|Hex12].
  { unfold Py.eqb in Heq. by apply bool_decide_eq_true in Heq. }
  apply orb_true_iff in Hex21 as [Heq|Hex21].
  { unfold Py.eqb in Heq. by apply bool_decide_eq_true in Heq. }
  rewrite forallb_forall in Hex12. specialize (Hex12 _ Hkw1).
  rewrite forallb_forall in Hex12. specialize (Hex12 _ Hkw2).
  rewrite forallb_forall in Hex21. specialize (Hex21 _ Hkw2).
  rewrite forallb_forall in Hex21. specialize (Hex21 _ Hkw1).
  apply negb_true_iff in Hex12, Hex21.
  destruct (startswith_both E1 E2); congruence.
Qed.

(** * Further properties of the code *)

(** ** [_find_section_key]: the order of iteration *)

(** X1: [_find_section_key] iterates over two Python sets, whose order
    of iteration depends on the hashes of the strings.  Whatever the order
    in which STRICT_ONLY_KEYS and PREFIX_OK_KEYS are iterated, the key that
    is returned is the same. *)
Theorem find_section_key_any_order strict_iter prefix_iter title level number :
  strict_iter ≡ₚ STRICT_ONLY_KEYS ->
  prefix_iter ≡ₚ PREFIX_OK_KEYS ->
  _find_section_key_in strict_iter prefix_iter title level number
  = _find_section_key title level number.
Proof.
  intros Hs Hp. unfold _find_section_key, _find_section_key_in. cbv zeta.
  set (t := _normalize_title title).
  assert (H1 : exact_key strict_iter t = exact_key STRICT_ONLY_KEYS t).
  { unfold exact_key. apply find_Permutation; [done|].
    intros x y Hx Hy. rewrite Hs in Hx, Hy. by apply exact_key_unique. }
  assert (H3 : prefix_key prefix_iter t = prefix_key PREFIX_OK_KEYS t).
  { unfold prefix_key. apply find_Permutation; [done|].
    intros x y Hx Hy. rewrite Hp in Hx, Hy. by apply (@prefix_key_unique t). }
  by rewrite H1, H3.
Qed.

Lemma find_section_key_any_order_witness :
  _find_section_key_in (rev STRICT_ONLY_KEYS) (rev PREFIX_OK_KEYS)
                       (u "Einleitung und Motivation") (Some 1) (Some (u "1"))
  = _find_section_key (u "Einleitung und Motivation") (Some 1) (Some (u "1")).
Proof.
  apply (find_section_key_any_order (strict_iter := rev STRICT_ONLY_KEYS)
           (prefix_iter := rev PREFIX_OK_KEYS)).
  - symmetry. apply Permutation_rev.
  - symmetry. apply Permutation_rev.
Defined.

(** ** The table of contents: extractor and rule *)

Lemma first_index_weaken {A} (P Q : A -> bool) l i :
  (forall x, P x = true -> Q x = true) ->
  first_index P l = Some i ->
  exists k, first_index Q l = Some k /\ k <= i.
Proof.
  intros HPQ. revert i. induction l as [|x l IH]; cbn [first_index]; intros i H.
  - discriminate.
  - destruct (Q x) eqn:HQ.
    + exists 0. split; [done|lia].
    + destruct (P x) eqn:HP; [apply HPQ in HP; congruence|].
      destruct (first_index P l) as [j|]; [|discriminate].
      injection H as <-. destruct (IH j eq_refl) as (k & -> & Hk).
      exists (S k). split; [done|lia].
Qed.

(** X2: when the extractor finds a table of contents that starts at
    paragraph [toc_start], the rule STRUCT-015 finds a title of a table of
    contents at [toc_start] or before it: on such a document the rule
    returns one finding and never the error that no table of contents was
    recognised. *)
Theorem toc_of_extractor_is_found_by_rule
        (doc : DocumentModel) (ai : option AIAnnotations) (toc_start toc_end : nat) :
  _find_toc_range (paragraphs doc) = Some (toc_start, toc_end) ->
  (exists idx,
      toc_lists._find_heading_like_line (paragraphs doc)
                                        TableOfContentsExistsRule.TOC_TITLES
      = Some idx
      /\ idx <= toc_start)
  /\ exists f, TableOfContentsExistsRule.run doc ai = [f]
               /\ severity f <> u "error"
               /\ message f <> u "Kein Inhaltsverzeichnis erkannt.".
Proof.
  intros Htoc. unfold _find_toc_range in Htoc.
  destruct (first_index _ (paragraphs doc)) as [s|] eqn:Hs; [|discriminate].
  assert (s = toc_start) as ->.
  { cbv zeta in Htoc. destruct (List.find _ _); congruence. }
  clear Htoc.
  assert (Hidx : exists idx,
             toc_lists._find_heading_like_line (paragraphs doc)
                                               TableOfContentsExistsRule.TOC_TITLES
             = Some idx /\ idx <= toc_start).
  { unfold toc_lists._find_heading_like_line. cbv zeta.
    eapply first_index_weaken; [|exact Hs].
    intros x Hx. unfold Py.eqb in Hx. apply bool_decide_eq_true in Hx.
    unfold toc_lists._norm. rewrite Hx. vm_compute. reflexivity. }
  split; [exact Hidx|].
  destruct Hidx as (idx & Hidx & _).
  unfold TableOfContentsExistsRule.run. rewrite Hidx. cbv zeta.
  destruct (3 <=? _); eexists; (split; [reflexivity|]);
    cbn [severity message]; split; by vm_compute.
Qed.

Lemma toc_of_extractor_is_found_by_rule_witness :
  exists f, TableOfContentsExistsRule.run
              (extract_docx (u "thesis.docx") toc_document 0) None = [f]
            /\ severity f <> u "error"
            /\ message f <> u "Kein Inhaltsverzeichnis erkannt.".
Proof.
  refine (proj2 (@toc_of_extractor_is_found_by_rule
                   (extract_docx (u "thesis.docx") toc_document 0) None 0 7 _)).
  vm_compute. reflexivity.
Defined.

(** ** The level of a heading style *)

Lemma search_from_Some s r fuel i m :
  Re.search_from s r fuel i = Some m ->
  exists k st l, i <= k /\ Re.run s r (Re.MState k []) = st :: l
                 /\ m = Re.MkMatch k (Re.pos st) (Re.caps st).
Proof.
  revert i. induction fuel as [|f IH]; intros i; cbn [Re.search_from];
    unfold Re.match_at;
    destruct (Re.run s r (Re.MState i [])) as [|st l] eqn:Hrun.
  - discriminate.
  - intros [= <-]. by exists i, st, l.
  - intros (k & st & l & Hk & H1 & H2)%IH. exists k, st, l. split; [lia|done].
  - intros [= <-]. by exists i, st, l.
Qed.

Lemma run_last_group s p : ends_with_group2 s p (Re.Cat (Re.Group 2 (Re.Set_ p)) Re.Eps).
Proof.
  intros st st' (st2 & H2 & Hin)%in_run_Cat.
  cbn [Re.run] in Hin. destruct Hin as [<-|[]].
  apply in_run_Group in H2 as (st3 & H3 & ->).
  cbn [Re.run] in H3. destruct (s !! Re.pos st) as [c|] eqn:Hc; [|done].
  destruct (p c) eqn:Hp; [|done]. destruct H3 as [<-|[]].
  by exists (Re.pos st), c.
Qed.

Lemma run_last_group_after s a p r :
  group_free a = true -> ends_with_group2 s p r -> ends_with_group2 s p (Re.Cat a r).
Proof.
  intros Ha Hr st st' (st1 & H1 & Hin)%in_run_Cat.
  destruct (Hr _ _ Hin) as (i & c & Hc & Hp & Hcaps).
  exists i, c. by rewrite Hcaps, (run_group_free Ha H1).
Qed.

Lemma int_level_digit c :
  in_range (cp "1") (cp "9") c = true ->
  exists l, int_level [c] = Some l /\ 1 <= l <= 9.
Proof.
  unfold in_range. intros [H1%N.leb_le H2%N.leb_le]%andb_true_iff.
  change (cp "1") with 49%N in H1. change (cp "9") with 57%N in H2.
  assert (Hc : (c = 49 \/ c = 50 \/ c = 51 \/ c = 52 \/ c = 53 \/ c = 54
                \/ c = 55 \/ c = 56 \/ c = 57)%N) by lia.
  repeat destruct Hc as [->|Hc]; try subst c;
    (eexists; split; [vm_compute; reflexivity|lia]).
Qed.

(** The level read from a match of a style pattern. *)
Lemma style_pattern_level s r m :
  ends_with_group2 s (in_range (cp "1") (cp "9")) r ->
  Re.search (Re.Cat heading_words r) s = Some m ->
  exists l, int_level (Re.group s 2 m) = Some l /\ 1 <= l <= 9.
Proof.
  intros Hr (k & st & l & _ & Hrun & ->)%search_from_Some.
  assert (Hin : In st (Re.run s (Re.Cat heading_words r) (Re.MState k [])))
    by (rewrite Hrun; by left).
  apply in_run_Cat in Hin as (st1 & H1 & Hin).
  apply Hr in Hin as (i & c & Hc & Hp & Hcaps).
  unfold Re.group. cbn [Re.m_caps]. rewrite Hcaps. cbn [find fst Nat.eqb].
  rewrite (span_char Hc). by apply int_level_digit.
Qed.

Lemma heading_level_range style l :
  _heading_level_from_style style = Some l -> 1 <= l <= 9.
Proof.
  unfold _heading_level_from_style. cbv zeta.
  set (s := Py.lower (Py.strip style)).
  destruct (negb (nonempty s)); [discriminate|].
  destruct (Re.search _ s) as [m|] eqn:Hm.
  - intros Hl.
    destruct (@style_pattern_level s _ m
                (run_last_group_after (a := Re.Star Re.ws) eq_refl
                                      (@run_last_group s _)) Hm)
      as (l' & Hl' & Hr).
    congruence.
  - clear Hm.
    destruct (Re.search (Re.seq [heading_words; Re.Group 2 digit_1_9]) s)
      as [m2|] eqn:Hm2.
    + intros Hl.
      destruct (@style_pattern_level s _ m2 (@run_last_group s _) Hm2)
        as (l' & Hl' & Hr).
      congruence.
    + destruct (_ || _); [|discriminate]. intros [= <-]. lia.
Qed.

Lemma contains_intro a p b : Py.contains (a ++ p ++ b) p = true.
Proof.
  induction a as [|c a IH]; cbn [app].
  - destruct (p ++ b) as [|c r] eqn:E.
    + apply app_eq_nil in E as [-> _]. reflexivity.
    + cbn [Py.contains]. rewrite <- E, startswith_prefix. reflexivity.
  - cbn [Py.contains]. rewrite IH. apply orb_true_r.
Qed.

Lemma contains_elim s p : Py.contains s p = true -> exists a b, s = a ++ p ++ b.
Proof.
  induction s as [|c s IH]; cbn [Py.contains].
  - rewrite orb_false_r. intros (r & ->)%startswith_app. by exists [], r.
  - intros [(r & ->)%startswith_app|(a & b & ->)%IH]%orb_true_iff.
    + by exists [], r.
    + by exists (c :: a), b.
Qed.

Lemma contains_tail s c p : Py.contains s (c :: p) = true -> Py.contains s p = true.
Proof.
  intros (a & b & ->)%contains_elim.
  change (a ++ (c :: p) ++ b) with (a ++ [c] ++ p ++ b).
  rewrite (app_assoc a [c]). apply contains_intro.
Qed.

Lemma lang_lit w x : lang (Re.lit w) x -> x = w.
Proof.
  revert x. induction w as [|c w IH]; intros x H; unfold Re.lit in *; cbn [map Re.seq foldr] in *.
  - by inversion H.
  - inversion H as [| |a b y z Hy Hz| | | | | | | | | |]; subst.
    unfold Re.chr in Hy. inversion Hy as [|p d Hd| | | | | | | | | | |]; subst.
    apply N.eqb_eq in Hd as ->. cbn [app]. f_equal. by apply IH.
Qed.

Lemma span_inside s a b : exists l r, s = l ++ Re.span s a b ++ r.
Proof.
  exists (take a s), (drop (b - a) (drop a s)). unfold Re.span.
  by rewrite take_drop, take_drop.
Qed.

(** A match of a style pattern starts with one of the three words. *)
Lemma style_pattern_word s r m :
  Re.search (Re.Cat heading_words r) s = Some m ->
  Py.contains s (u "heading") = true \/ Py.contains s (u "berschrift") = true.
Proof.
  intros (k & st & l & _ & Hrun & ->)%search_from_Some.
  assert (Hin : In st (Re.run s (Re.Cat heading_words r) (Re.MState k [])))
    by (rewrite Hrun; by left).
  apply in_run_Cat in Hin as (st1 & H1 & _).
  apply run_sound in H1 as [_ Hlang]. cbn [Re.pos] in Hlang.
  destruct (span_inside s k (Re.pos st1)) as (a & b & Hs).
  revert Hlang Hs. generalize (Re.span s k (Re.pos st1)). intros x Hlang Hs.
  unfold heading_words, Re.alts in Hlang. cbn [map foldl] in Hlang.
  inversion Hlang as [| | | | | | | | | | | |i r0 y Hy]; subst.
  inversion Hy as [| | |? ? ? Hl|? ? ? Hr| | | | | | | |]; subst.
  - inversion Hl as [| | |? ? ? Hl'|? ? ? Hr'| | | | | | | |]; subst.
    + apply lang_lit in Hl' as ->. left. apply contains_intro.
    + apply lang_lit in Hr' as ->. right.
      apply (@contains_tail _ (cp "ü")). apply contains_intro.
  - apply lang_lit in Hr as ->. right. apply contains_intro.
Qed.

(** X3: [_heading_level_from_style] gives a style id a level exactly when
    the id, stripped and lower-cased, contains heading or berschrift (the
    alternative überschrift of the patterns adds nothing), and the level
    is between 1 and 9. *)
Theorem heading_level_from_style_spec (style_id : str) :
  let s := Py.lower (Py.strip style_id) in
  match _heading_level_from_style style_id with
  | Some level =>
    1 <= level <= 9
    /\ (Py.contains s (u "heading") = true \/ Py.contains s (u "berschrift") = true)
  | None =>
    Py.contains s (u "heading") = false /\ Py.contains s (u "berschrift") = false
  end.
Proof.
  intros s.
  destruct (_heading_level_from_style style_id) as [level|] eqn:Hlevel.
  - split; [by apply (@heading_level_range style_id)|].
    revert Hlevel. unfold _heading_level_from_style. cbv zeta. fold s.
    destruct (negb (nonempty s)); [discriminate|].
    destruct (Re.search (Re.seq [heading_words; Re.Star Re.ws; Re.Group 2 digit_1_9]) s)
      as [m|] eqn:Hm; [intros _; by apply (style_pattern_word Hm)|].
    destruct (Re.search (Re.seq [heading_words; Re.Group 2 digit_1_9]) s)
      as [m2|] eqn:Hm2; [intros _; by apply (style_pattern_word Hm2)|].
    destruct (Py.contains s (u "heading")) eqn:H1; [by left|].
    destruct (Py.contains s (u "überschrift")) eqn:H2.
    { right. by apply (@contains_tail _ (cp "ü")). }
    destruct (Py.contains s (u "berschrift")) eqn:H3; [by right|discriminate].
  - revert Hlevel. unfold _heading_level_from_style. cbv zeta. fold s.
    destruct (nonempty s) eqn:Hne; cbn [negb].
    2:{ destruct s; [|discriminate]. intros _. by vm_compute. }
    destruct (Re.search (Re.seq [heading_words; Re.Star Re.ws; Re.Group 2 digit_1_9]) s)
      as [m|] eqn:Hm.
    { intros Hl.
      destruct (@style_pattern_level s _ m
                  (run_last_group_after (a := Re.Star Re.ws) eq_refl
                                        (@run_last_group s _)) Hm)
        as (l' & Hl' & _). congruence. }
    destruct (Re.search (Re.seq [heading_words; Re.Group 2 digit_1_9]) s)
      as [m2|] eqn:Hm2.
    { intros Hl.
      destruct (@style_pattern_level s _ m2 (@run_last_group s _) Hm2)
        as (l' & Hl' & _). congruence. }
    destruct (Py.contains s (u "heading")); [discriminate|].
    destruct (Py.contains s (u "überschrift")); [discriminate|].
    destruct (Py.contains s (u "berschrift")); [discriminate|]. done.
Qed.

(** ** The headings the extractor returns *)

Lemma outline_number_nonempty n : is_outline_number n = true -> nonempty n = true.
Proof. destruct n; [discriminate|done]. Qed.

Lemma paragraph_step_shape idx p in_table st :
  st_headings (paragraph_step idx p in_table st) = st_headings st
  \/ (nonempty (_p_text p) = true
      /\ exists h, st_headings (paragraph_step idx p in_table st) = st_headings st ++ [h]
                   /\ h_para_index h = idx /\ number_shape h).
Proof.
  unfold paragraph_step. cbv zeta.
  destruct (nonempty (_p_text p)) eqn:Hne; cbn [negb]; [|by left].
  destruct in_table; [by left|].
  assert (Hstyle : 1 <= default 1 (_heading_level_from_style (_p_style p)) <= 9).
  { destruct (_heading_level_from_style (_p_style p)) as [l|] eqn:Hl; cbn [default].
    - by apply (@heading_level_range (_p_style p)).
    - lia. }
  destruct (Re.match_ NUMBERING_RE (_p_text p)) as [m|] eqn:Hm.
  - pose proof (numbering_group_outline Hm) as Hout.
    pose proof (outline_number_nonempty Hout) as Hn.
    destruct (_ || _); cbn [st_headings]; [|by left].
    right. split; [done|]. eexists. split; [reflexivity|]. split; [done|].
    unfold number_shape. cbn [h_number h_level]. by rewrite Hn.
  - destruct (_p_ilvl p) as [i|].
    + destruct (bool_decide (is_Some (_heading_level_from_style (_p_style p)))).
      * pose proof (auto_number_outline (bump_counts (auto_counts st) (auto_level i)) i)
          as Hout.
        pose proof (outline_number_nonempty Hout) as Hn.
        destruct (_ || _); cbn [st_headings]; [|by left].
        right. split; [done|]. eexists. split; [reflexivity|]. split; [done|].
        unfold number_shape. cbn [h_number h_level]. by rewrite Hn.
      * destruct (_ || _); cbn [st_headings]; [|by left].
        right. split; [done|]. eexists. split; [reflexivity|]. split; [done|].
        exact Hstyle.
    + destruct (_ || _); cbn [st_headings]; [|by left].
      right. split; [done|]. eexists. split; [reflexivity|]. split; [done|].
      exact Hstyle.
Qed.

Lemma extract_loop_shape ps idx st :
  exists new,
    st_headings (extract_loop idx ps st) = st_headings st ++ new
    /\ StronglySorted before new
    /\ Forall (fun h => idx <= h_para_index h
                        /\ number_shape h
                        /\ exists pb, ps !! (h_para_index h - idx) = Some pb
                                      /\ nonempty (_p_text (fst pb)) = true) new.
Proof.
  revert idx st. induction ps as [|[p b] ps IH]; intros idx st; cbn [extract_loop].
  - exists []. rewrite app_nil_r. repeat constructor.
  - destruct (IH (S idx) (paragraph_step idx p b st)) as (new & Hnew & Hsorted & Hall).
    assert (Hshift : Forall (fun h => idx <= h_para_index h /\ number_shape h
                          /\ exists pb, ((p, b) :: ps) !! (h_para_index h - idx) = Some pb
                                        /\ nonempty (_p_text (fst pb)) = true) new).
    { eapply Forall_impl; [exact Hall|]. cbn beta.
      intros h (Hle & Hshape & pb & Hpb & Hne). split; [lia|]. split; [done|].
      exists pb. split; [|done].
      replace (h_para_index h - idx) with (S (h_para_index h - S idx)) by lia.
      exact Hpb. }
    destruct (paragraph_step_shape idx p b st) as [Heq|(Hne & h & Heq & Hidx & Hshape)].
    + exists new. rewrite Hnew, Heq. done.
    + exists (h :: new). rewrite Hnew, Heq, <- app_assoc. split; [done|]. split.
      * constructor; [done|]. eapply Forall_impl; [exact Hall|].
        unfold before. intros h' (Hle & _). cbn beta in Hle. lia.
      * constructor; [|done]. split; [lia|]. split; [done|].
        exists (p, b). rewrite Hidx, Nat.sub_diag. done.
Qed.

Lemma StronglySorted_filter {A} (R : A -> A -> Prop) (f : A -> bool) l :
  StronglySorted R l -> StronglySorted R (List.filter f l).
Proof.
  induction 1 as [|x l Hs IH Hall]; cbn [List.filter]; [constructor|].
  destruct (f x); [|done]. constructor; [done|].
  apply Forall_forall. intros y [Hy _]%list_elem_of_In%filter_In.
  rewrite Forall_forall in Hall. by apply Hall, list_elem_of_In.
Qed.

Lemma Forall_list_filter {A} (P : A -> Prop) (f : A -> bool) l :
  Forall P l -> Forall P (List.filter f l).
Proof.
  intros H. apply Forall_forall. intros y [Hy _]%list_elem_of_In%filter_In.
  rewrite Forall_forall in H. by apply H, list_elem_of_In.
Qed.

Lemma extracted_headings root :
  let '(paragraphs, headings) := _extract_paragraphs_and_headings_from_xml root in
  StronglySorted before headings
  /\ Forall (fun h => at_paragraph paragraphs h /\ number_shape h) headings.
Proof.
  unfold _extract_paragraphs_and_headings_from_xml.
  destruct (ET.find_desc (wtag (u "body")) root) as [body|]; [|repeat constructor].
  destruct (extract_loop_shape (_walk_body_paragraphs body) 0 initial_state)
    as (new & Hnew & Hsorted & Hall).
  cbn [initial_state st_headings app] in Hnew. rewrite Hnew.
  rewrite extract_loop_paragraphs. cbn [initial_state st_paragraphs app].
  assert (Hall' : Forall (fun h =>
            at_paragraph (map (fun pb => _p_text (fst pb)) (_walk_body_paragraphs body)) h
            /\ number_shape h) new).
  { eapply Forall_impl; [exact Hall|]. cbn beta.
    intros h (_ & Hshape & pb & Hpb & Hne). split; [|done].
    exists (_p_text (fst pb)). rewrite Nat.sub_0_r in Hpb. split.
    - change (map (fun pb0 => _p_text (fst pb0)) (_walk_body_paragraphs body))
        with ((fun pb0 => _p_text (fst pb0)) <$> _walk_body_paragraphs body).
      by rewrite list_lookup_fmap, Hpb.
    - by destruct (_p_text (fst pb)). }
  unfold filter_toc. destruct (_find_toc_range _) as [[a b]|]; [|done].
  split; [by apply StronglySorted_filter|by apply Forall_list_filter].
Qed.


(** X4: the headings the extractor returns are in the order of the
    document, at most one for a paragraph; each sits at a paragraph that is
    not empty; a heading with a number has an outline number and a level of
    one more than the number has dots, a heading without number has a level
    between 1 and 9. *)
Theorem extracted_headings_are_ordered (name : str) (root : Element) (tables : nat) :
  let doc := extract_docx name root tables in
  StronglySorted before (headings doc)
  /\ Forall (fun h => at_paragraph (paragraphs doc) h /\ number_shape h) (headings doc).
Proof.
  cbv zeta. unfold extract_docx.
  pose proof (extracted_headings root) as H.
  destruct (_extract_paragraphs_and_headings_from_xml root) as [ps hs].
  destruct (_extract_references ps). cbn [headings paragraphs]. exact H.
Qed.

(** ** The heading rules on the headings of the extractor *)











(** ** The section map *)

Lemma find_section_key_known title level number key :
  _find_section_key title level number = Some key -> key ∈ section_keys.
Proof.
  intros Hfind. unfold section_keys.
  destruct (section_key_cases (prefix_iter := PREFIX_OK_KEYS) (reflexivity _) Hfind)
    as [(kw & Hkw & _)|(Hin & _)].
  - unfold keywords_of in Hkw.
    destruct (find _ SECTION_KEYWORDS) as [[k kws]|] eqn:Hf;
      [|by apply elem_of_nil in Hkw].
    apply find_some in Hf as [Hin Heq]. cbn [fst] in Heq.
    unfold Py.eqb in Heq. apply bool_decide_eq_true in Heq as ->.
    apply list_elem_of_In, in_map_iff. by exists (key, kws).
  - unfold PREFIX_OK_KEYS in Hin.
    repeat (apply elem_of_cons in Hin as [->|Hin];
            [apply (bool_decide_unpack _); vm_compute; exact I|]).
    by apply elem_of_nil in Hin.
Qed.

(** The entry of a key comes from a heading of the sorted list. *)
Lemma build_sections_lookup paragraphs hdgs key sec :
  _build_sections paragraphs hdgs !! key = Some sec ->
  exists i h, by_para_index hdgs !! i = Some h
              /\ heading_key h = Some key
              /\ sec = section_from paragraphs h key (drop (S i) (by_para_index hdgs)).
Proof.
  unfold _build_sections. fold (by_para_index hdgs).
  rewrite zip_with_keys, build_loop_lookup, lookup_empty.
  destruct (nonempty key); [|discriminate].
  destruct (first_with_key key (by_para_index hdgs)) as [[h r]|] eqn:Hfirst;
    cbn [fmap option_fmap option_map fst snd]; [|discriminate].
  apply first_with_key_Some in Hfirst as (i & Hi & -> & Hk & _).
  intros [= <-]. by exists i, h.
Qed.

(** X7: every entry of the section map is consistent.  It is stored
    under its own key, one of the nine keys of SECTION_KEYWORDS; its title
    is the text of a heading that resolves to the key and it starts at the
    paragraph after that heading; it does not end before it starts; its
    word count is the word count of its text. *)
Theorem section_entries_are_consistent
        (paragraphs : list str) (hdgs : list Heading) (key : str) (sec : Section_) :
  _build_sections paragraphs hdgs !! key = Some sec ->
  sec_key sec = key
  /\ key ∈ section_keys
  /\ (exists h, h ∈ hdgs /\ heading_key h = Some key
                /\ sec_title sec = h_text h
                /\ sec_start_para sec = h_para_index h + 1)
  /\ sec_start_para sec <= sec_end_para sec
  /\ sec_word_count sec = _word_count (sec_text sec).
Proof.
  intros (i & h & Hi & Hk & ->)%build_sections_lookup.
  unfold section_from. cbv zeta. cbn [sec_key sec_title sec_start_para sec_end_para
                                      sec_text sec_word_count].
  split; [done|]. split; [by apply (find_section_key_known Hk)|].
  split; [|split; [lia|done]].
  exists h. split; [|done].
  apply list_elem_of_lookup_2 in Hi. unfold by_para_index in Hi.
  by rewrite sorted_Permutation in Hi.
Qed.

Lemma section_entries_are_consistent_witness :
  exists sec,
    _build_sections [] two_bibliographies !! u "literatur" = Some sec
    /\ sec_key sec = u "literatur"
    /\ sec_start_para sec <= sec_end_para sec
    /\ sec_word_count sec = _word_count (sec_text sec).
Proof.
  eexists. split; [vm_compute; reflexivity|].
  destruct (@section_entries_are_consistent [] two_bibliographies (u "literatur") _
              ltac:(vm_compute; reflexivity)) as (H1 & _ & _ & H4 & H5).
  exact (conj H1 (conj H4 H5)).
Defined.

Lemma before_sorted_id hs : StronglySorted before hs -> by_para_index hs = hs.
Proof.
  unfold by_para_index, Py.sorted.
  induction 1 as [|x l Hs IH Hall]; cbn [foldr]; [done|].
  rewrite IH. destruct l as [|y l]; [done|]. cbn [Py.insert_sorted].
  apply Forall_cons in Hall as [Hxy _]. unfold before in Hxy.
  destruct (Nat.leb_spec (h_para_index x) (h_para_index y)); [done|lia].
Qed.

Lemma find_first {A} (f : A -> bool) l j x :
  l !! j = Some x -> f x = true ->
  exists k y, k <= j /\ l !! k = Some y /\ List.find f l = Some y.
Proof.
  revert j. induction l as [|a l IH]; intros j Hj Hx; [done|].
  cbn [List.find]. destruct (f a) eqn:Ha.
  - exists 0, a. split; [lia|done].
  - destruct j as [|j]; [cbn in Hj; congruence|].
    destruct (IH j Hj Hx) as (k & y & Hk & Hy & Hfind).
    exists (S k), y. split; [lia|done].
Qed.

(** The section of the heading at [i] ends before the paragraph of a
    later heading that resolves to a key. *)
Lemma section_ends_before paragraphs hs i h key j h' :
  StronglySorted before hs ->
  hs !! i = Some h -> hs !! j = Some h' -> i < j ->
  truthy (heading_key h') = true ->
  sec_end_para (section_from paragraphs h key (drop (S i) hs)) <= h_para_index h'.
Proof.
  intros Hs Hi Hj Hij Hkeyed. unfold section_from. cbv zeta. cbn [sec_end_para].
  assert (Hj' : drop (S i) hs !! (j - S i) = Some h').
  { rewrite lookup_drop. by replace (S i + (j - S i)) with j by lia. }
  destruct (find_first (f := fun h0 => truthy (heading_key h0)) Hj' Hkeyed)
    as (k & y & Hk & Hy & ->).
  rewrite lookup_drop in Hy.
  assert (Hbefore : before h y).
  { apply (@StronglySorted_lookup _ before hs i (S i + k)); [done|lia|done|done]. }
  assert (Hle : h_para_index y <= h_para_index h').
  { destruct (decide (S i + k = j)) as [Heq|Hne].
    - rewrite Heq, Hj in Hy. by injection Hy as ->.
    - assert (before y h'); [|unfold before in *; lia].
      apply (@StronglySorted_lookup _ before hs (S i + k) j); [done|lia|done|done]. }
  unfold before in Hbefore. lia.
Qed.

Lemma section_end_in_bounds paragraphs h key later :
  h_para_index h < length paragraphs ->
  Forall (fun h' => h_para_index h' < length paragraphs) later ->
  sec_end_para (section_from paragraphs h key later) <= length paragraphs.
Proof.
  intros Hh Hlater. unfold section_from. cbv zeta. cbn [sec_end_para].
  destruct (List.find _ later) as [y|] eqn:Hfind; [|lia].
  apply find_some in Hfind as [Hin _]. rewrite Forall_forall in Hlater.
  apply list_elem_of_In, Hlater in Hin. lia.
Qed.

(** X8: in a document model the extractor builds, the sections of two
    different keys have no paragraph in common: one of them ends before the
    paragraph at which the other starts.  No section reaches beyond the
    paragraphs of the document. *)
Theorem sections_do_not_overlap
        (name : str) (root : Element) (tables : nat) (k1 k2 : str) (s1 s2 : Section_) :
  let doc := extract_docx name root tables in
  sections doc !! k1 = Some s1 ->
  sections doc !! k2 = Some s2 ->
  k1 <> k2 ->
  apart s1 s2
  /\ sec_end_para s1 <= length (paragraphs doc)
  /\ sec_end_para s2 <= length (paragraphs doc).
Proof.
  cbv zeta. unfold extract_docx.
  pose proof (extracted_headings root) as Hshape.
  destruct (_extract_paragraphs_and_headings_from_xml root) as [ps hs].
  destruct (_extract_references ps). cbn [sections paragraphs].
  destruct Hshape as [Hsorted Hall].
  intros (i1 & h1 & Hi1 & Hk1 & ->)%build_sections_lookup
         (i2 & h2 & Hi2 & Hk2 & ->)%build_sections_lookup Hne.
  rewrite (before_sorted_id Hsorted) in *.
  assert (Hbound : Forall (fun h' => h_para_index h' < length ps) hs).
  { eapply Forall_impl; [exact Hall|]. intros h [(p & Hp & _) _].
    by apply lookup_lt_Some in Hp. }
  assert (Hin : forall i h, hs !! i = Some h -> h_para_index h < length ps).
  { intros i h Hi. rewrite Forall_forall in Hbound.
    by apply Hbound, (list_elem_of_lookup_2 _ i). }
  assert (Hdrop : forall i, Forall (fun h' => h_para_index h' < length ps) (drop i hs)).
  { intros i. apply Forall_forall. intros h Hh. rewrite Forall_forall in Hbound.
    apply Hbound. apply list_elem_of_lookup in Hh as [k Hk].
    rewrite lookup_drop in Hk. by apply list_elem_of_lookup_2 in Hk. }
  split; [|split; apply section_end_in_bounds; eauto].
  assert (Ht1 : truthy (heading_key h1) = true).
  { rewrite Hk1. apply (find_section_key_nonempty Hk1). }
  assert (Ht2 : truthy (heading_key h2) = true).
  { rewrite Hk2. apply (find_section_key_nonempty Hk2). }
  unfold apart.
  destruct (Nat.lt_trichotomy i1 i2) as [Hlt|[Heq|Hgt]].
  - left. pose proof (@section_ends_before ps hs i1 h1 k1 i2 h2 Hsorted Hi1 Hi2 Hlt Ht2).
    unfold section_from at 2. cbv zeta. cbn [sec_start_para]. lia.
  - subst i2. rewrite Hi1 in Hi2. injection Hi2 as ->. congruence.
  - right. pose proof (@section_ends_before ps hs i2 h2 k2 i1 h1 Hsorted Hi2 Hi1 Hgt Ht1).
    unfold section_from at 2. cbv zeta. cbn [sec_start_para]. lia.
Qed.

Lemma sections_do_not_overlap_witness :
  exists s1 s2,
    sections (extract_docx (u "thesis.docx") six_chapter_document 0) !! u "einleitung"
    = Some s1
    /\ sections (extract_docx (u "thesis.docx") six_chapter_document 0) !! u "methode"
       = Some s2
    /\ apart s1 s2.
Proof.
  eexists _, _. split; [vm_compute; reflexivity|]. split; [vm_compute; reflexivity|].
  refine (proj1 (@sections_do_not_overlap (u "thesis.docx") six_chapter_document 0
                   (u "einleitung") (u "methode") _ _ _ _ _)).
  - vm_compute; reflexivity.
  - vm_compute; reflexivity.
  - discriminate.
Defined.

(** ** Findings name their rule *)

Ltac attributed_finding :=
  split; [reflexivity|split; [reflexivity|cbn [severity]; vm_compute; reflexivity]].

(** A [run] that is a case distinction with one finding on every branch. *)
Ltac attributed_per_branch :=
  intros; cbv zeta;
  repeat match goal with
         | |- context [match ?x with _ => _ end] => destruct x
         end;
  (constructor; [attributed_finding|constructor]).

Lemma RequiredChaptersRule_attributed doc ai :
  Forall (attributed RequiredChaptersRule.id RequiredChaptersRule.category)
         (RequiredChaptersRule.run doc ai).
Proof. unfold RequiredChaptersRule.run. attributed_per_branch. Qed.

Lemma ChapterOrderPlausibleRule_attributed doc ai :
  Forall (attributed ChapterOrderPlausibleRule.id ChapterOrderPlausibleRule.category)
         (ChapterOrderPlausibleRule.run doc ai).
Proof. unfold ChapterOrderPlausibleRule.run. attributed_per_branch. Qed.

Lemma ChapterLengthBalancedRule_attributed doc ai :
  Forall (attributed ChapterLengthBalancedRule.id ChapterLengthBalancedRule.category)
         (ChapterLengthBalancedRule.run doc ai).
Proof. unfold ChapterLengthBalancedRule.run. attributed_per_branch. Qed.

Lemma TableOfContentsExistsRule_attributed doc ai :
  Forall (attributed TableOfContentsExistsRule.id TableOfContentsExistsRule.category)
         (TableOfContentsExistsRule.run doc ai).
Proof. unfold TableOfContentsExistsRule.run. attributed_per_branch. Qed.

Lemma ListOfFiguresExistsRule_attributed doc ai :
  Forall (attributed ListOfFiguresExistsRule.id ListOfFiguresExistsRule.category)
         (ListOfFiguresExistsRule.run doc ai).
Proof. unfold ListOfFiguresExistsRule.run. attributed_per_branch. Qed.

Lemma ListOfTablesExistsRule_attributed doc ai :
  Forall (attributed ListOfTablesExistsRule.id ListOfTablesExistsRule.category)
         (ListOfTablesExistsRule.run doc ai).
Proof. unfold ListOfTablesExistsRule.run. attributed_per_branch. Qed.

Lemma HeadingsMustBeNumberedRule_attributed doc ai :
  Forall (attributed HeadingsMustBeNumberedRule.id HeadingsMustBeNumberedRule.category)
         (HeadingsMustBeNumberedRule.run doc ai).
Proof. unfold HeadingsMustBeNumberedRule.run. attributed_per_branch. Qed.

Lemma HeadingNumberingNoGapsRule_attributed doc ai :
  Forall (attributed HeadingNumberingNoGapsRule.id HeadingNumberingNoGapsRule.category)
         (HeadingNumberingNoGapsRule.run doc ai).
Proof. unfold HeadingNumberingNoGapsRule.run. attributed_per_branch. Qed.

Lemma ResearchQuestionExistsRule_attributed doc ai :
  Forall (attributed ResearchQuestionExistsRule.id ResearchQuestionExistsRule.category)
         (ResearchQuestionExistsRule.run doc ai).
Proof. unfold ResearchQuestionExistsRule.run. attributed_per_branch. Qed.

Lemma ResearchQuestionInIntroRule_attributed doc ai :
  Forall (attributed ResearchQuestionInIntroRule.id ResearchQuestionInIntroRule.category)
         (ResearchQuestionInIntroRule.run doc ai).
Proof. unfold ResearchQuestionInIntroRule.run. attributed_per_branch. Qed.

Lemma ResearchKeyTermsConsistencyRule_attributed doc ai :
  Forall (attributed ResearchKeyTermsConsistencyRule.id
                     ResearchKeyTermsConsistencyRule.category)
         (ResearchKeyTermsConsistencyRule.run doc ai).
Proof. unfold ResearchKeyTermsConsistencyRule.run. attributed_per_branch. Qed.

Lemma rq_reference_attributed id category key m1 m2 m3 m4 m5 m6 doc ai :
  Forall (attributed id category)
         (rq_reference.run id category key m1 m2 m3 m4 m5 m6 doc ai).
Proof. unfold rq_reference.run. attributed_per_branch. Qed.

Lemma MethodChapterExistsRule_attributed doc ai :
  Forall (attributed MethodChapterExistsRule.id MethodChapterExistsRule.category)
         (MethodChapterExistsRule.run doc ai).
Proof. unfold MethodChapterExistsRule.run. attributed_per_branch. Qed.

Lemma MethodDetailSufficientRule_attributed doc ai :
  Forall (attributed MethodDetailSufficientRule.id MethodDetailSufficientRule.category)
         (MethodDetailSufficientRule.run doc ai).
Proof. unfold MethodDetailSufficientRule.run. attributed_per_branch. Qed.

Lemma ResultsDiscussionSeparationRule_attributed doc ai :
  Forall (attributed ResultsDiscussionSeparationRule.id
                     ResultsDiscussionSeparationRule.category)
         (ResultsDiscussionSeparationRule.run doc ai).
Proof. unfold ResultsDiscussionSeparationRule.run. attributed_per_branch. Qed.

Lemma LiteratureExistsRule_attributed doc ai :
  Forall (attributed LiteratureExistsRule.id LiteratureExistsRule.category)
         (LiteratureExistsRule.run doc ai).
Proof. unfold LiteratureExistsRule.run. attributed_per_branch. Qed.

Lemma FiguresTablesReferencedRule_attributed doc ai :
  Forall (attributed FiguresTablesReferencedRule.id FiguresTablesReferencedRule.category)
         (FiguresTablesReferencedRule.run doc ai).
Proof.
  unfold FiguresTablesReferencedRule.run. cbv zeta.
  destruct (_ && _); destruct (length (figure_refs doc) =? 0); cbn [app];
    repeat (constructor; [attributed_finding|]); constructor.
Qed.

Lemma HeadingHierarchyRule_step_attributed h findings prev fs parts :
  Forall (attributed HeadingHierarchyRule.id HeadingHierarchyRule.category) findings ->
  HeadingHierarchyRule.step h findings prev = Ok (fs, parts) ->
  Forall (attributed HeadingHierarchyRule.id HeadingHierarchyRule.category) fs.
Proof.
  intros Hfs. unfold HeadingHierarchyRule.step.
  destruct (_parse_number (number_of h)) as [ps|]; [|discriminate].
  unfold mbind, result_bind. cbv zeta.
  set (fs1 := if negb (h_level h =? length ps) then _ else findings).
  assert (H1 : Forall (attributed HeadingHierarchyRule.id HeadingHierarchyRule.category)
                      fs1).
  { unfold fs1. destruct (negb _); [|done].
    apply Forall_app. split; [done|]. constructor; [attributed_finding|constructor]. }
  clearbody fs1.
  destruct prev as [prev|]; [|by intros [= <- _]].
  destruct (_ && _); [|by intros [= <- _]].
  destruct (last ps); [|discriminate]. destruct (last prev); [|discriminate].
  destruct (_ <? _)%Z; intros [= <- _]; [|done].
  apply Forall_app. split; [done|]. constructor; [attributed_finding|constructor].
Qed.

Lemma HeadingHierarchyRule_loop_attributed numbered findings prev fs :
  Forall (attributed HeadingHierarchyRule.id HeadingHierarchyRule.category) findings ->
  HeadingHierarchyRule.loop numbered findings prev = Ok fs ->
  Forall (attributed HeadingHierarchyRule.id HeadingHierarchyRule.category) fs.
Proof.
  revert findings prev. induction numbered as [|h l IH]; intros findings prev Hfs;
    cbn [HeadingHierarchyRule.loop].
  - by intros [= <-].
  - destruct (HeadingHierarchyRule.step h findings prev) as [[fs1 parts]|] eqn:Hstep;
      [|discriminate].
    unfold mbind, result_bind. apply IH.
    by apply (HeadingHierarchyRule_step_attributed Hfs Hstep).
Qed.

Lemma HeadingHierarchyRule_attributed doc ai fs :
  HeadingHierarchyRule.run doc ai = Ok fs ->
  Forall (attributed HeadingHierarchyRule.id HeadingHierarchyRule.category) fs.
Proof.
  unfold HeadingHierarchyRule.run. cbv zeta.
  destruct (numbered_headings doc) as [|h l].
  - intros [= <-]. constructor; [attributed_finding|constructor].
  - destruct (HeadingHierarchyRule.loop (h :: l) [] None) as [fs1|] eqn:Hloop;
      [|discriminate].
    apply HeadingHierarchyRule_loop_attributed in Hloop; [|constructor].
    unfold mbind, result_bind. destruct fs1; intros [= <-]; [|done].
    constructor; [attributed_finding|constructor].
Qed.

Lemma HeadingDepthRule_attributed doc ai fs :
  HeadingDepthRule.run doc ai = Ok fs ->
  Forall (attributed HeadingDepthRule.id HeadingDepthRule.category) fs.
Proof.
  unfold HeadingDepthRule.run. cbv zeta.
  destruct (numbered_headings doc) as [|h l].
  - intros [= <-]. constructor; [attributed_finding|constructor].
  - destruct (HeadingDepthRule.deepest_from (h :: l) 0 None) as [[m d]|];
      [|discriminate].
    unfold mbind, result_bind. destruct d; [destruct (4 <? m)|]; intros [= <-];
      (constructor; [attributed_finding|constructor]).
Qed.

(** A [run] that reads the citations first. *)
Ltac attributed_after_citations :=
  cbv zeta;
  match goal with
  | |- context [literature._extract_citations_from_text ?t] =>
    destruct (literature._extract_citations_from_text t) as [[cited_num cited_ay]|];
    [|discriminate]
  end;
  unfold mbind, result_bind;
  repeat match goal with
         | |- context [match ?x with _ => _ end] => destruct x
         end;
  intros [= <-]; (constructor; [attributed_finding|constructor]).

Lemma AllCitationsInReferenceListRule_attributed doc ai fs :
  AllCitationsInReferenceListRule.run doc ai = Ok fs ->
  Forall (attributed AllCitationsInReferenceListRule.id
                     AllCitationsInReferenceListRule.category) fs.
Proof.
  unfold AllCitationsInReferenceListRule.run.
  destruct (literature._get_literature_text doc) as [[lit_text source]|].
  - attributed_after_citations.
  - intros [= <-]. constructor; [attributed_finding|constructor].
Qed.

Lemma NoUncitedReferencesRule_attributed doc ai fs :
  NoUncitedReferencesRule.run doc ai = Ok fs ->
  Forall (attributed NoUncitedReferencesRule.id NoUncitedReferencesRule.category) fs.
Proof.
  unfold NoUncitedReferencesRule.run.
  destruct (literature._get_literature_text doc) as [[lit_text source]|].
  - attributed_after_citations.
  - intros [= <-]. constructor; [attributed_finding|constructor].
Qed.

Lemma CitationStyleConsistentRule_attributed doc ai fs :
  CitationStyleConsistentRule.run doc ai = Ok fs ->
  Forall (attributed CitationStyleConsistentRule.id
                     CitationStyleConsistentRule.category) fs.
Proof. unfold CitationStyleConsistentRule.run. attributed_after_citations. Qed.

Lemma instance_attributed doc ai c i cat sev
      (f : DocumentModel -> option AIAnnotations -> list Finding) :
  (forall doc ai, Forall (attributed i cat) (f doc ai)) ->
  findings_attributed doc ai (instance c i cat sev f).
Proof. intros H fs. cbn. intros [= <-]. apply H. Qed.

(** X9: every finding a registered rule returns carries the id and the
    category of that rule, and its severity is info, warn or error. *)
Theorem findings_name_their_rule (doc : DocumentModel) (ai : option AIAnnotations) :
  Forall (findings_attributed doc ai) get_all_rules.
Proof.
  unfold get_all_rules.
  repeat apply Forall_cons_2; [..|apply Forall_nil_2].
  - apply instance_attributed. exact RequiredChaptersRule_attributed.
  - apply instance_attributed. exact TableOfContentsExistsRule_attributed.
  - intros fs. apply HeadingHierarchyRule_attributed.
  - intros fs. apply HeadingDepthRule_attributed.
  - apply instance_attributed. exact HeadingsMustBeNumberedRule_attributed.
  - apply instance_attributed. exact HeadingNumberingNoGapsRule_attributed.
  - apply instance_attributed. exact ResearchQuestionExistsRule_attributed.
  - apply instance_attributed. exact ResearchQuestionInIntroRule_attributed.
  - apply instance_attributed. exact ResearchKeyTermsConsistencyRule_attributed.
  - apply instance_attributed. intros. apply rq_reference_attributed.
  - apply instance_attributed. intros. apply rq_reference_attributed.
  - apply instance_attributed. exact ChapterOrderPlausibleRule_attributed.
  - apply instance_attributed. exact ChapterLengthBalancedRule_attributed.
  - apply instance_attributed. exact MethodChapterExistsRule_attributed.
  - apply instance_attributed. exact MethodDetailSufficientRule_attributed.
  - apply instance_attributed. exact ResultsDiscussionSeparationRule_attributed.
  - apply instance_attributed. exact LiteratureExistsRule_attributed.
  - intros fs. apply AllCitationsInReferenceListRule_attributed.
  - intros fs. apply NoUncitedReferencesRule_attributed.
  - intros fs. apply CitationStyleConsistentRule_attributed.
  - apply instance_attributed. exact ListOfFiguresExistsRule_attributed.
  - apply instance_attributed. exact ListOfTablesExistsRule_attributed.
  - apply instance_attributed. exact FiguresTablesReferencedRule_attributed.
Qed.

(** ** The references to figures and tables *)

Lemma le_refl a : Py.le a a = true.
Proof.
  induction a as [|x a IH]; [done|]. cbn [Py.le].
  by rewrite N.eqb_refl, IH, orb_true_r.
Qed.

Lemma le_total a b : Py.le a b = true \/ Py.le b a = true.
Proof.
  revert b. induction a as [|x a IH]; intros [|y b]; cbn [Py.le]; auto.
  destruct (N.lt_trichotomy x y) as [Hlt|[->|Hgt]].
  - left. apply N.ltb_lt in Hlt. by rewrite Hlt.
  - rewrite N.eqb_refl, N.ltb_irrefl. cbn [orb andb]. apply IH.
  - right. apply N.ltb_lt in Hgt. by rewrite Hgt.
Qed.

Lemma le_cons_inv x a y b :
  Py.le (x :: a) (y :: b) = true -> (x < y)%N \/ (x = y /\ Py.le a b = true).
Proof.
  cbn [Py.le]. intros [H%N.ltb_lt|[H1%N.eqb_eq H2]%andb_true_iff]%orb_true_iff; auto.
Qed.

Lemma le_trans a b c : Py.le a b = true -> Py.le b c = true -> Py.le a c = true.
Proof.
  revert b c. induction a as [|x a IH]; intros [|y b] [|z c]; try done.
  intros Hab Hbc. apply le_cons_inv in Hab, Hbc. cbn [Py.le].
  destruct Hab as [H1|[E1 H1]], Hbc as [H2|[E2 H2]].
  - assert (H : (x < z)%N) by lia. apply N.ltb_lt in H. by rewrite H.
  - subst z. apply N.ltb_lt in H1. by rewrite H1.
  - subst y. apply N.ltb_lt in H2. by rewrite H2.
  - subst y z. rewrite N.eqb_refl, (IH _ _ H1 H2). apply orb_true_r.
Qed.

Lemma le_antisym a b : Py.le a b = true -> Py.le b a = true -> a = b.
Proof.
  revert b. induction a as [|x a IH]; intros [|y b]; try done.
  intros Hab Hba. apply le_cons_inv in Hab, Hba.
  destruct Hab as [H1|[E1 H1]], Hba as [H2|[E2 H2]]; try lia.
  subst y. f_equal. by apply IH.
Qed.

Lemma insert_sorted_le x l :
  StronglySorted (fun a b => Py.le a b = true) l ->
  StronglySorted (fun a b => Py.le a b = true) (Py.insert_sorted Py.le x l).
Proof.
  induction 1 as [|y l Hs IH Hall]; cbn [Py.insert_sorted].
  - repeat constructor.
  - destruct (Py.le x y) eqn:Hxy.
    + constructor; [by constructor|]. constructor; [done|].
      eapply Forall_impl; [exact Hall|]. intros z Hz. by apply (le_trans Hxy).
    + constructor; [done|]. rewrite insert_sorted_Permutation.
      constructor; [|done]. destruct (le_total x y); congruence.
Qed.

Lemma sorted_le l : StronglySorted (fun a b => Py.le a b = true) (Py.sorted Py.le l).
Proof.
  unfold Py.sorted. induction l as [|x l IH]; cbn [foldr]; [constructor|].
  by apply insert_sorted_le.
Qed.

Lemma unique_elem x l : x ∈ Py.unique l <-> x ∈ l.
Proof.
  induction l as [|y l IH]; cbn [Py.unique]; [done|].
  rewrite !elem_of_cons, list_elem_of_filter, IH. split.
  - intros [Heq|[Hne Hin]]; [by left|by right].
  - intros [Heq|Hin]; [by left|].
    destruct (decide (x = y)) as [Heq|Hne]; [by left|by right].
Qed.

Lemma unique_NoDup l : NoDup (Py.unique l).
Proof.
  induction l as [|y l IH]; cbn [Py.unique]; [constructor|].
  constructor; [|by apply NoDup_filter].
  by intros [Hne _]%list_elem_of_filter.
Qed.

Lemma sorted_NoDup_ascending l :
  StronglySorted (fun a b => Py.le a b = true) l -> NoDup l ->
  StronglySorted ascending l.
Proof.
  induction 1 as [|x l Hs IH Hall]; intros Hnd; [constructor|].
  apply NoDup_cons in Hnd as [Hx Hnd]. constructor; [by apply IH|].
  apply Forall_forall. intros y Hy. rewrite Forall_forall in Hall.
  split; [by apply Hall|]. by intros ->.
Qed.

Lemma sorted_unique_ascending l :
  StronglySorted ascending (Py.sorted Py.le (Py.unique l))
  /\ forall x, x ∈ Py.sorted Py.le (Py.unique l) <-> x ∈ l.
Proof.
  split.
  - apply sorted_NoDup_ascending; [apply sorted_le|].
    rewrite sorted_Permutation. apply unique_NoDup.
  - intros x. by rewrite sorted_Permutation, unique_elem.
Qed.

(** X10: the figure references and the table references of a document
    model the extractor builds are strictly ascending in the order of
    strings, so they hold no duplicate; they are exactly the matches of
    Abbildung n and of Tabelle n in the joined paragraphs, in title
    case. *)
Theorem references_are_ascending (name : str) (root : Element) (tables : nat) :
  let doc := extract_docx name root tables in
  let text := joined_text (paragraphs doc) in
  StronglySorted ascending (figure_refs doc)
  /\ StronglySorted ascending (table_refs doc)
  /\ (forall x, x ∈ figure_refs doc
                <-> x ∈ map Py.title (Re.findall (reference_re (u "Abbildung")) text))
  /\ (forall x, x ∈ table_refs doc
                <-> x ∈ map Py.title (Re.findall (reference_re (u "Tabelle")) text)).
Proof.
  cbv zeta. unfold extract_docx.
  destruct (_extract_paragraphs_and_headings_from_xml root) as [ps hs].
  unfold _extract_references. cbv zeta. cbn [figure_refs table_refs paragraphs].
  split; [apply sorted_unique_ascending|].
  split; [apply sorted_unique_ascending|].
  split; apply sorted_unique_ascending.
Qed.

(** ** The literature rules agree *)








(** ** Expanded citation blocks *)

Lemma finditer_from_sound s r fuel i m :
  In m (Re.finditer_from s r fuel i) ->
  exists st, In st (Re.run s r (Re.MState (Re.m_start m) []))
             /\ Re.m_end m = Re.pos st /\ Re.m_caps m = Re.caps st.
Proof.
  revert i. induction fuel as [|f IH]; intros i; cbn [Re.finditer_from]; [done|].
  destruct (Re.search_from s r (length s - i) i) as [m0|] eqn:Hsearch; [|done].
  intros [<-|Hin].
  - apply search_from_Some in Hsearch as (k & st & l & _ & Hrun & ->).
    exists st. cbn [Re.m_start Re.m_end Re.m_caps]. rewrite Hrun. split; [by left|done].
  - destruct (Re.m_start m0 <? Re.m_end m0); [by apply (IH _ Hin)|].
    destruct (Re.m_end m0 <? length s); [by apply (IH _ Hin)|done].
Qed.











(** ** The paragraphs of the extractor *)

Lemma lstrip_head s :
  Py.lstrip s = [] \/ exists c r, Py.lstrip s = c :: r /\ unicodedata.isspace c = false.
Proof.
  induction s as [|c s IH]; [by left|]. cbn [Py.lstrip].
  destruct (unicodedata.isspace c) eqn:Hc; [exact IH|]. right. by exists c, s.
Qed.

Lemma lstrip_idem s : Py.lstrip (Py.lstrip s) = Py.lstrip s.
Proof.
  destruct (lstrip_head s) as [->|(c & r & -> & Hc)]; [done|]. by apply lstrip_id.
Qed.

Lemma lstrip_app_nonspace l c :
  unicodedata.isspace c = false -> exists l', Py.lstrip (l ++ [c]) = l' ++ [c].
Proof.
  intros Hc. induction l as [|d l IH]; cbn [app Py.lstrip].
  - rewrite Hc. by exists [].
  - destruct (unicodedata.isspace d); [exact IH|]. by exists (d :: l).
Qed.

Lemma rstrip_keeps_head c r :
  unicodedata.isspace c = false -> exists r', Py.rstrip (c :: r) = c :: r'.
Proof.
  intros Hc. unfold Py.rstrip. cbn [rev].
  destruct (lstrip_app_nonspace (rev r) Hc) as [l' ->].
  exists (rev l'). by rewrite rev_app_distr.
Qed.

Lemma rstrip_idem s : Py.rstrip (Py.rstrip s) = Py.rstrip s.
Proof. unfold Py.rstrip. by rewrite rev_involutive, lstrip_idem. Qed.

Lemma strip_idem s : Py.strip (Py.strip s) = Py.strip s.
Proof.
  unfold Py.strip. destruct (lstrip_head s) as [->|(c & r & -> & Hc)]; [done|].
  destruct (rstrip_keeps_head r Hc) as [r' Hr]. rewrite Hr.
  rewrite (lstrip_id _ Hc), <- Hr. apply rstrip_idem.
Qed.

Lemma replace_nbsp s : Forall (fun c => c <> nbsp) (Py.replace_chr nbsp (u " ") s).
Proof.
  unfold Py.replace_chr. induction s as [|c s IH]; cbn [flat_map]; [constructor|].
  apply Forall_app. split; [|done].
  destruct (N.eqb_spec c nbsp); by repeat constructor.
Qed.

(** X13: every paragraph of a document model the extractor builds is
    stripped (it neither starts nor ends with white space: stripping it
    again changes nothing) and holds no no-break space; there is one
    paragraph, possibly empty, for every paragraph the body walk yields. *)
Theorem paragraphs_are_stripped (name : str) (root : Element) (tables : nat) :
  let doc := extract_docx name root tables in
  Forall (fun p => Py.strip p = p /\ Forall (fun c => c <> nbsp) p) (paragraphs doc)
  /\ length (paragraphs doc)
     = match ET.find_desc (wtag (u "body")) root with
       | Some body => length (_walk_body_paragraphs body)
       | None => 0
       end.
Proof.
  cbv zeta. unfold extract_docx, _extract_paragraphs_and_headings_from_xml.
  destruct (ET.find_desc (wtag (u "body")) root) as [body|].
  - rewrite extract_loop_paragraphs. cbn [initial_state st_paragraphs app].
    destruct (_extract_references _). cbn [paragraphs]. split; [|by rewrite length_map].
    apply Forall_forall. intros p (pb & <- & _)%list_elem_of_In%in_map_iff.
    unfold _p_text. cbv zeta. split; [apply strip_idem|].
    apply Forall_strip, replace_nbsp.
  - destruct (_extract_references _). cbn [paragraphs]. split; [constructor|done].
Qed.

(** ** Gaps in the numbering *)


Lemma consecutive_from_nil e : consecutive_from e [].
Proof. reflexivity. Qed.















(** The finding at hand has another severity than the one assumed. *)
Ltac wrong_severity :=
  let H := fresh in intros H; cbn [severity] in H; vm_compute in H; discriminate H.


(** ** Bracketed citation blocks *)

Lemma search_from_complete s r fuel i k :
  i <= k <= i + fuel -> Re.match_at s r k <> None ->
  Re.search_from s r fuel i <> None.
Proof.
  revert i. induction fuel as [|f IH]; intros i Hk Hm; cbn [Re.search_from].
  - assert (k = i) as -> by lia. by destruct (Re.match_at s r i).
  - destruct (Re.match_at s r i) eqn:Hi; [done|].
    apply IH; [|done]. destruct (decide (k = i)) as [->|]; [congruence|lia].
Qed.

Lemma star_loop_nonempty greedy step fuel st : Re.star_loop greedy step fuel st <> [].
Proof.
  destruct fuel; cbn [Re.star_loop]; [done|]. cbv zeta.
  destruct greedy; [|done]. intros [_ H]%app_eq_nil. discriminate.
Qed.

Lemma digits_match_at s k c :
  s !! k = Some c -> unicodedata.isdecimal c = true ->
  Re.match_at s (Re.plus Re.d) k <> None.
Proof.
  intros Hk Hc. unfold Re.match_at, Re.plus, Re.d. cbn [Re.run Re.pos].
  rewrite Hk, Hc. cbn [flat_map]. rewrite app_nil_r.
  destruct (Re.star_loop _ _ _ _) eqn:Hloop; [|done].
  by apply star_loop_nonempty in Hloop.
Qed.

Lemma findall_digits_nonempty s :
  Exists (fun c => unicodedata.isdecimal c = true) s ->
  Re.findall (Re.plus Re.d) s <> [].
Proof.
  intros (c & Hin & Hc)%Exists_exists. apply list_elem_of_lookup in Hin as [k Hk].
  pose proof (lookup_lt_Some _ _ _ Hk) as Hlt.
  unfold Re.findall, Re.finditer. cbn [Re.finditer_from]. rewrite Nat.sub_0_r.
  destruct (Re.search_from s (Re.plus Re.d) (length s) 0) eqn:Hs; [done|].
  exfalso. revert Hs. apply (@search_from_complete s _ (length s) 0 k); [lia|].
  by apply (digits_match_at Hk).
Qed.

Lemma replace_chr_keeps (P : char -> bool) old new s :
  P old = false -> Exists (fun c => P c = true) s ->
  Exists (fun c => P c = true) (Py.replace_chr old new s).
Proof.
  intros Hold. unfold Py.replace_chr.
  induction 1 as [c s Hc|c s Hs IH]; cbn [flat_map].
  - destruct (N.eqb_spec c old) as [->|_]; [congruence|]. by left.
  - apply Exists_app. by right.
Qed.

(** What lies between the brackets of a block holds a decimal digit. *)
Lemma lang_block_digit x :
  lang (Re.seq [Re.LazyStar not_rbracket; Re.d; Re.LazyStar not_rbracket]) x ->
  Exists (fun c => unicodedata.isdecimal c = true) x.
Proof.
  unfold Re.seq. cbn [foldr]. intros H.
  inversion H as [| |a b x1 y1 Hx1 Hy1| | | | | | | | | |]; subst.
  inversion Hy1 as [| |a b x2 y2 Hx2 Hy2| | | | | | | | | |]; subst.
  unfold Re.d in Hx2. inversion Hx2 as [|p c Hc| | | | | | | | | | |]; subst.
  apply Exists_app. right. by left.
Qed.

Lemma bracket_block_digit text b :
  In b (Re.findall1 BRACKET_BLOCK_RE text) ->
  Exists (fun c => unicodedata.isdecimal c = true) b.
Proof.
  unfold Re.findall1, Re.finditer. intros (m & <- & Hm)%in_map_iff.
  apply finditer_from_sound in Hm as (st & Hin & _ & Hcaps).
  unfold BRACKET_BLOCK_RE in Hin. unfold Re.seq at 1 in Hin. cbn [foldr] in Hin.
  apply in_run_Cat in Hin as (st1 & H1 & Hin).
  apply in_run_Cat in Hin as (st2 & H2 & Hin).
  apply in_run_Cat in Hin as (st3 & H3 & Hin).
  apply (run_group_free (r := Re.Eps) eq_refl) in Hin.
  apply (run_group_free (r := Re.chr (cp "]")) eq_refl) in H3.
  apply in_run_Group in H2 as (st2' & H2 & ->).
  pose proof (run_group_free (r := Re.seq [Re.LazyStar not_rbracket; Re.d;
                                           Re.LazyStar not_rbracket]) eq_refl H2) as Hc2.
  apply (run_group_free (r := Re.chr (cp "[")) eq_refl) in H1.
  apply run_sound in H2 as [_ Hlang]. apply lang_block_digit in Hlang.
  unfold Re.group. rewrite Hcaps, Hin, H3. cbn [Re.caps find fst Nat.eqb].
  exact Hlang.
Qed.

Lemma filter_all {A} (f : A -> bool) l :
  (forall x, In x l -> f x = true) -> List.filter f l = l.
Proof.
  induction l as [|x l IH]; intros H; cbn [List.filter]; [done|].
  rewrite (H x) by (by left). f_equal. apply IH. intros y Hy. apply H. by right.
Qed.

(** X15: every bracketed block that BRACKET_BLOCK_RE finds is counted:
    the test for digits that [_extract_citation_signals] applies to a block
    never fails, so [numeric_count] is the number of blocks found in the
    joined paragraphs, the blocks which the literature rules expand. *)
Theorem numeric_count_is_block_count (paragraphs : list str) :
  let text := joined_text paragraphs in
  numeric_count (_extract_citation_signals paragraphs)
  = length (Re.findall1 BRACKET_BLOCK_RE text)
  /\ Forall (fun b => Exists (fun c => unicodedata.isdecimal c = true) b
                      /\ Re.findall (Re.plus Re.d) (ascii_dashes b) <> [])
            (Re.findall1 BRACKET_BLOCK_RE text).
Proof.
  cbv zeta.
  assert (Hall : Forall (fun b => Exists (fun c => unicodedata.isdecimal c = true) b
                                  /\ Re.findall (Re.plus Re.d) (ascii_dashes b) <> [])
                        (Re.findall1 BRACKET_BLOCK_RE (joined_text paragraphs))).
  { apply Forall_forall. intros b Hb%list_elem_of_In%bracket_block_digit.
    split; [done|]. apply findall_digits_nonempty. unfold ascii_dashes.
    apply replace_chr_keeps; [reflexivity|]. by apply replace_chr_keeps. }
  split; [|exact Hall].
  unfold _extract_citation_signals. cbv zeta. cbn [numeric_count].
  rewrite filter_all; [done|].
  intros b Hb%list_elem_of_In. rewrite Forall_forall in Hall.
  destruct (Hall b Hb) as [_ Hne].
  by destruct (Re.findall (Re.plus Re.d) (ascii_dashes b)).
Qed.

(** ** [str] and [int] are inverse on the numbers of headings *)













(** ** Completeness of the matcher *)

Lemma accepts_bound s r i j :
  accepts s r i j -> i <= j /\ (i < j -> j <= length s).
Proof.
  induction 1 as [i|p i c Hc Hp|a b i j k _ [H1 B1] _ [H2 B2]
                  |a b i j _ IH|a b i j _ IH
                  |r i|r i j k _ [H1 B1] Hlt _ [H2 B2]
                  |r i|r i j k _ [H1 B1] Hlt _ [H2 B2]
                  | |i He|i Hw|n r i j _ IH]; try (split; lia); try done.
  apply lookup_lt_Some in Hc. split; lia.
Qed.

Lemma star_loop_self greedy step fuel st : In st (Re.star_loop greedy step fuel st).
Proof.
  destruct fuel; cbn [Re.star_loop]; [by left|]. cbv zeta.
  destruct greedy; [apply in_or_app; right|]; by left.
Qed.

Lemma star_loop_more greedy step fuel st st1 st' :
  In st1 (step st) -> Re.pos st < Re.pos st1 ->
  In st' (Re.star_loop greedy step fuel st1) ->
  In st' (Re.star_loop greedy step (S fuel) st).
Proof.
  intros H1 Hlt H'. cbn [Re.star_loop]. cbv zeta.
  assert (Hmore : In st' (flat_map (fun st0 => if Re.pos st <? Re.pos st0
                                               then Re.star_loop greedy step fuel st0
                                               else []) (step st))).
  { apply in_flat_map. exists st1. split; [done|].
    apply Nat.ltb_lt in Hlt. by rewrite Hlt. }
  destruct greedy; [apply in_or_app; by left|by right].
Qed.

(** Every way in which the pattern can consume the subject is among the
    states the matcher reaches. *)
Lemma run_complete s r i j :
  accepts s r i j ->
  (forall caps, exists st', In st' (Re.run s r (Re.MState i caps)) /\ Re.pos st' = j)
  /\ (forall greedy r', repeated r = Some (greedy, r') ->
      forall fuel caps, length s - i < fuel ->
        exists st', In st' (Re.star_loop greedy (Re.run s r') fuel (Re.MState i caps))
                    /\ Re.pos st' = j).
Proof.
  induction 1 as [i|p i c Hc Hp|a b i j k _ [IH1 _] _ [IH2 _]
                  |a b i j _ [IH _]|a b i j _ [IH _]
                  |r i|r i j k Hr [IH1 _] Hlt _ [IH2 IH2']
                  |r i|r i j k Hr [IH1 _] Hlt _ [IH2 IH2']
                  | |i He|i Hw|n r i j _ [IH _]];
    (split; [intros caps|intros greedy r' Hrep fuel caps Hfuel; try discriminate]);
    cbn [Re.run Re.pos Re.caps].
  - eexists. split; [by left|done].
  - rewrite Hc, Hp. eexists. split; [by left|done].
  - destruct (IH1 caps) as ([p1 c1] & Hin1 & Hp1). cbn [Re.pos] in Hp1. subst p1.
    destruct (IH2 c1) as (st2 & Hin2 & Hp2).
    exists st2. split; [|done]. apply in_flat_map. by eexists.
  - destruct (IH caps) as (st' & Hin & Hp). exists st'. split; [|done].
    apply in_or_app. by left.
  - destruct (IH caps) as (st' & Hin & Hp). exists st'. split; [|done].
    apply in_or_app. by right.
  - eexists. split; [apply star_loop_self|done].
  - eexists. split; [apply star_loop_self|done].
  - destruct (accepts_bound Hr) as [_ Hb]. specialize (Hb Hlt).
    destruct (IH1 caps) as ([p1 c1] & Hin1 & Hp1). cbn [Re.pos] in Hp1. subst p1.
    destruct (IH2' true r eq_refl (length s - i) c1) as (st' & Hin' & Hp'); [lia|].
    exists st'. split; [|done].
    by apply (star_loop_more (st1 := Re.MState j c1)).
  - injection Hrep as <- <-.
    destruct (accepts_bound Hr) as [_ Hb]. specialize (Hb Hlt).
    destruct fuel as [|f]; [lia|].
    destruct (IH1 caps) as ([p1 c1] & Hin1 & Hp1). cbn [Re.pos] in Hp1. subst p1.
    destruct (IH2' true r eq_refl f c1) as (st' & Hin' & Hp'); [lia|].
    exists st'. split; [|done].
    by apply (star_loop_more (st1 := Re.MState j c1)).
  - eexists. split; [apply star_loop_self|done].
  - eexists. split; [apply star_loop_self|done].
  - destruct (accepts_bound Hr) as [_ Hb]. specialize (Hb Hlt).
    destruct (IH1 caps) as ([p1 c1] & Hin1 & Hp1). cbn [Re.pos] in Hp1. subst p1.
    destruct (IH2' false r eq_refl (length s - i) c1) as (st' & Hin' & Hp'); [lia|].
    exists st'. split; [|done].
    by apply (star_loop_more (st1 := Re.MState j c1)).
  - injection Hrep as <- <-.
    destruct (accepts_bound Hr) as [_ Hb]. specialize (Hb Hlt).
    destruct fuel as [|f]; [lia|].
    destruct (IH1 caps) as ([p1 c1] & Hin1 & Hp1). cbn [Re.pos] in Hp1. subst p1.
    destruct (IH2' false r eq_refl f c1) as (st' & Hin' & Hp'); [lia|].
    exists st'. split; [|done].
    by apply (star_loop_more (st1 := Re.MState j c1)).
  - eexists. split; [by left|done].
  - rewrite He. eexists. split; [by left|done].
  - rewrite Hw. eexists. split; [by left|done].
  - destruct (IH caps) as (st' & Hin & Hp). eexists. split.
    + apply in_map_iff. exists st'. split; [reflexivity|done].
    + done.
Qed.

















(** ** Tokens hold no umlaut *)

Lemma no_umlaut_code c : no_umlaut c <-> (c <> 228 /\ c <> 246 /\ c <> 252)%N.
Proof. reflexivity. Qed.

Lemma accent_no_umlaut k : no_umlaut (unicodedata.accent_of k).
Proof.
  apply no_umlaut_code. unfold unicodedata.accent_of.
  destruct k as [|[[[]|[]|]|[[]|[]|]|]]; lia.
Qed.

Lemma decompose_upper_shape c r :
  unicodedata.decompose_upper c = Some r ->
  exists b m, r = [b; m] /\ (65 <= b <= 89)%N /\ no_umlaut m.
Proof.
  unfold unicodedata.decompose_upper.
  repeat match goal with
         | |- context [if ?b then _ else _] => destruct b
         end; intros [= <-]; (eexists _, _; split; [reflexivity|]);
    (split; [lia|]); try apply accent_no_umlaut; apply no_umlaut_code; lia.
Qed.

Lemma decompose_shape c r :
  unicodedata.decompose c = Some r ->
  exists b m, r = [b; m] /\ (65 <= b <= 121)%N /\ no_umlaut m.
Proof.
  unfold unicodedata.decompose.
  destruct (c =? 255)%N.
  { intros [= <-]. eexists _, _. split; [reflexivity|]. split; [lia|].
    apply no_umlaut_code. lia. }
  destruct (in_range 224%N 253%N c).
  - destruct (unicodedata.decompose_upper (c - 32)%N) as [r'|] eqn:Hd; [|discriminate].
    apply decompose_upper_shape in Hd as (b & m & -> & Hb & Hm).
    intros [= <-]. exists (b + 32)%N, m. split; [done|]. split; [lia|done].
  - intros (b & m & -> & Hb & Hm)%decompose_upper_shape.
    exists b, m. split; [done|]. split; [lia|done].
Qed.

Lemma NFKD_no_umlaut s : Forall no_umlaut (unicodedata.normalize_NFKD s).
Proof.
  unfold unicodedata.normalize_NFKD. induction s as [|c s IH]; cbn [flat_map].
  - constructor.
  - apply Forall_app. split; [|done].
    destruct (unicodedata.compat c) as [r|] eqn:Hcompat.
    + revert Hcompat. unfold unicodedata.compat.
      repeat match goal with
             | |- context [if ?b then _ else _] => destruct b
             end; intros [= <-]; repeat constructor; apply no_umlaut_code; lia.
    + destruct (unicodedata.decompose c) as [r|] eqn:Hd.
      * apply decompose_shape in Hd as (b & m & -> & Hb & Hm).
        constructor; [apply no_umlaut_code; lia|]. constructor; [done|constructor].
      * constructor; [|constructor]. apply no_umlaut_code.
        assert (Hc : (c = 228 \/ c = 246 \/ c = 252
                      \/ (c <> 228 /\ c <> 246 /\ c <> 252))%N) by lia.
        destruct Hc as [->|[->|[->|Hc]]]; [by vm_compute in Hd..|done].
Qed.

Lemma Forall_findall (P : char -> Prop) r s :
  Forall P s -> Forall (Forall P) (Re.findall r s).
Proof.
  intros Hs. unfold Re.findall. apply Forall_forall.
  intros x (m & <- & _)%list_elem_of_In%in_map_iff.
  unfold Re.group0, Re.span. by apply Forall_take, Forall_drop.
Qed.

Lemma normalize_no_umlaut s : Forall no_umlaut (research._normalize s).
Proof.
  unfold research._normalize. cbv zeta.
  apply Forall_strip, Forall_sub; [|repeat constructor; apply no_umlaut_code; by vm_compute].
  apply Forall_sub; [|repeat constructor; apply no_umlaut_code; by vm_compute].
  apply Forall_sub; [|repeat constructor; apply no_umlaut_code; by vm_compute].
  apply Forall_list_filter, NFKD_no_umlaut.
Qed.

(** X18: no token of [_tokenize] holds an ä, ö or ü, because
    [_normalize] decomposes the letters and drops the combining marks
    before the pattern of the tokens is applied.  The stop words für and
    über therefore never equal a token: the question
    „Maßnahmen für Kinder“ yields the candidate term fur. *)
Theorem tokens_hold_no_umlaut (text : str) :
  Forall (Forall no_umlaut) (research._tokenize text)
  /\ (u "für" ∉ research._tokenize text)
  /\ (u "über" ∉ research._tokenize text)
  /\ research._extract_candidate_terms (u "Maßnahmen für Kinder") 8
     = [u "maßnahmen"; u "kinder"; u "fur"].
Proof.
  assert (Hall : Forall (Forall no_umlaut) (research._tokenize text)).
  { unfold research._tokenize. apply Forall_findall, normalize_no_umlaut. }
  split; [done|]. rewrite Forall_forall in Hall.
  split; [|split].
  - intros Hin%Hall. change (u "für") with [102; 252; 114]%N in Hin.
    apply Forall_cons in Hin as [_ Hin].
    apply Forall_cons in Hin as [(_ & _ & Hin) _]. by apply Hin.
  - intros Hin%Hall. change (u "über") with [252; 98; 101; 114]%N in Hin.
    apply Forall_cons in Hin as [(_ & _ & Hin) _]. by apply Hin.
  - vm_compute. reflexivity.
Qed.

(** ** The threshold of RQ-004 and RQ-005 *)

Lemma candidate_terms_length rq_text max_terms :
  length (research._extract_candidate_terms rq_text max_terms) <= max_terms.
Proof.
  unfold research._extract_candidate_terms. cbv zeta.
  destruct (List.filter _ _); [cbn; lia|]. rewrite length_take. lia.
Qed.

Lemma needed_is_two terms : length terms <= 8 -> research.needed terms = 2.
Proof.
  unfold research.needed. intros Hlen.
  assert (H : 35 * length terms / 100 < 3).
  { apply Nat.Div0.div_lt_upper_bound. lia. }
  lia.
Qed.

Lemma rq_reference_spec id category key m1 m2 m3 m4 m5 m6 doc ai :
  exists f, rq_reference.run id category key m1 m2 m3 m4 m5 m6 doc ai = [f]
            /\ (severity f = u "info" \/ severity f = u "warn")
            /\ (severity f = u "info"
                <-> exists sec source,
                    sections doc !! key = Some sec
                    /\ research.rq_source doc ai = Some source
                    /\ 2 <= length (term_hits source sec)).
Proof.
  unfold rq_reference.run. cbv zeta.
  destruct (sections doc !! key) as [sec|].
  2: { eexists. split; [reflexivity|]. split; [by right|].
       split; [wrong_severity|]. by intros (? & ? & ? & _). }
  destruct (research.rq_source doc ai) as [source|].
  2: { eexists. split; [reflexivity|]. split; [by right|].
       split; [wrong_severity|]. by intros (? & ? & _ & ? & _). }
  assert (Hhits : term_hits source sec
                  = List.filter (fun t => Py.mem t (research._tokenize (sec_text sec)))
                                (research._extract_candidate_terms source 8))
    by reflexivity.
  pose proof (needed_is_two (candidate_terms_length source 8)) as Hneed.
  revert Hhits Hneed.
  generalize (research._extract_candidate_terms source 8).
  intros terms Hhits Hneed. rewrite Hneed, <- Hhits.
  assert (Hnone : terms = [] -> length (term_hits source sec) = 0).
  { rewrite Hhits. by intros ->. }
  clear Hhits Hneed.
  destruct (Nat.leb_spec 2 (length (term_hits source sec))) as [Hge|Hlt].
  - destruct terms as [|t terms].
    { specialize (Hnone eq_refl). lia. }
    eexists. split; [reflexivity|]. split; [by left|].
    split; [intros _; by exists sec, source|done].
  - assert (Hwarn : forall f : Finding,
               severity f = u "warn" ->
               (severity f = u "info" \/ severity f = u "warn")
               /\ (severity f = u "info"
                   <-> exists sec0 source0,
                       Some sec = Some sec0 /\ Some source = Some source0
                       /\ 2 <= length (term_hits source0 sec0))).
    { intros f Hf. split; [by right|]. split.
      - rewrite Hf. intros H. vm_compute in H. discriminate H.
      - intros (sec' & source' & Hs & Hq & Hhits).
        injection Hs as <-. injection Hq as <-. lia. }
    destruct terms as [|t terms];
      (eexists; split; [reflexivity|]; by apply Hwarn).
Qed.

(** X19: the share of 35 percent that RQ-004 and RQ-005 ask for never
    counts: [_extract_candidate_terms] returns at most eight terms, for
    which the number of needed hits is 2.  Each of the two rules returns
    one finding, of severity info or warn, and it is info exactly when the
    section and a research question are found and two or more of the
    candidate terms occur among the tokens of the section; a question with
    a single candidate term is never reported as referred to. *)
Theorem research_question_threshold (doc : DocumentModel) (ai : option AIAnnotations)
        (source : str) :
  research.needed (research._extract_candidate_terms source 8) = 2
  /\ (exists f, ResearchQuestionReferencedInResultsRule.run doc ai = [f]
                /\ (severity f = u "info" \/ severity f = u "warn")
                /\ (severity f = u "info"
                    <-> exists sec rq,
                        sections doc !! u "ergebnisse" = Some sec
                        /\ research.rq_source doc ai = Some rq
                        /\ 2 <= length (term_hits rq sec)))
  /\ (exists f, ResearchQuestionReferencedInDiscussionRule.run doc ai = [f]
                /\ (severity f = u "info" \/ severity f = u "warn")
                /\ (severity f = u "info"
                    <-> exists sec rq,
                        sections doc !! u "diskussion" = Some sec
                        /\ research.rq_source doc ai = Some rq
                        /\ 2 <= length (term_hits rq sec))).
Proof.
  split; [apply needed_is_two, candidate_terms_length|].
  split; apply rq_reference_spec.
Qed.

(** ** The candidate terms of a research question *)

Lemma insert_sorted_by_key {A} (key : A -> nat) x l :
  StronglySorted (fun a b => key b <= key a) l ->
  StronglySorted (fun a b => key b <= key a)
                 (Py.insert_sorted (fun a b => key b <=? key a) x l).
Proof.
  induction 1 as [|y l Hl IH Hy]; cbn [Py.insert_sorted].
  - repeat constructor.
  - destruct (Nat.leb_spec (key y) (key x)) as [Hle|Hgt].
    + constructor; [by constructor|]. constructor; [done|].
      eapply Forall_impl; [exact Hy|]. cbn. intros z Hz. lia.
    + constructor; [done|].
      rewrite insert_sorted_Permutation. constructor; [lia|done].
Qed.

Lemma sorted_by_key {A} (key : A -> nat) l :
  StronglySorted (fun a b => key b <= key a)
                 (Py.sorted (fun a b => key b <=? key a) l).
Proof.
  induction l as [|x l IH]; cbn; [constructor|]. by apply insert_sorted_by_key.
Qed.

Lemma StronglySorted_app_inv {A} (R : A -> A -> Prop) l1 l2 :
  StronglySorted R (l1 ++ l2) ->
  StronglySorted R l1 /\ forall x y, x ∈ l1 -> y ∈ l2 -> R x y.
Proof.
  induction l1 as [|a l1 IH]; cbn [app]; intros H.
  - split; [constructor|]. intros x y Hx. by apply elem_of_nil in Hx.
  - inversion H as [|? ? Hs Hall]; subst. destruct (IH Hs) as [IH1 IH2].
    apply Forall_app in Hall as [Hl1 Hl2]. split; [by constructor|].
    intros x y Hx Hy. apply elem_of_cons in Hx as [->|Hx]; [|by apply IH2].
    rewrite Forall_forall in Hl2. by apply Hl2.
Qed.

(** X20: the candidate terms of a question are its best kept tokens:
    [_extract_candidate_terms] returns [max_terms] distinct terms, or all
    distinct kept tokens when there are fewer; every term is a token of
    the question that is no stop word and has three characters or more;
    the terms come in descending order of their score, and no kept token
    that is left out has a higher score than a term. *)
Theorem candidate_terms_are_top_scored (rq_text : str) (max_terms : nat) :
  length (research._extract_candidate_terms rq_text max_terms)
  = min max_terms (length (Py.unique (kept_tokens rq_text)))
  /\ NoDup (research._extract_candidate_terms rq_text max_terms)
  /\ (forall t, t ∈ research._extract_candidate_terms rq_text max_terms ->
                t ∈ research._tokenize rq_text
                /\ (t ∉ research.STOPWORDS_DE) /\ 3 <= length t)
  /\ StronglySorted
       (fun a b => research.score4 (kept_tokens rq_text) b
                   <= research.score4 (kept_tokens rq_text) a)
       (research._extract_candidate_terms rq_text max_terms)
  /\ (forall t t',
         t ∈ research._extract_candidate_terms rq_text max_terms ->
         t' ∈ kept_tokens rq_text ->
         t' ∉ research._extract_candidate_terms rq_text max_terms ->
         research.score4 (kept_tokens rq_text) t'
         <= research.score4 (kept_tokens rq_text) t).
Proof.
  assert (Hkept : forall t, t ∈ kept_tokens rq_text ->
                            t ∈ research._tokenize rq_text
                            /\ (t ∉ research.STOPWORDS_DE) /\ 3 <= length t).
  { intros t Ht. apply list_elem_of_In, filter_In in Ht as [Ht Hb].
    apply andb_true_iff in Hb as [Hs Hl].
    split; [by apply list_elem_of_In|]. split.
    - apply negb_true_iff in Hs. unfold Py.mem in Hs.
      by apply bool_decide_eq_false in Hs.
    - by apply Nat.leb_le. }
  unfold research._extract_candidate_terms. cbv zeta.
  revert Hkept. unfold kept_tokens.
  generalize (List.filter
                (fun t => negb (Py.mem t research.STOPWORDS_DE) && (3 <=? length t))
                (research._tokenize rq_text)).
  intros tokens Hkept.
  set (ranked := Py.sorted (fun a b => research.score4 tokens b
                                       <=? research.score4 tokens a)
                           (Py.unique tokens)).
  assert (Hperm : ranked ≡ₚ Py.unique tokens) by apply sorted_Permutation.
  assert (Hsorted : StronglySorted
                      (fun a b => research.score4 tokens b
                                  <= research.score4 tokens a) ranked)
    by apply (sorted_by_key (research.score4 tokens)).
  assert (Hnodup : NoDup ranked).
  { rewrite Hperm. apply unique_NoDup. }
  assert (Hspec :
    length (take max_terms ranked) = min max_terms (length (Py.unique tokens))
    /\ NoDup (take max_terms ranked)
    /\ (forall t, t ∈ take max_terms ranked ->
                  t ∈ research._tokenize rq_text
                  /\ (t ∉ research.STOPWORDS_DE) /\ 3 <= length t)
    /\ StronglySorted (fun a b => research.score4 tokens b
                                  <= research.score4 tokens a)
                      (take max_terms ranked)
    /\ (forall t t', t ∈ take max_terms ranked -> t' ∈ tokens ->
                     t' ∉ take max_terms ranked ->
                     research.score4 tokens t' <= research.score4 tokens t)).
  { rewrite <- (take_drop max_terms ranked) in Hsorted.
    split; [by rewrite length_take, Hperm|].
    split; [eapply sublist_NoDup; [done|apply sublist_take]|].
    split.
    { intros t Ht. apply Hkept.
      apply (proj1 (unique_elem t tokens)). rewrite <- Hperm.
      by apply (subseteq_take max_terms). }
    split; [by apply StronglySorted_app_inv in Hsorted as (? & _)|].
    intros t t' Ht Ht' Hnot.
    apply (proj2 (unique_elem t' tokens)) in Ht'. rewrite <- Hperm in Ht'.
    rewrite <- (take_drop max_terms ranked) in Ht'.
    apply elem_of_app in Ht' as [Ht'|Ht']; [done|].
    apply StronglySorted_app_inv in Hsorted as (_ & Hall). by apply Hall. }
  destruct tokens as [|t0 tokens']; [|exact Hspec].
  split; [cbn; lia|]. split; [constructor|].
  split; [intros t Ht; by apply elem_of_nil in Ht|].
  split; [constructor|]. intros t t' Ht; by apply elem_of_nil in Ht.
Qed.

(** ** The chapter rules *)

Lemma has_section_false_iff doc k : has_section doc k = false <-> sections doc !! k = None.
Proof.
  unfold has_section. rewrite bool_decide_eq_false, <- eq_None_not_Some. done.
Qed.

Lemma central_is_expected k : k ∈ central_chapters -> In k EXPECTED_ORDER.
Proof.
  intros Hk. unfold central_chapters in Hk.
  repeat (apply elem_of_cons in Hk as [->|Hk]);
    [..|by apply elem_of_nil in Hk];
    apply list_elem_of_In, (bool_decide_unpack _); vm_compute; exact I.
Qed.

Lemma missing_central doc :
  List.filter (fun key => negb (has_section doc key) && Py.mem key central_chapters)
              EXPECTED_ORDER = []
  <-> forall k, k ∈ central_chapters -> sections doc !! k <> None.
Proof.
  split.
  - intros Hnil k Hk Hnone.
    assert (Hin : In k (List.filter
                          (fun key => negb (has_section doc key)
                                      && Py.mem key central_chapters)
                          EXPECTED_ORDER)).
    { apply filter_In. split; [by apply central_is_expected|].
      apply andb_true_iff. split.
      - apply negb_true_iff. by apply has_section_false_iff.
      - unfold Py.mem. by apply bool_decide_eq_true. }
    rewrite Hnil in Hin. destruct Hin.
  - intros Hall.
    destruct (List.filter _ EXPECTED_ORDER) as [|k l] eqn:Hf; [done|].
    assert (Hin : In k (k :: l)) by (by left).
    rewrite <- Hf in Hin. apply filter_In in Hin as [_ Hk].
    apply andb_true_iff in Hk as [Hno Hc].
    apply negb_true_iff, has_section_false_iff in Hno.
    unfold Py.mem in Hc. apply bool_decide_eq_true in Hc.
    by destruct (Hall k Hc).
Qed.

(** X21: ChapterOrderPlausibleRule returns one finding, of severity info
    or warn, and never looks at the order of the chapters: it warns exactly
    when three or more of the expected chapters are present and one of
    theorie, methode, ergebnisse, diskussion is missing.  Whenever it
    warns, RequiredChaptersRule reports an error. *)
Theorem chapter_order_spec (doc : DocumentModel) (ai : option AIAnnotations) :
  exists f, ChapterOrderPlausibleRule.run doc ai = [f]
    /\ (severity f = u "info" \/ severity f = u "warn")
    /\ (severity f = u "warn"
        <-> 3 <= length (List.filter (has_section doc) EXPECTED_ORDER)
            /\ exists k, k ∈ central_chapters /\ sections doc !! k = None)
    /\ (severity f = u "warn" ->
        exists g, RequiredChaptersRule.run doc ai = [g]
                  /\ severity g = u "error").
Proof.
  assert (Hreq : (exists k, k ∈ central_chapters /\ sections doc !! k = None) ->
                 exists g, RequiredChaptersRule.run doc ai = [g]
                           /\ severity g = u "error").
  { intros (k & Hk & Hnone). unfold RequiredChaptersRule.run.
    destruct (RequiredChaptersRule.missing doc) as [|m ms] eqn:Hm.
    - exfalso.
      assert (Hin : In k (RequiredChaptersRule.missing doc)).
      { apply filter_In. split; [by apply central_is_expected|].
        apply negb_true_iff. by apply has_section_false_iff. }
      rewrite Hm in Hin. destruct Hin.
    - eexists. split; reflexivity. }
  unfold ChapterOrderPlausibleRule.run. cbv zeta.
  fold central_chapters.
  destruct (Nat.ltb_spec (length (List.filter (has_section doc) EXPECTED_ORDER)) 3)
    as [Hfew|Hmany].
  { eexists. split; [reflexivity|]. split; [by left|].
    split; [split; [wrong_severity|intros [? _]; lia]|wrong_severity]. }
  pose proof (missing_central doc) as Hmc.
  destruct (List.filter _ EXPECTED_ORDER) as [|k l] eqn:Hf in Hmc |- *.
  - eexists. split; [reflexivity|]. split; [by left|].
    split; [split; [wrong_severity|]|wrong_severity].
    intros (_ & k & Hk & Hnone). exfalso. by apply (proj1 Hmc eq_refl k).
  - assert (Hex : exists k, k ∈ central_chapters /\ sections doc !! k = None).
    { assert (Hin : In k (k :: l)) by (by left).
      rewrite <- Hf in Hin. apply filter_In in Hin as [_ Hk].
      apply andb_true_iff in Hk as [Hno Hc].
      apply negb_true_iff, has_section_false_iff in Hno.
      unfold Py.mem in Hc. apply bool_decide_eq_true in Hc. by exists k. }
    eexists. split; [reflexivity|]. split; [by right|].
    split; [split; [done|reflexivity]|]. intros _. by apply Hreq.
Qed.

Lemma arg_best_max best l :
  In (arg_best (fun a b => b <? a) best l) (best :: l)
  /\ Forall (fun kv => snd kv <= snd (arg_best (fun a b => b <? a) best l))
            (best :: l).
Proof.
  revert best. induction l as [|kv l IH]; intros best; cbn [arg_best].
  - split; [by left|]. by repeat constructor.
  - destruct (IH (if snd best <? snd kv then kv else best)) as [Hin Hall].
    apply Forall_cons in Hall as [Hb Hall].
    destruct (Nat.ltb_spec (snd best) (snd kv)) as [Hlt|Hge].
    + split; [destruct Hin as [<-|Hin]; [right; by left|right; by right]|].
      constructor; [lia|]. by constructor.
    + split; [destruct Hin as [<-|Hin]; [by left|right; by right]|].
      constructor; [done|]. constructor; [lia|done].
Qed.

Lemma arg_best_min best l :
  In (arg_best (fun a b => a <? b) best l) (best :: l)
  /\ Forall (fun kv => snd (arg_best (fun a b => a <? b) best l) <= snd kv)
            (best :: l).
Proof.
  revert best. induction l as [|kv l IH]; intros best; cbn [arg_best].
  - split; [by left|]. by repeat constructor.
  - destruct (IH (if snd kv <? snd best then kv else best)) as [Hin Hall].
    apply Forall_cons in Hall as [Hb Hall].
    destruct (Nat.ltb_spec (snd kv) (snd best)) as [Hlt|Hge].
    + split; [destruct Hin as [<-|Hin]; [right; by left|right; by right]|].
      constructor; [lia|]. by constructor.
    + split; [destruct Hin as [<-|Hin]; [by left|right; by right]|].
      constructor; [done|]. constructor; [lia|done].
Qed.

(** X22: ChapterLengthBalancedRule returns one finding, of severity info
    or warn.  It warns exactly when three or more of the expected chapters
    are present, the smallest of their word counts is positive and the
    largest is at least three times the smallest; a chapter without words
    therefore never leads to a warning. *)
Theorem chapter_length_spec (doc : DocumentModel) (ai : option AIAnnotations) :
  exists f, ChapterLengthBalancedRule.run doc ai = [f]
    /\ (severity f = u "info" \/ severity f = u "warn")
    /\ (severity f = u "warn"
        <-> 3 <= length (chapter_counts doc)
            /\ exists lo hi, lo ∈ chapter_counts doc /\ hi ∈ chapter_counts doc
                 /\ Forall (fun c => lo <= c <= hi) (chapter_counts doc)
                 /\ 0 < lo /\ 3 * lo <= hi)
    /\ (0 ∈ chapter_counts doc -> severity f = u "info").
Proof.
  unfold ChapterLengthBalancedRule.run, chapter_counts. cbv zeta.
  generalize (List.filter (has_section doc) EXPECTED_ORDER). intros keys.
  rewrite length_map.
  destruct (Nat.ltb_spec (length keys) 3) as [Hfew|Hmany].
  { eexists. split; [reflexivity|]. split; [by left|].
    split; [split; [wrong_severity|intros [? _]; lia]|reflexivity]. }
  assert (Hcounts : map (ChapterLengthBalancedRule.word_count_of doc) keys
                    = map snd (map (fun k => (k, ChapterLengthBalancedRule.word_count_of doc k))
                                   keys)).
  { rewrite map_map. reflexivity. }
  rewrite Hcounts. clear Hcounts.
  assert (Hlen : 3 <= length (map (fun k => (k, ChapterLengthBalancedRule.word_count_of doc k))
                                  keys)) by (by rewrite length_map).
  revert Hlen.
  generalize (map (fun k => (k, ChapterLengthBalancedRule.word_count_of doc k)) keys).
  intros counts Hlen.
  destruct counts as [|first rest]; [cbn in Hlen; lia|].
  change (default ([], 0) (head (first :: rest))) with first.
  cbn [tail].
  destruct (arg_best_max first rest) as [Hmax_in Hmax].
  destruct (arg_best_min first rest) as [Hmin_in Hmin].
  destruct (arg_best (fun a b => b <? a) first rest) as [max_k max_v].
  destruct (arg_best (fun a b => a <? b) first rest) as [min_k min_v].
  cbn [snd] in Hmax, Hmin.
  assert (Hlo : min_v ∈ map snd (first :: rest)).
  { apply list_elem_of_In, in_map_iff. by exists (min_k, min_v). }
  assert (Hhi : max_v ∈ map snd (first :: rest)).
  { apply list_elem_of_In, in_map_iff. by exists (max_k, max_v). }
  assert (Hbounds : Forall (fun c => min_v <= c <= max_v) (map snd (first :: rest))).
  { apply Forall_map. rewrite Forall_forall in Hmax, Hmin.
    apply Forall_forall. intros kv Hkv. split; [by apply Hmin|by apply Hmax]. }
  assert (Huniq : forall lo hi,
             lo ∈ map snd (first :: rest) -> hi ∈ map snd (first :: rest) ->
             Forall (fun c => lo <= c <= hi) (map snd (first :: rest)) ->
             lo = min_v /\ hi = max_v).
  { intros lo hi Hl Hh Hall. rewrite Forall_forall in Hall, Hbounds.
    pose proof (Hall _ Hlo). pose proof (Hall _ Hhi).
    pose proof (Hbounds _ Hl). pose proof (Hbounds _ Hh). lia. }
  destruct (Nat.ltb_spec 0 min_v) as [Hpos|Hzero]; cbn [andb].
  - destruct (Nat.leb_spec (3 * min_v) max_v) as [Hbig|Hsmall].
    + eexists. split; [reflexivity|]. split; [by right|]. split.
      * split; [|reflexivity]. intros _. split; [done|].
        by exists min_v, max_v.
      * intros H0. rewrite Forall_forall in Hbounds.
        pose proof (Hbounds _ H0). lia.
    + eexists. split; [reflexivity|]. split; [by left|]. split; [|reflexivity].
      split; [wrong_severity|].
      intros (_ & lo & hi & Hl & Hh & Hall & Hp & H3).
      destruct (Huniq lo hi Hl Hh Hall) as [-> ->]. lia.
  - eexists. split; [reflexivity|]. split; [by left|]. split; [|reflexivity].
    split; [wrong_severity|].
    intros (_ & lo & hi & Hl & Hh & Hall & Hp & H3).
    destruct (Huniq lo hi Hl Hh Hall) as [-> ->]. lia.
Qed.

(** ** A research question lies within a paragraph *)

Lemma run_accepts s r :
  forall st st', In st' (Re.run s r st) -> accepts s r (Re.pos st) (Re.pos st').
Proof.
  induction r as [|p|a IHa b IHb|a IHa b IHb|r IH|r IH| | | |i r IH];
    intros st st'; cbn [Re.run].
  - intros [<-|[]]. constructor.
  - destruct (s !! Re.pos st) as [c|] eqn:Hc; [|done].
    destruct (p c) eqn:Hp; [|done]. intros [<-|[]]. cbn [Re.pos].
    by apply accepts_Set with c.
  - intros (st1 & H1%IHa & H2%IHb)%in_flat_map. by apply accepts_Cat with (Re.pos st1).
  - intros [H%IHa|H%IHb]%in_app_or; [by apply accepts_Alt_l|by apply accepts_Alt_r].
  - apply (in_star_loop (R := fun st st' =>
             accepts s (Re.Star r) (Re.pos st) (Re.pos st'))).
    + intros st0. constructor.
    + intros st0 st1 st2 H1%IH Hlt H2. by apply accepts_Star_more with (Re.pos st1).
  - apply (in_star_loop (R := fun st st' =>
             accepts s (Re.LazyStar r) (Re.pos st) (Re.pos st'))).
    + intros st0. constructor.
    + intros st0 st1 st2 H1%IH Hlt H2.
      by apply accepts_LazyStar_more with (Re.pos st1).
  - destruct (Nat.eqb_spec (Re.pos st) 0) as [H0|]; [|done]. intros [<-|[]].
    rewrite H0. constructor.
  - destruct (Re.at_end s (Re.pos st)) eqn:He; [|done]. intros [<-|[]].
    by constructor.
  - destruct (Re.word_boundary s (Re.pos st)) eqn:Hw; [|done]. intros [<-|[]].
    by constructor.
  - intros (st1 & <- & H%IH)%in_map_iff. cbn [Re.pos]. by constructor.
Qed.

Lemma search_from_accepts s r fuel i m :
  Re.search_from s r fuel i = Some m ->
  exists k j, i <= k <= i + fuel /\ accepts s r k j.
Proof.
  revert i. induction fuel as [|f IH]; intros i; cbn [Re.search_from];
    unfold Re.match_at;
    destruct (Re.run s r (Re.MState i [])) as [|st l] eqn:Hrun.
  - discriminate.
  - intros _. exists i, (Re.pos st). split; [lia|].
    apply (@run_accepts s r (Re.MState i []) st). rewrite Hrun. by left.
  - intros (k & j & Hk & H)%IH. exists k, j. split; [lia|done].
  - intros _. exists i, (Re.pos st). split; [lia|].
    apply (@run_accepts s r (Re.MState i []) st). rewrite Hrun. by left.
Qed.

(** [re.search] finds a match exactly when the pattern can consume the
    subject from one of its positions. *)
Lemma found_accepts r s :
  Re.found r s = true <-> exists i j, i <= length s /\ accepts s r i j.
Proof.
  unfold Re.found, Re.search. rewrite bool_decide_eq_true. split.
  - intros [m Hm]. apply search_from_accepts in Hm as (k & j & Hk & Hacc).
    exists k, j. split; [lia|done].
  - intros (i & j & Hi & Hacc). apply run_complete in Hacc as [Hrun _].
    destruct (Hrun []) as (st' & Hin & _).
    assert (Hm : Re.match_at s r i <> None).
    { unfold Re.match_at. by destruct (Re.run s r (Re.MState i [])). }
    assert (Hs : Re.search_from s r (length s) 0 <> None).
    { apply search_from_complete with i; [lia|done]. }
    by destruct (Re.search_from s r (length s) 0).
Qed.

Lemma lookup_line (p rest : list N) i c :
  (p ++ 10%N :: rest) !! i = Some c ->
  (i < length p /\ p !! i = Some c)
  \/ (i = length p /\ c = 10%N)
  \/ (length p < i /\ rest !! (i - length p - 1) = Some c).
Proof.
  intros Hc. destruct (lt_eq_lt_dec i (length p)) as [[Hlt|Heq]|Hgt].
  - left. split; [done|]. by rewrite lookup_app_l in Hc by lia.
  - right; left. split; [done|]. subst i.
    rewrite list_lookup_middle in Hc by done. by injection Hc as <-.
  - right; right. split; [done|]. rewrite lookup_app_r in Hc by lia.
    by replace (i - length p) with (S (i - length p - 1)) in Hc by lia.
Qed.

Lemma lookup_after (p rest : list N) i :
  (p ++ 10%N :: rest) !! (length p + 1 + i) = rest !! i.
Proof.
  rewrite lookup_app_r by lia.
  by replace (length p + 1 + i - length p) with (S i) by lia.
Qed.

Lemma at_word_prefix p rest i :
  i <= length p -> Re.at_word (p ++ 10%N :: rest) i = Re.at_word p i.
Proof.
  intros Hi. unfold Re.at_word, str, char.
  destruct (decide (i = length p)) as [->|Hne].
  - rewrite list_lookup_middle by done.
    rewrite (lookup_ge_None_2 p (length p)) by lia. by vm_compute.
  - by rewrite lookup_app_l by lia.
Qed.

Lemma at_word_suffix p rest i :
  Re.at_word (p ++ 10%N :: rest) (length p + 1 + i) = Re.at_word rest i.
Proof.
  unfold Re.at_word, str, char. rewrite lookup_app_r by lia.
  by replace (length p + 1 + i - length p) with (S i) by lia.
Qed.

Lemma word_boundary_prefix p rest i :
  i <= length p -> Re.word_boundary (p ++ 10%N :: rest) i = Re.word_boundary p i.
Proof.
  intros Hi. unfold Re.word_boundary. destruct i as [|k].
  - by rewrite at_word_prefix by lia.
  - by rewrite !at_word_prefix by lia.
Qed.

Lemma word_boundary_suffix p rest i :
  Re.word_boundary (p ++ 10%N :: rest) (length p + 1 + i) = Re.word_boundary rest i.
Proof.
  unfold Re.word_boundary. rewrite at_word_suffix. destruct i as [|k].
  - replace (length p + 1 + 0) with (S (length p)) by lia.
    rewrite at_word_prefix by lia. unfold Re.at_word at 1. unfold str, char.
    by rewrite (lookup_ge_None_2 p (length p)) by lia.
  - replace (length p + 1 + S k) with (S (length p + 1 + k)) by lia.
    by rewrite at_word_suffix.
Qed.

Lemma word_boundary_beyond (p : list N) i :
  length p < i -> Re.word_boundary p i = false.
Proof.
  intros Hi. unfold Re.word_boundary, Re.at_word, str, char. destruct i as [|k]; [lia|].
  rewrite (lookup_ge_None_2 p k) by lia. by rewrite (lookup_ge_None_2 p (S k)) by lia.
Qed.

(** A match of a pattern that matches within a line lies on one side of a
    newline. *)
Lemma accepts_split p rest r i j :
  accepts (p ++ 10%N :: rest) r i j -> line_local r = true ->
  (j <= length p /\ accepts p r i j)
  \/ (length p < i /\ accepts rest r (i - length p - 1) (j - length p - 1)).
Proof.
  induction 1 as [i|q i c Hc Hq|a b i j k Ha IHa Hb IHb
                  |a b i j _ IH|a b i j _ IH
                  |r i|r i j k Hr IHr Hlt Hs IHs
                  |r i|r i j k Hr IHr Hlt Hs IHs
                  | |i He|i Hw|n r i j _ IH]; cbn [line_local]; intros Hl.
  - destruct (le_lt_dec i (length p)); [left|right]; (split; [done|constructor]).
  - apply negb_true_iff in Hl.
    apply lookup_line in Hc as [[Hlt Hc]|[[_ ->]|[Hgt Hc]]].
    + left. split; [lia|]. by apply accepts_Set with c.
    + congruence.
    + right. split; [done|].
      replace (S i - length p - 1) with (S (i - length p - 1)) by lia.
      by apply accepts_Set with c.
  - apply andb_true_iff in Hl as [Hla Hlb].
    destruct (accepts_bound Ha) as [Bij _]. destruct (accepts_bound Hb) as [Bjk _].
    destruct (IHa Hla) as [[Hj Ha']|[Hi Ha']], (IHb Hlb) as [[Hk Hb']|[Hj' Hb']];
      try lia.
    + left. split; [done|]. by apply accepts_Cat with j.
    + right. split; [done|]. by apply accepts_Cat with (j - length p - 1).
  - apply andb_true_iff in Hl as [Hla _].
    destruct (IH Hla) as [[? ?]|[? ?]]; [left|right]; (split; [done|]);
      by apply accepts_Alt_l.
  - apply andb_true_iff in Hl as [_ Hlb].
    destruct (IH Hlb) as [[? ?]|[? ?]]; [left|right]; (split; [done|]);
      by apply accepts_Alt_r.
  - destruct (le_lt_dec i (length p)); [left|right]; (split; [done|constructor]).
  - destruct (accepts_bound Hs) as [Bjk _].
    destruct (IHr Hl) as [[Hj Hr']|[Hi Hr']], (IHs Hl) as [[Hk Hs']|[Hj' Hs']];
      try lia.
    + left. split; [done|]. by apply accepts_Star_more with j.
    + right. split; [done|].
      apply accepts_Star_more with (j - length p - 1); [done|lia|done].
  - destruct (le_lt_dec i (length p)); [left|right]; (split; [done|constructor]).
  - destruct (accepts_bound Hs) as [Bjk _].
    destruct (IHr Hl) as [[Hj Hr']|[Hi Hr']], (IHs Hl) as [[Hk Hs']|[Hj' Hs']];
      try lia.
    + left. split; [done|]. by apply accepts_LazyStar_more with j.
    + right. split; [done|].
      apply accepts_LazyStar_more with (j - length p - 1); [done|lia|done].
  - discriminate.
  - discriminate.
  - destruct (le_lt_dec i (length p)) as [Hle|Hgt].
    + left. split; [done|]. constructor. by rewrite <- (word_boundary_prefix rest).
    + right. split; [done|]. constructor.
      rewrite <- (word_boundary_suffix p).
      by replace (length p + 1 + (i - length p - 1)) with i by lia.
  - destruct (IH Hl) as [[? ?]|[? ?]]; [left|right]; (split; [done|]);
      by constructor.
Qed.

Lemma accepts_in_prefix p rest r i j :
  accepts p r i j -> line_local r = true -> accepts (p ++ 10%N :: rest) r i j.
Proof.
  induction 1 as [i|q i c Hc Hq|a b i j k _ IHa _ IHb
                  |a b i j _ IH|a b i j _ IH
                  |r i|r i j k _ IHr Hlt _ IHs
                  |r i|r i j k _ IHr Hlt _ IHs
                  | |i He|i Hw|n r i j _ IH]; cbn [line_local]; intros Hl.
  - constructor.
  - apply accepts_Set with c; [|done]. by apply lookup_app_l_Some.
  - apply andb_true_iff in Hl as [Hla Hlb]. apply accepts_Cat with j; auto.
  - apply andb_true_iff in Hl as [Hla _]. apply accepts_Alt_l; auto.
  - apply andb_true_iff in Hl as [_ Hlb]. apply accepts_Alt_r; auto.
  - constructor.
  - apply accepts_Star_more with j; auto.
  - constructor.
  - apply accepts_LazyStar_more with j; auto.
  - discriminate.
  - discriminate.
  - constructor. destruct (le_lt_dec i (length p)) as [Hle|Hgt].
    + by rewrite word_boundary_prefix.
    + by rewrite word_boundary_beyond in Hw.
  - constructor; auto.
Qed.

Lemma accepts_in_suffix p rest r i j :
  accepts rest r i j -> line_local r = true ->
  accepts (p ++ 10%N :: rest) r (length p + 1 + i) (length p + 1 + j).
Proof.
  induction 1 as [i|q i c Hc Hq|a b i j k _ IHa _ IHb
                  |a b i j _ IH|a b i j _ IH
                  |r i|r i j k _ IHr Hlt _ IHs
                  |r i|r i j k _ IHr Hlt _ IHs
                  | |i He|i Hw|n r i j _ IH]; cbn [line_local]; intros Hl.
  - constructor.
  - replace (length p + 1 + S i) with (S (length p + 1 + i)) by lia.
    apply accepts_Set with c; [|done].
    etrans; [apply lookup_after|exact Hc].
  - apply andb_true_iff in Hl as [Hla Hlb].
    apply accepts_Cat with (length p + 1 + j); auto.
  - apply andb_true_iff in Hl as [Hla _]. apply accepts_Alt_l; auto.
  - apply andb_true_iff in Hl as [_ Hlb]. apply accepts_Alt_r; auto.
  - constructor.
  - apply accepts_Star_more with (length p + 1 + j); auto. lia.
  - constructor.
  - apply accepts_LazyStar_more with (length p + 1 + j); auto. lia.
  - discriminate.
  - discriminate.
  - constructor. by rewrite word_boundary_suffix.
  - constructor; auto.
Qed.

Lemma accepts_join r ps :
  line_local r = true -> ps <> [] ->
  (exists i j, i <= length (Py.join NL ps) /\ accepts (Py.join NL ps) r i j)
  <-> (exists p, p ∈ ps /\ exists i j, i <= length p /\ accepts p r i j).
Proof.
  intros Hl. induction ps as [|p ps IH]; [done|]. intros _.
  destruct ps as [|q ps].
  { cbn [Py.join]. split.
    - intros H. exists p. split; [by left|done].
    - intros (p' & Hp' & H). apply elem_of_cons in Hp' as [->|Hp']; [done|].
      by apply elem_of_nil in Hp'. }
  specialize (IH ltac:(done)).
  change (Py.join NL (p :: q :: ps)) with (p ++ 10%N :: Py.join NL (q :: ps)).
  set (rest := Py.join NL (q :: ps)) in *. clearbody rest.
  unfold str, char in *. split.
  - intros (i & j & Hi & Hacc). rewrite length_app in Hi. cbn [length] in Hi.
    destruct (accepts_bound Hacc) as [Hij _].
    destruct (accepts_split Hacc Hl) as [[Hj Hp]|[Hgt Hrest]].
    + exists p. split; [by left|]. exists i, j. split; [lia|done].
    + destruct (proj1 IH) as (p' & Hp' & H').
      { exists (i - length p - 1), (j - length p - 1). split; [lia|done]. }
      exists p'. split; [by right|done].
  - intros (p' & Hp' & i & j & Hi & Hacc).
    apply elem_of_cons in Hp' as [->|Hp'].
    + exists i, j. split; [rewrite length_app; lia|by apply accepts_in_prefix].
    + destruct (proj2 IH) as (i' & j' & Hi' & Hacc').
      { exists p'. split; [done|]. by exists i, j. }
      exists (length p + 1 + i'), (length p + 1 + j').
      split; [rewrite length_app; cbn [length]; lia|by apply accepts_in_suffix].
Qed.

Lemma rq_patterns_line_local : Forall (fun r => line_local r = true) research.RQ_PATTERNS.
Proof.
  apply Forall_forall. intros r Hr%list_elem_of_In. revert r Hr.
  apply (proj1 (forallb_forall line_local research.RQ_PATTERNS)).
  vm_compute. reflexivity.
Qed.

(** The joined paragraphs hold a research question exactly when one of
    the paragraphs does. *)
Lemma contains_research_question_join ps :
  research._contains_research_question (Py.join NL ps) = true
  <-> exists p, p ∈ ps /\ research._contains_research_question p = true.
Proof.
  destruct (decide (ps = [])) as [->|Hne].
  { split.
    - intros H. vm_compute in H. discriminate H.
    - intros (p & Hp & _). by apply elem_of_nil in Hp. }
  unfold research._contains_research_question. rewrite existsb_exists. split.
  - intros (r & Hr & Hf). apply found_accepts in Hf.
    assert (Hl : line_local r = true).
    { pose proof rq_patterns_line_local as Hall. rewrite Forall_forall in Hall.
      by apply Hall, list_elem_of_In. }
    apply (accepts_join Hl Hne) in Hf as (p & Hp & Hacc).
    exists p. split; [done|]. apply existsb_exists. exists r. split; [done|].
    by apply found_accepts.
  - intros (p & Hp & (r & Hr & Hf)%existsb_exists). exists r. split; [done|].
    assert (Hl : line_local r = true).
    { pose proof rq_patterns_line_local as Hall. rewrite Forall_forall in Hall.
      by apply Hall, list_elem_of_In. }
    apply found_accepts, (accepts_join Hl Hne). exists p. split; [done|].
    by apply found_accepts.
Qed.

(** X23: the joined text of the document holds a research question
    exactly when one of its paragraphs does, because no pattern of
    RQ_PATTERNS matches across a newline.  ResearchQuestionExistsRule
    therefore returns one finding, which is info exactly when a paragraph
    holds a research question, and its evidence is then the first such
    paragraph, cut to 220 characters: the finding without evidence is never
    returned.  When the rule reports an error, the rules RQ-003, RQ-004 and
    RQ-005 find no research question without an annotation either. *)
Theorem research_question_is_in_a_paragraph (doc : DocumentModel)
        (ai : option AIAnnotations) :
  (research._contains_research_question (research.full_text doc) = true
   <-> exists p, p ∈ paragraphs doc /\ research._contains_research_question p = true)
  /\ exists f, ResearchQuestionExistsRule.run doc ai = [f]
     /\ (severity f = u "info" \/ severity f = u "error")
     /\ (severity f = u "info"
         <-> exists p, p ∈ paragraphs doc
                       /\ research._contains_research_question p = true)
     /\ (severity f = u "info" ->
         exists p, research.first_rq_paragraph doc = Some p
                   /\ research._contains_research_question p = true
                   /\ evidence f = Some (take 220 p))
     /\ (severity f = u "error" -> research.rq_source doc None = None).
Proof.
  pose proof (contains_research_question_join (paragraphs doc)) as Hjoin.
  fold (research.full_text doc) in Hjoin. split; [exact Hjoin|].
  unfold ResearchQuestionExistsRule.run, research.rq_source.
  destruct (research._contains_research_question (research.full_text doc)) eqn:Hc.
  - destruct (proj1 Hjoin eq_refl) as (p & Hp & Hq).
    destruct (research.first_rq_paragraph doc) as [p0|] eqn:Hfirst.
    + apply find_some in Hfirst as [_ Hq0].
      eexists. split; [reflexivity|]. split; [by left|].
      split; [split; [intros _; by exists p|reflexivity]|].
      split; [intros _; by exists p0|wrong_severity].
    + exfalso. apply list_elem_of_In in Hp.
      pose proof (find_none _ _ Hfirst p Hp) as Hno. congruence.
  - assert (Hnone : research.first_rq_paragraph doc = None).
    { destruct (research.first_rq_paragraph doc) as [p0|] eqn:Hfirst; [|done].
      apply find_some in Hfirst as [Hin Hq0]. apply list_elem_of_In in Hin.
      assert (Hft : false = true) by (apply Hjoin; by exists p0).
      discriminate Hft. }
    rewrite Hnone. eexists. split; [reflexivity|]. split; [by right|].
    split; [split; [wrong_severity|]|].
    + intros H. apply Hjoin in H. discriminate H.
    + split; [wrong_severity|reflexivity].
Qed.

(** ** A research question of a section lies in a paragraph of the document *)

Lemma space_is_no_word c :
  unicodedata.isspace c = true -> unicodedata.isword c = false.
Proof.
  unfold unicodedata.isspace, unicodedata.isword, in_range, char.
  intros Hs. apply not_true_is_false. intros Hw.
  repeat rewrite ?orb_true_iff, ?andb_true_iff, ?N.leb_le, ?N.eqb_eq in Hs.
  repeat rewrite ?orb_true_iff, ?andb_true_iff, ?N.leb_le, ?N.eqb_eq in Hw.
  lia.
Qed.

Lemma lstrip_decompose (s : list N) :
  exists pre, s = pre ++ Py.lstrip s
              /\ Forall (fun c => unicodedata.isspace c = true) pre.
Proof.
  induction s as [|c s (pre & IH & Hpre)]; [by exists []|].
  cbn [Py.lstrip]. destruct (unicodedata.isspace c) eqn:Hc.
  - exists (c :: pre). split; [cbn [app]; by f_equal|by constructor].
  - by exists [].
Qed.

Lemma strip_decompose (s : list N) :
  exists pre post, s = pre ++ Py.strip s ++ post
                   /\ Forall (fun c => unicodedata.isspace c = true) pre
                   /\ Forall (fun c => unicodedata.isspace c = true) post.
Proof.
  destruct (lstrip_decompose s) as (pre & Hs & Hpre).
  destruct (lstrip_decompose (rev (Py.lstrip s))) as (erp & Hr & Herp).
  exists pre, (rev erp). split; [|split; [done|by apply Forall_rev]].
  unfold Py.strip, Py.rstrip. rewrite <- rev_app_distr, <- Hr, rev_involutive.
  exact Hs.
Qed.

Section Padding.
Variables pre m post : list N.
Hypothesis Hpre : Forall (fun c => unicodedata.isspace c = true) pre.
Hypothesis Hpost : Forall (fun c => unicodedata.isspace c = true) post.

Lemma at_word_inside i :
  i < length m -> Re.at_word (pre ++ m ++ post) (length pre + i) = Re.at_word m i.
Proof.
  intros Hi. unfold Re.at_word, str, char.
  rewrite lookup_app_r by lia. rewrite lookup_app_l by lia.
  by replace (length pre + i - length pre) with i by lia.
Qed.

Lemma at_word_before k : k < length pre -> Re.at_word (pre ++ m ++ post) k = false.
Proof.
  intros Hk. unfold Re.at_word, str, char. rewrite lookup_app_l by lia.
  destruct (pre !! k) as [c|] eqn:Hc; [|done].
  apply space_is_no_word. rewrite Forall_forall in Hpre.
  apply Hpre. by apply list_elem_of_lookup_2 in Hc.
Qed.

Lemma at_word_behind k :
  length pre + length m <= k -> Re.at_word (pre ++ m ++ post) k = false.
Proof.
  intros Hk. unfold Re.at_word, str, char.
  rewrite lookup_app_r by lia. rewrite lookup_app_r by lia.
  destruct (post !! _) as [c|] eqn:Hc; [|done].
  apply space_is_no_word. rewrite Forall_forall in Hpost.
  apply Hpost. by apply list_elem_of_lookup_2 in Hc.
Qed.

Lemma at_word_outside k : length m <= k -> Re.at_word m k = false.
Proof.
  intros Hk. unfold Re.at_word, str, char. by rewrite lookup_ge_None_2 by lia.
Qed.

Lemma word_boundary_inside i :
  Re.word_boundary (pre ++ m ++ post) (length pre + i) = Re.word_boundary m i.
Proof.
  assert (Hat : Re.at_word (pre ++ m ++ post) (length pre + i) = Re.at_word m i).
  { destruct (le_lt_dec (length m) i).
    - rewrite at_word_behind by lia. by rewrite at_word_outside by lia.
    - by apply at_word_inside. }
  unfold Re.word_boundary. rewrite Hat. f_equal.
  destruct i as [|k].
  - rewrite Nat.add_0_r. destruct (length pre) as [|n] eqn:Hn; [done|].
    apply at_word_before. lia.
  - replace (length pre + S k) with (S (length pre + k)) by lia.
    destruct (le_lt_dec (length m) k).
    + rewrite at_word_behind by lia. by rewrite at_word_outside by lia.
    + by apply at_word_inside.
Qed.

(** A match within a text is a match within the text between white
    space. *)
Lemma accepts_in_context r i j :
  accepts m r i j -> line_local r = true ->
  accepts (pre ++ m ++ post) r (length pre + i) (length pre + j).
Proof.
  induction 1 as [i|q i c Hc Hq|a b i j k _ IHa _ IHb
                  |a b i j _ IH|a b i j _ IH
                  |r i|r i j k _ IHr Hlt _ IHs
                  |r i|r i j k _ IHr Hlt _ IHs
                  | |i He|i Hw|n r i j _ IH]; cbn [line_local]; intros Hl.
  - constructor.
  - replace (length pre + S i) with (S (length pre + i)) by lia.
    apply accepts_Set with c; [|done].
    pose proof (lookup_lt_Some _ _ _ Hc) as Hlt.
    etrans; [|exact Hc]. unfold str, char in *.
    rewrite lookup_app_r by lia. rewrite lookup_app_l by lia.
    by replace (length pre + i - length pre) with i by lia.
  - apply andb_true_iff in Hl as [Hla Hlb].
    apply accepts_Cat with (length pre + j); auto.
  - apply andb_true_iff in Hl as [Hla _]. apply accepts_Alt_l; auto.
  - apply andb_true_iff in Hl as [_ Hlb]. apply accepts_Alt_r; auto.
  - constructor.
  - apply accepts_Star_more with (length pre + j); auto. lia.
  - constructor.
  - apply accepts_LazyStar_more with (length pre + j); auto. lia.
  - discriminate.
  - discriminate.
  - constructor. by rewrite word_boundary_inside.
  - constructor; auto.
Qed.

End Padding.

Lemma contains_research_question_strip (t : list N) :
  research._contains_research_question (Py.strip t) = true ->
  research._contains_research_question t = true.
Proof.
  destruct (strip_decompose t) as (pre & post & Ht & Hpre & Hpost).
  unfold research._contains_research_question. rewrite !existsb_exists.
  intros (r & Hr & Hf). exists r. split; [done|].
  assert (Hl : line_local r = true).
  { pose proof rq_patterns_line_local as Hall. rewrite Forall_forall in Hall.
    by apply Hall, list_elem_of_In. }
  apply found_accepts in Hf as (i & j & Hi & Hacc).
  apply found_accepts. exists (length pre + i), (length pre + j).
  rewrite Ht at 1 2. split.
  - rewrite !length_app. unfold str, char in *. lia.
  - by apply accepts_in_context.
Qed.

(** A research question in the text of a section lies in one of the
    paragraphs of the document. *)
Lemma section_question_in_paragraph paragraphs hdgs key sec :
  _build_sections paragraphs hdgs !! key = Some sec ->
  research._contains_research_question (sec_text sec) = true ->
  exists p, p ∈ paragraphs /\ research._contains_research_question p = true.
Proof.
  intros (i & h & _ & _ & ->)%build_sections_lookup.
  unfold section_from. cbv zeta. cbn [sec_text].
  intros (p & Hp & Hq)%contains_research_question_strip%contains_research_question_join.
  exists p. split; [|done].
  apply list_elem_of_In, filter_In in Hp as [Hp _]. apply list_elem_of_In in Hp.
  unfold Py.slice in Hp.
  by apply (subseteq_take _ _), (subseteq_drop _ _) in Hp.
Qed.

(** X24: on a document of the extractor the two rules agree: when
    ResearchQuestionInIntroRule finds a research question in the text of
    the section einleitung, the question lies in a paragraph of the
    document and ResearchQuestionExistsRule reports it; when
    ResearchQuestionExistsRule reports an error, ResearchQuestionInIntroRule
    warns. *)
Theorem intro_question_is_reported (name : str) (root : Element) (tables : nat)
        (ai : option AIAnnotations) :
  let doc := extract_docx name root tables in
  exists f1 f2,
    ResearchQuestionExistsRule.run doc ai = [f1]
    /\ ResearchQuestionInIntroRule.run doc ai = [f2]
    /\ (severity f2 = u "info" \/ severity f2 = u "warn")
    /\ (severity f2 = u "info" -> severity f1 = u "info")
    /\ (severity f1 = u "error" -> severity f2 = u "warn").
Proof.
  cbv zeta.
  assert (Hsec : forall sec,
             sections (extract_docx name root tables) !! u "einleitung" = Some sec ->
             research._contains_research_question (sec_text sec) = true ->
             research._contains_research_question
               (research.full_text (extract_docx name root tables)) = true).
  { intros sec Hs Hq. apply contains_research_question_join.
    unfold extract_docx in Hs |- *.
    destruct (_extract_paragraphs_and_headings_from_xml root) as [ps hs].
    destruct (_extract_references ps). cbn [sections paragraphs] in Hs |- *.
    by apply (section_question_in_paragraph Hs). }
  revert Hsec. generalize (extract_docx name root tables). intros doc Hsec.
  unfold ResearchQuestionExistsRule.run, ResearchQuestionInIntroRule.run.
  destruct (sections doc !! u "einleitung") as [intro|].
  2: { destruct (research._contains_research_question (research.full_text doc));
       [destruct (research.first_rq_paragraph doc)|];
       (eexists _, _; split; [reflexivity|]; split; [reflexivity|];
        split; [by right|]; split; [wrong_severity|reflexivity]). }
  specialize (Hsec intro eq_refl).
  destruct (research._contains_research_question (sec_text intro)).
  - rewrite (Hsec eq_refl).
    destruct (research.first_rq_paragraph doc);
      (eexists _, _; split; [reflexivity|]; split; [reflexivity|];
       split; [by left|]; split; [reflexivity|wrong_severity]).
  - destruct (research._contains_research_question (research.full_text doc));
      [destruct (research.first_rq_paragraph doc)|];
      (eexists _, _; split; [reflexivity|]; split; [reflexivity|];
       split; [by right|]; split; [wrong_severity|reflexivity]).
Qed.
